(** * rotatelog: a shallow embedding of the leveled, rotating logger

    The repository holds three generations of the same Go package
    [rotatelog]; every one of them is embedded below, in a module of its own,
    next to the small part of the Go runtime they call into:

    - [digits], [gostrings], [filepath] : decimal strings, [strings.Replace],
                   [filepath.Dir]/[Join] on clean slash-separated paths;
    - [gotime]   : [time.Duration], [time.Time], [Format], [ParseInLocation],
                   [Truncate] and [Sub] for the all-digit layouts of the package;
    - [regex]    : leftmost match of the two patterns the package compiles;
    - [os]       : the file system as a finite map from paths to contents,
                   a script of faults for the fallible calls, a clock, the
                   trace of the calls issued and the records written;
    - [levels]   : [Level], [levelNames], [levelTags], [NewLevel] (identical
                   in the three generations);
    - [Part001]  : the generation with [SetLogParam], [lastSuffix] and the
                   [compressing] flag (src/unnamed/part_001);
    - [Part000]  : the generation with [StartRoutine] (src/unnamed/part_000);
    - [LogGo]    : the generation with [StartRotate]/[Stop] (src/log.go).

    Methods keep their Go names.  A method takes the logger and the world
    and returns what it returns in Go together with the logger and the world
    it leaves; a [go] statement adds a task to the list the method returns.
    What [prefix], [flag] and the caller depth add to a record is left out:
    a record is its level tag followed by the formatted message.

    [examples] holds the concrete inputs, [spec] the vocabulary of the
    statements; the properties follow them. *)

From Stdlib Require Import ZArith String Ascii List Lia Bool.
From stdpp Require Import base gmap strings list.

Open Scope string_scope.
Open Scope Z_scope.

(** ** Strings of decimal digits *)

Module digits.

Definition isDigit (c : ascii) : bool :=
  (48 <=? nat_of_ascii c)%nat && (nat_of_ascii c <=? 57)%nat.

Definition digit_of (c : ascii) : Z := Z.of_nat (nat_of_ascii c) - 48.

Definition char_of (d : Z) : ascii := ascii_of_nat (Z.to_nat (48 + d mod 10)).

(** [atoi_acc acc s]: the value of the digit string [s] appended to [acc];
    [None] when a character is not a digit. *)
Fixpoint atoi_acc (acc : Z) (s : string) : option Z :=
  match s with
  | EmptyString => Some acc
  | String c r => if isDigit c then atoi_acc (10 * acc + digit_of c) r else None
  end.

Definition atoi (s : string) : option Z :=
  match s with
  | EmptyString => None
  | _ => atoi_acc 0 s
  end.

(** [zpad width v]: [v >= 0] in decimal, zero-padded on the left to [width]
    characters (Go's appendInt). *)
Fixpoint zpad_aux (width : nat) (v : Z) (acc : string) : string :=
  match width with
  | O => acc
  | S w => zpad_aux w (v / 10) (String (char_of v) acc)
  end.

Definition zpad (width : nat) (v : Z) : string := zpad_aux width v "".

Fixpoint all_digits (s : string) : bool :=
  match s with
  | EmptyString => true
  | String c r => isDigit c && all_digits r
  end.

(** The first [n] characters of [s] and what follows them; [None] when [s] is
    shorter. *)
Fixpoint take_n (n : nat) (s : string) : option (string * string) :=
  match n with
  | O => Some ("", s)
  | S k =>
      match s with
      | EmptyString => None
      | String c r =>
          match take_n k r with
          | Some (p, q) => Some (String c p, q)
          | None => None
          end
      end
  end.

End digits.

(** ** The part of package [time] the logger uses *)

Module gotime.

Import digits.

(** [time.Duration] is an [int64] count of nanoseconds. *)
Definition Duration := Z.

Definition minDuration : Duration := - 2 ^ 63.
Definition maxDuration : Duration := 2 ^ 63 - 1.

(** Two's-complement wrap-around of [int64] arithmetic. *)
Definition wrap64 (z : Z) : Z := (z + 2 ^ 63) mod 2 ^ 64 - 2 ^ 63.

Definition Nanosecond : Duration := 1.
Definition Second : Duration := 1000000000.
Definition Minute : Duration := 60 * Second.
Definition Hour : Duration := 60 * Minute.

(** [d1 * d2] on [int64]. *)
Definition dur_mul (d1 d2 : Duration) : Duration := wrap64 (d1 * d2).

(** A [time.Time] is an instant: nanoseconds since the Unix epoch.  Locations
    are fixed offsets, in seconds east of UTC. *)
Definition Time := Z.
Definition Location := Z.

(** [time.Time{}]: January 1, year 1, 00:00:00 UTC. *)
Definition zeroTime : Time := - 62135596800 * Second.

(** Days since 1970-01-01 of a proleptic Gregorian date, and back. *)
Definition days_from_civil (y m d : Z) : Z :=
  let y' := if m <=? 2 then y - 1 else y in
  let era := y' / 400 in
  let yoe := y' - era * 400 in
  let mp := (m + 9) mod 12 in
  let doy := (153 * mp + 2) / 5 + d - 1 in
  let doe := yoe * 365 + yoe / 4 - yoe / 100 + doy in
  era * 146097 + doe - 719468.

Definition civil_from_days (z : Z) : Z * Z * Z :=
  let z := z + 719468 in
  let era := z / 146097 in
  let doe := z - era * 146097 in
  let yoe := (doe - doe / 1460 + doe / 36524 - doe / 146096) / 365 in
  let y := yoe + era * 400 in
  let doy := doe - (365 * yoe + yoe / 4 - yoe / 100) in
  let mp := (5 * doy + 2) / 153 in
  let d := doy - (153 * mp + 2) / 5 + 1 in
  let m := if mp <? 10 then mp + 3 else mp - 9 in
  (if m <=? 2 then y + 1 else y, m, d).

Definition isLeap (y : Z) : bool :=
  (y mod 4 =? 0) && (negb (y mod 100 =? 0) || (y mod 400 =? 0)).

Definition daysIn (m y : Z) : Z :=
  if m =? 2 then (if isLeap y then 29 else 28)
  else if (m =? 4) || (m =? 6) || (m =? 9) || (m =? 11) then 30
  else 31.

(** [time.Date(y, m, d, h, mi, s, 0, loc)] for in-range fields. *)
Definition Date (y m d h mi s : Z) (loc : Location) : Time :=
  (days_from_civil y m d * 86400 + h * 3600 + mi * 60 + s - loc) * Second.

(** The civil fields of an instant in a location. *)
Record Civil := { year : Z; month : Z; day : Z; hour : Z; minute : Z; second : Z }.

Definition civil (loc : Location) (t : Time) : Civil :=
  let secs := t / Second + loc in
  let '(y, m, d) := civil_from_days (secs / 86400) in
  let r := secs mod 86400 in
  {| year := y; month := m; day := d;
     hour := r / 3600; minute := (r mod 3600) / 60; second := r mod 60 |}.

(** The chunks [nextStdChunk] cuts the package's layouts into.  The layouts
    are the constants [formatDay], [formatHour], [formatMin], [formatSec];
    any other character stands for itself. *)
Inductive Chunk :=
| stdLongYear | stdZeroMonth | stdZeroDay | stdHour | stdZeroMinute | stdZeroSecond
| stdLit (c : ascii).

Fixpoint chunks (layout : string) : list Chunk :=
  match layout with
  | EmptyString => []
  | String "2" (String "0" (String "0" (String "6" r))) => stdLongYear :: chunks r
  | String "0" (String "1" r) => stdZeroMonth :: chunks r
  | String "0" (String "2" r) => stdZeroDay :: chunks r
  | String "1" (String "5" r) => stdHour :: chunks r
  | String "0" (String "4" r) => stdZeroMinute :: chunks r
  | String "0" (String "5" r) => stdZeroSecond :: chunks r
  | String c r => stdLit c :: chunks r
  end.

Definition format_chunk (c : Civil) (k : Chunk) : string :=
  match k with
  | stdLongYear => zpad 4 (year c)
  | stdZeroMonth => zpad 2 (month c)
  | stdZeroDay => zpad 2 (day c)
  | stdHour => zpad 2 (hour c)
  | stdZeroMinute => zpad 2 (minute c)
  | stdZeroSecond => zpad 2 (second c)
  | stdLit a => String a ""
  end.

(** [t.Format(layout)], [t] carrying location [loc]. *)
Definition Format (loc : Location) (t : Time) (layout : string) : string :=
  let c := civil loc t in
  fold_right (fun k acc => format_chunk c k +:+ acc) "" (chunks layout).

(** [t.Truncate(d)]: [t] rounded down to a multiple of [d] since the zero
    time; [t] itself when [d <= 0]. *)
Definition Truncate (t : Time) (d : Duration) : Time :=
  if d <=? 0 then t else t - (t - zeroTime) mod d.

(** [t.Sub(u)]: the difference, saturated to the range of [Duration]. *)
Definition Sub (t u : Time) : Duration :=
  Z.max minDuration (Z.min maxDuration (t - u)).

(** Parsing.  The fields are collected chunk by chunk; a field out of range
    or a malformed value is an error. *)
Definition set_field (k : Chunk) (v : Z) (c : Civil) : Civil :=
  match k with
  | stdLongYear => {| year := v; month := month c; day := day c; hour := hour c; minute := minute c; second := second c |}
  | stdZeroMonth => {| year := year c; month := v; day := day c; hour := hour c; minute := minute c; second := second c |}
  | stdZeroDay => {| year := year c; month := month c; day := v; hour := hour c; minute := minute c; second := second c |}
  | stdHour => {| year := year c; month := month c; day := day c; hour := v; minute := minute c; second := second c |}
  | stdZeroMinute => {| year := year c; month := month c; day := day c; hour := hour c; minute := v; second := second c |}
  | stdZeroSecond => {| year := year c; month := month c; day := day c; hour := hour c; minute := minute c; second := v |}
  | stdLit _ => c
  end.

Definition field_width (k : Chunk) : nat :=
  match k with stdLongYear => 4%nat | stdLit _ => 1%nat | _ => 2%nat end.

(** Range checks made while the field is read (any two-digit [day] is taken
    here; it is checked against the month once everything is read). *)
Definition field_in_range (k : Chunk) (v : Z) : bool :=
  match k with
  | stdLongYear => true
  | stdZeroMonth => (1 <=? v) && (v <=? 12)
  | stdZeroDay => true
  | stdHour => (0 <=? v) && (v <? 24)
  | stdZeroMinute => (0 <=? v) && (v <? 60)
  | stdZeroSecond => (0 <=? v) && (v <? 60)
  | stdLit _ => true
  end.

Fixpoint parse_chunks (ks : list Chunk) (value : string) (c : Civil) : option Civil :=
  match ks with
  | [] => match value with EmptyString => Some c | _ => None end
  | stdLit a :: ks' =>
      match value with
      | String b r => if Ascii.eqb a b then parse_chunks ks' r c else None
      | EmptyString => None
      end
  | k :: ks' =>
      match take_n (field_width k) value with
      | Some (p, r) =>
          match atoi p with
          | Some v => if field_in_range k v then parse_chunks ks' r (set_field k v c) else None
          | None => None
          end
      | None => None
      end
  end.

(** [time.ParseInLocation(layout, value, loc)]: the instant and a nil error,
    or the zero time and an error (whose text is abridged here). *)
Definition ParseInLocation (layout value : string) (loc : Location) : Time * option string :=
  let start := {| year := 0; month := 1; day := 1; hour := 0; minute := 0; second := 0 |} in
  match parse_chunks (chunks layout) value start with
  | Some c =>
      if (1 <=? day c) && (day c <=? daysIn (month c) (year c))
      then (Date (year c) (month c) (day c) (hour c) (minute c) (second c) loc, None)
      else (zeroTime, Some ("parsing time " +:+ value +:+ ": day out of range"))
  | None => (zeroTime, Some ("parsing time " +:+ value +:+ " as " +:+ layout +:+ ": cannot parse"))
  end.

End gotime.

(** ** The two patterns the package compiles *)

Module regex.

Import digits.

(** [[0-9]{n}] and [[0-9]{n}\.gz]; the parentheses of [([0-9]{n})] change
    nothing for [FindString]. *)
Inductive Regexp :=
| Digits (n : nat)
| DigitsGz (n : nat).

(** The match of the pattern at the very start of [s], if any. *)
Definition match_here (rx : Regexp) (s : string) : option string :=
  match rx with
  | Digits n =>
      match take_n n s with
      | Some (p, _) => if all_digits p then Some p else None
      | None => None
      end
  | DigitsGz n =>
      match take_n n s with
      | Some (p, r) =>
          if all_digits p && String.prefix ".gz" r then Some (p +:+ ".gz") else None
      | None => None
      end
  end.

(** The leftmost match in [s], if any. *)
Fixpoint find (rx : Regexp) (s : string) : option string :=
  match match_here rx s with
  | Some m => Some m
  | None =>
      match s with
      | EmptyString => None
      | String _ r => find rx r
      end
  end.

(** [rx.FindString(s)]: the text of the leftmost match, the empty string when
    there is none. *)
Definition FindString (rx : Regexp) (s : string) : string :=
  match find rx s with
  | Some m => m
  | None => ""
  end.

End regex.

(** ** Package [strings] and [path/filepath], on clean slash-separated paths *)

Module gostrings.

(** [strings.Replace(s, old, "", 1)]: [s] without the first occurrence of
    [old] ([old] not empty). *)
Fixpoint remove_first (old s : string) : string :=
  match s with
  | EmptyString => ""
  | String c r =>
      if String.prefix old s
      then match digits.take_n (String.length old) s with
           | Some (_, rest) => rest
           | None => s
           end
      else String c (remove_first old r)
  end.

End gostrings.

Module filepath.

(** The text before the last slash of [s] and the text after it. *)
Fixpoint split_last (s : string) : option (string * string) :=
  match s with
  | EmptyString => None
  | String c r =>
      match split_last r with
      | Some (d, b) => Some (String c d, b)
      | None => if Ascii.eqb c "/" then Some ("", r) else None
      end
  end.

Definition Dir (path : string) : string :=
  match split_last path with
  | None => "."
  | Some (EmptyString, _) => "/"
  | Some (d, _) => d
  end.

Definition Base (path : string) : string :=
  match split_last path with
  | None => path
  | Some (_, b) => b
  end.

Definition Join (dir name : string) : string :=
  if String.eqb dir "." then name
  else if String.eqb dir "/" then "/" +:+ name
  else dir +:+ "/" +:+ name.

End filepath.

(** ** The operating system: files by path, scripted faults, a clock *)

Module os.

Import gotime.

(** A Go [error], by its message. *)
Definition error := string.

(** What a file holds: raw bytes, or the gzip stream of some data. *)
Inductive Data :=
| Raw (bytes : string)
| Gz (inner : Data).

(** [*os.File]: an open handle, by the name it was opened under. *)
Record File := { Name : string }.

(** An [io.Writer]: a file, or anything else ([os.Stderr] wrapped in a
    buffer, [ioutil.Discard], ...). *)
Inductive Writer :=
| FileWriter (f : File)
| OtherWriter.

(** The system calls the package issues. *)
Inductive Call :=
| CRename (oldpath newpath : string)
| COpenAppend (name : string)
| COpenTrunc (name : string)
| COpen (name : string)
| CRemove (name : string)
| CReaddirnames (dir : string)
| CGlob (pattern : string)
| CCopy (dst src : string)
| CClose (name : string).

(** The world a call runs in.  [faults] scripts the outcome of the coming
    fallible calls, one entry each: [Some e] makes the call fail with [e] and
    change nothing, [None] (and an exhausted script) lets it run.  [now] is
    what [time.Now()] reads next, [later] the readings after it, [local] the
    offset of [time.Local].  [trace] lists the calls issued and [emitted] the
    records written through the embedded [log.Logger], both oldest first. *)
Record World := {
  files : gmap string Data;
  faults : list (option error);
  now : Time;
  later : list Time;
  local : Location;
  trace : list Call;
  emitted : list string;
}.

Definition set_files (fs : gmap string Data) (w : World) : World :=
  {| files := fs; faults := faults w; now := now w; later := later w;
     local := local w; trace := trace w; emitted := emitted w |}.

Definition issue (c : Call) (w : World) : World :=
  {| files := files w; faults := faults w; now := now w; later := later w;
     local := local w; trace := trace w ++ [c]; emitted := emitted w |}.

Definition emit (line : string) (w : World) : World :=
  {| files := files w; faults := faults w; now := now w; later := later w;
     local := local w; trace := trace w; emitted := emitted w ++ [line] |}.

(** The outcome scripted for the next fallible call. *)
Definition next_fault (w : World) : option error * World :=
  match faults w with
  | [] => (None, w)
  | f :: fs =>
      (f, {| files := files w; faults := fs; now := now w; later := later w;
             local := local w; trace := trace w; emitted := emitted w |})
  end.

(** [time.Now()]. *)
Definition Now (w : World) : Time * World :=
  (now w,
   match later w with
   | [] => w
   | t :: ts =>
       {| files := files w; faults := faults w; now := t; later := ts;
          local := local w; trace := trace w; emitted := emitted w |}
   end).

(** [os.Rename(oldpath, newpath)]: replaces [newpath] when it exists. *)
Definition Rename (oldpath newpath : string) (w : World) : option error * World :=
  let '(f, w) := next_fault (issue (CRename oldpath newpath) w) in
  match f with
  | Some e => (Some e, w)
  | None =>
      match files w !! oldpath with
      | Some d => (None, set_files (<[newpath := d]> (delete oldpath (files w))) w)
      | None => (Some ("rename " +:+ oldpath +:+ " " +:+ newpath +:+ ": no such file or directory"), w)
      end
  end.

(** [os.OpenFile(name, O_WRONLY|O_APPEND|O_CREATE, perm)] (and the [O_RDWR]
    variant of [SetOutputByName]): the file is created empty when missing. *)
Definition OpenAppend (name : string) (w : World) : (File + error) * World :=
  let '(f, w) := next_fault (issue (COpenAppend name) w) in
  match f with
  | Some e => (inr e, w)
  | None =>
      match files w !! name with
      | Some _ => (inl {| Name := name |}, w)
      | None => (inl {| Name := name |}, set_files (<[name := Raw ""]> (files w)) w)
      end
  end.

(** [os.OpenFile(name, O_WRONLY|O_TRUNC|O_CREATE, perm)]: the file is left
    empty. *)
Definition OpenTrunc (name : string) (w : World) : (File + error) * World :=
  let '(f, w) := next_fault (issue (COpenTrunc name) w) in
  match f with
  | Some e => (inr e, w)
  | None => (inl {| Name := name |}, set_files (<[name := Raw ""]> (files w)) w)
  end.

(** [os.Open(name)] of a regular file. *)
Definition Open (name : string) (w : World) : (File + error) * World :=
  let '(f, w) := next_fault (issue (COpen name) w) in
  match f with
  | Some e => (inr e, w)
  | None =>
      match files w !! name with
      | Some _ => (inl {| Name := name |}, w)
      | None => (inr ("open " +:+ name +:+ ": no such file or directory"), w)
      end
  end.

(** [os.Open(dir)] of a directory; directories are implicit in [files]. *)
Definition OpenDir (dir : string) (w : World) : (File + error) * World :=
  let '(f, w) := next_fault (issue (COpen dir) w) in
  match f with
  | Some e => (inr e, w)
  | None => (inl {| Name := dir |}, w)
  end.

(** [os.Remove(name)]. *)
Definition Remove (name : string) (w : World) : option error * World :=
  let '(f, w) := next_fault (issue (CRemove name) w) in
  match f with
  | Some e => (Some e, w)
  | None =>
      match files w !! name with
      | Some _ => (None, set_files (delete name (files w)) w)
      | None => (Some ("remove " +:+ name +:+ ": no such file or directory"), w)
      end
  end.

(** [f.Close()]; its result is dropped everywhere in the package. *)
Definition Close (f : File) (w : World) : World := issue (CClose (Name f)) w.

(** The names of the entries of [dir], in directory order. *)
Definition entries (dir : string) (w : World) : list string :=
  omap (fun p => if String.eqb (filepath.Dir p) dir then Some (filepath.Base p) else None)
       (map fst (map_to_list (files w))).

(** [d.Readdirnames(-1)]. *)
Definition Readdirnames (d : File) (w : World) : (list string + error) * World :=
  let '(f, w) := next_fault (issue (CReaddirnames (Name d)) w) in
  match f with
  | Some e => (inr e, w)
  | None => (inl (entries (Name d) w), w)
  end.

(** [filepath.Glob(dir + "/*")]: the paths of the entries of [dir]. *)
Definition Glob (dir : string) (w : World) : (list string + error) * World :=
  let '(f, w) := next_fault (issue (CGlob (dir +:+ "/*")) w) in
  match f with
  | Some e => (inr e, w)
  | None => (inl (map (filepath.Join dir) (entries dir w)), w)
  end.

(** [io.Copy(gzip.NewWriter(dst), src)] together with the writer's later
    [Flush] and [Close]: [dst] ends up holding the gzip stream of what [src]
    holds.  A failed copy leaves [dst] as it was opened. *)
Definition CopyGz (dst src : File) (w : World) : option error * World :=
  let '(f, w) := next_fault (issue (CCopy (Name dst) (Name src)) w) in
  match f with
  | Some e => (Some e, w)
  | None =>
      match files w !! Name src with
      | Some d => (None, set_files (<[Name dst := Gz d]> (files w)) w)
      | None => (None, set_files (<[Name dst := Gz (Raw "")]> (files w)) w)
      end
  end.

End os.

(** ** Levels (the same text in the three generations) *)

Module levels.

(** [type Level int]. *)
Definition Level := Z.

Definition LevelDebug : Level := 0.
Definition LevelInfo : Level := 1.
Definition LevelNotice : Level := 2.
Definition LevelWarning : Level := 3.
Definition LevelError : Level := 4.
Definition LevelCritical : Level := 5.

Definition tagDebug := "[Debug] ".
Definition tagInfo := "[Info] ".
Definition tagNotice := "[Notice] ".
Definition tagWarning := "[Warning] ".
Definition tagError := "[Error] ".
Definition tagCritical := "[Critical] ".

Definition formatDay := "20060102".
Definition formatHour := "2006010215".
Definition formatMin := "200601021504".
Definition formatSec := "20060102150405".

Definition levelTags : gmap Z string :=
  <[LevelDebug := tagDebug]> (<[LevelInfo := tagInfo]> (<[LevelNotice := tagNotice]>
  (<[LevelWarning := tagWarning]> (<[LevelError := tagError]>
  (<[LevelCritical := tagCritical]> ∅))))).

Definition levelNames : gmap string Z :=
  <["debug" := LevelDebug]> (<["info" := LevelInfo]> (<["notice" := LevelNotice]>
  (<["warning" := LevelWarning]> (<["error" := LevelError]>
  (<["critical" := LevelCritical]> ∅))))).

Definition NewLevel (name : string) : Level :=
  match levelNames !! name with
  | Some l => l
  | None => LevelError
  end.

(** [func (l Level) String() string]. *)
Definition Level_String (l : Level) : string :=
  match levelTags !! l with
  | Some name => name
  | None => "[Unknown] "
  end.

(** [l.log(level, format, v...)] for a logger whose threshold is [min]: the
    record is dropped below the threshold, else the tag and the formatted
    message go out through [log.Logger.Output]. *)
Definition log (min level : Level) (msg : string) (w : os.World) : os.World :=
  if level <? min then w else os.emit (Level_String level +:+ msg) w.

End levels.

(** ** src/unnamed/part_001: [SetLogParam], [lastSuffix], [compressing] *)

Module Part001.

Import gotime.

Record LogParam := {
  Rotate : Z;
  Duration : gotime.Duration;
  Compress : bool;
}.

Record Logger := {
  Output : os.Writer;          (* the writer of the embedded [*log.Logger] *)
  Level : levels.Level;
  param : LogParam;
  fileName : string;
  lastSuffix : string;
  fd : option os.File;
  suffixFormat : string;
  compressing : Z;             (* int32 *)
  rotateWork : bool;
}.

(** What a [go] statement starts. *)
Inductive Task :=
| GoCompress (path : string)
| GoDeleteOverdue
| GoDoRotate.

Definition New (out : os.Writer) (level : levels.Level) : Logger :=
  {| Output := out; Level := level;
     param := {| Rotate := 0; Duration := 0; Compress := false |};
     fileName := ""; lastSuffix := ""; fd := None; suffixFormat := "";
     compressing := 0; rotateWork := false |}.

Definition set_lastSuffix (s : string) (l : Logger) : Logger :=
  {| Output := Output l; Level := Level l; param := param l; fileName := fileName l;
     lastSuffix := s; fd := fd l; suffixFormat := suffixFormat l;
     compressing := compressing l; rotateWork := rotateWork l |}.

Definition set_compressing (v : Z) (l : Logger) : Logger :=
  {| Output := Output l; Level := Level l; param := param l; fileName := fileName l;
     lastSuffix := lastSuffix l; fd := fd l; suffixFormat := suffixFormat l;
     compressing := v; rotateWork := rotateWork l |}.


Definition set_suffixFormat (s : string) (l : Logger) : Logger :=
  {| Output := Output l; Level := Level l; param := param l; fileName := fileName l;
     lastSuffix := lastSuffix l; fd := fd l; suffixFormat := s;
     compressing := compressing l; rotateWork := rotateWork l |}.

Definition set_param (p : LogParam) (l : Logger) : Logger :=
  {| Output := Output l; Level := Level l; param := p; fileName := fileName l;
     lastSuffix := lastSuffix l; fd := fd l; suffixFormat := suffixFormat l;
     compressing := compressing l; rotateWork := rotateWork l |}.

(** [l.SetOutput(w)] of the embedded [*log.Logger]. *)
Definition SetOutput (f : os.File) (l : Logger) : Logger :=
  {| Output := os.FileWriter f; Level := Level l; param := param l; fileName := fileName l;
     lastSuffix := lastSuffix l; fd := fd l; suffixFormat := suffixFormat l;
     compressing := compressing l; rotateWork := rotateWork l |}.

Definition set_fd (f : os.File) (l : Logger) : Logger :=
  {| Output := Output l; Level := Level l; param := param l; fileName := fileName l;
     lastSuffix := lastSuffix l; fd := Some f; suffixFormat := suffixFormat l;
     compressing := compressing l; rotateWork := rotateWork l |}.

Definition set_fileName (s : string) (l : Logger) : Logger :=
  {| Output := Output l; Level := Level l; param := param l; fileName := s;
     lastSuffix := lastSuffix l; fd := fd l; suffixFormat := suffixFormat l;
     compressing := compressing l; rotateWork := rotateWork l |}.

Definition SetLevel (level : levels.Level) (l : Logger) : Logger :=
  {| Output := Output l; Level := level; param := param l; fileName := fileName l;
     lastSuffix := lastSuffix l; fd := fd l; suffixFormat := suffixFormat l;
     compressing := compressing l; rotateWork := rotateWork l |}.

(** [l.Error(format, v...)], the message already formatted. *)
Definition Error (l : Logger) (msg : string) (w : os.World) : os.World :=
  levels.log (Level l) levels.LevelError msg w.

Definition genSuffixStr (l : Logger) (w : os.World) : string * os.World :=
  if String.eqb "" (suffixFormat l) then ("", w)
  else let '(t, w) := os.Now w in (Format (os.local w) t (suffixFormat l), w).

(** [atomic.CompareAndSwapInt32(&l.compressing, old, new)]. *)
Definition CompareAndSwapInt32 (old new : Z) (l : Logger) : bool * Logger :=
  if compressing l =? old then (true, set_compressing new l) else (false, l).

(** The deferred closure of [compress]: it closes what was opened and removes
    [path] when [suc] is set. *)
Definition compress_cleanup (rawfile wf : option os.File) (suc : bool) (path : string)
    (w : os.World) : os.World :=
  let w := match rawfile with Some f => os.Close f w | None => w end in
  let w := match wf with Some f => os.Close f w | None => w end in
  if suc then snd (os.Remove path w) else w.

(** [compress] between the two compare-and-swaps. *)
Definition compress_body (l : Logger) (path : string) (w : os.World) : os.World :=
  match os.Open path w with
  | (inr e, w) =>
      let w := Error l ("Failed to open raw file. file:" +:+ path +:+ ", err:" +:+ e) w in
      compress_cleanup None None false path w
  | (inl rawfile, w) =>
      let gfn := path +:+ ".gz" in
      match os.OpenTrunc gfn w with
      | (inr e, w) =>
          let w := Error l ("Failed to create gz file. file:" +:+ gfn +:+ ", err:" +:+ e) w in
          compress_cleanup (Some rawfile) None false path w
      | (inl wf, w) =>
          match os.CopyGz wf rawfile w with
          | (Some e, w) =>
              let w := Error l ("Failed to write gz file. file:" +:+ gfn +:+ ", err:" +:+ e) w in
              compress_cleanup (Some rawfile) (Some wf) false path w
          | (None, w) =>
              compress_cleanup (Some rawfile) (Some wf) true path w
          end
      end
  end.

Definition compress (path : string) (l : Logger) (w : os.World) : Logger * os.World :=
  match CompareAndSwapInt32 0 1 l with
  | (false, l) => (l, w)
  | (true, l) =>
      let w := compress_body l path w in
      (snd (CompareAndSwapInt32 1 0 l), w)
  end.

(** [compress] as goroutines run it, one atomic action at a time.  A call of
    [compress(path)] stands before one of these actions. *)
Inductive Pc :=
| AtSwap                                  (* CompareAndSwapInt32(&l.compressing, 0, 1) *)
| AtOpen                                  (* os.Open(path) *)
| AtCreate (rawfile : os.File)            (* os.OpenFile(gfn, ...) *)
| AtCopy (rawfile wf : os.File)           (* io.Copy(gzfile, rawfile) *)
| AtCleanup (rawfile wf : option os.File) (suc : bool)   (* the deferred closure *)
| AtRelease                               (* the deferred CompareAndSwapInt32(.., 1, 0) *)
| Returned.

Definition compress_step (path : string) (pc : Pc) (l : Logger) (w : os.World)
    : Pc * Logger * os.World :=
  match pc with
  | AtSwap =>
      match CompareAndSwapInt32 0 1 l with
      | (false, l) => (Returned, l, w)
      | (true, l) => (AtOpen, l, w)
      end
  | AtOpen =>
      match os.Open path w with
      | (inr e, w) =>
          (AtCleanup None None false, l,
           Error l ("Failed to open raw file. file:" +:+ path +:+ ", err:" +:+ e) w)
      | (inl rawfile, w) => (AtCreate rawfile, l, w)
      end
  | AtCreate rawfile =>
      let gfn := path +:+ ".gz" in
      match os.OpenTrunc gfn w with
      | (inr e, w) =>
          (AtCleanup (Some rawfile) None false, l,
           Error l ("Failed to create gz file. file:" +:+ gfn +:+ ", err:" +:+ e) w)
      | (inl wf, w) => (AtCopy rawfile wf, l, w)
      end
  | AtCopy rawfile wf =>
      let gfn := path +:+ ".gz" in
      match os.CopyGz wf rawfile w with
      | (Some e, w) =>
          (AtCleanup (Some rawfile) (Some wf) false, l,
           Error l ("Failed to write gz file. file:" +:+ gfn +:+ ", err:" +:+ e) w)
      | (None, w) => (AtCleanup (Some rawfile) (Some wf) true, l, w)
      end
  | AtCleanup rawfile wf suc => (AtRelease, l, compress_cleanup rawfile wf suc path w)
  | AtRelease => (Returned, snd (CompareAndSwapInt32 1 0 l), w)
  | Returned => (Returned, l, w)
  end.






(** [n] actions of one call in a row. *)
Fixpoint compress_steps (n : nat) (path : string) (pc : Pc) (l : Logger) (w : os.World)
    : Pc * Logger * os.World :=
  match n with
  | O => (pc, l, w)
  | S k =>
      let '(pc', l', w') := compress_step path pc l w in
      compress_steps k path pc' l' w'
  end.


Definition isOverdue (l : Logger) (ts : string) (w : os.World) : bool * os.World :=
  let '(wt, err) := ParseInLocation (suffixFormat l) ts (os.local w) in
  let w :=
    match err with
    | Some e => Error l ("Failed to parse time. ts:" +:+ ts +:+ ", err:" +:+ e) w
    | None => w
    end in
  let '(now, w) := os.Now w in
  if Sub now wt >? dur_mul (Duration (param l)) (Rotate (param l))
  then (true, w)
  else (false, w).

(** The body of [for _, fn := range files] in [deleteOverdue]. *)
Fixpoint deleteOverdue_loop (l : Logger) (dir : string) (rx : regex.Regexp)
    (names : list string) (w : os.World) : os.World :=
  match names with
  | [] => w
  | fn :: rest =>
      let fs := regex.FindString rx fn in
      if negb (String.eqb "" fs) then
        let fs := gostrings.remove_first ".gz" fs in
        match isOverdue l fs w with
        | (true, w) => deleteOverdue_loop l dir rx rest (snd (os.Remove (filepath.Join dir fn) w))
        | (false, w) => deleteOverdue_loop l dir rx rest w
        end
      else deleteOverdue_loop l dir rx rest w
  end.

Definition deleteOverdue (l : Logger) (w : os.World) : os.World :=
  if String.eqb "" (fileName l) || String.eqb "" (suffixFormat l) then w
  else
    let dir := filepath.Dir (fileName l) in
    match os.OpenDir dir w with
    | (inr e, w) => Error l ("Failed to open directory. dir:" +:+ e +:+ ", err:" +:+ e) w
    | (inl d, w) =>
        match os.Readdirnames d w with
        | (inr e, w) =>
            os.Close d (Error l ("Failed to read directory. dir:" +:+ e +:+ ", err:" +:+ e) w)
        | (inl names, w) =>
            let sl := String.length (suffixFormat l) in
            os.Close d (deleteOverdue_loop l dir (regex.DigitsGz sl) names w)
        end
    end.

(** The first test of the source, [0 == l.param.Duration || nil == l.fd ||
    "" == l.fileName], is taken here with the handle first: the three parts
    have no effect, so their order does not show. *)
Definition rotate (l : Logger) (w : os.World)
    : option os.error * Logger * os.World * list Task :=
  match fd l with
  | None => (None, l, w, [])
  | Some oldFd =>
      if (0 =? Duration (param l)) || String.eqb "" (fileName l) then (None, l, w, [])
      else
        let '(suffix, w) := genSuffixStr l w in
        if String.eqb "" (lastSuffix l) then (None, set_lastSuffix suffix l, w, [])
        else if String.eqb (lastSuffix l) suffix then (None, l, w, [])
        else
          let nf := fileName l +:+ "." +:+ suffix in
          match os.Rename (fileName l) nf w with
          | (Some err, w) =>
              let w := Error l ("Failed to rename. oldPath:" +:+ fileName l +:+ ", newPath:"
                                +:+ nf +:+ ", err:" +:+ err) w in
              (Some err, l, w, [])
          | (None, w) =>
              match os.OpenAppend (fileName l) w with
              | (inr err, w) =>
                  let w := Error l ("Failed to open file. file:" +:+ fileName l
                                    +:+ ", err:" +:+ err) w in
                  let '(err, w) := os.Rename nf (fileName l) w in
                  (err, l, w, [])
              | (inl newFd, w) =>
                  let l := SetOutput newFd l in
                  let l := set_fd newFd l in
                  let w := os.Close oldFd w in
                  let l := set_lastSuffix suffix l in
                  (None, l, w,
                   (if Compress (param l) then [GoCompress nf] else []) ++ [GoDeleteOverdue])%list
              end
          end
  end.

Definition SetOutputByName (path : string) (l : Logger) (w : os.World)
    : option os.error * Logger * os.World :=
  match os.OpenAppend path w with
  | (inr err, w) => (Some err, l, w)
  | (inl f, w) => (None, set_fd f (set_fileName path (SetOutput f l)), w)
  end.

Definition SetLogParam (p : LogParam) (l : Logger) (w : os.World)
    : Logger * os.World * list Task :=
  let l := set_param p l in
  let l :=
    if Duration (param l) =? 24 * Hour then set_suffixFormat levels.formatDay l
    else if Duration (param l) =? Hour then set_suffixFormat levels.formatHour l
    else if Duration (param l) =? Minute then set_suffixFormat levels.formatMin l
    else if Duration (param l) =? Second then set_suffixFormat levels.formatSec l
    else l in
  let '(l, w) :=
    if String.eqb "" (lastSuffix l)
    then let '(s, w) := genSuffixStr l w in (set_lastSuffix s l, w)
    else (l, w) in
  (l, w, if Duration (param l) >? 0 then [GoDoRotate] else []).

(** The leveled methods; the message comes already formatted. *)
Definition log (l : Logger) (level : levels.Level) (msg : string) (w : os.World) : os.World :=
  levels.log (Level l) level msg w.

Definition Log (l : Logger) (level : levels.Level) (msg : string) (w : os.World) : os.World :=
  log l level msg w.

Definition Debug (l : Logger) (msg : string) (w : os.World) : os.World :=
  log l levels.LevelDebug msg w.

Definition Info (l : Logger) (msg : string) (w : os.World) : os.World :=
  log l levels.LevelInfo msg w.

Definition Notice (l : Logger) (msg : string) (w : os.World) : os.World :=
  log l levels.LevelNotice msg w.

Definition Warning (l : Logger) (msg : string) (w : os.World) : os.World :=
  log l levels.LevelWarning msg w.

Definition Critical (l : Logger) (msg : string) (w : os.World) : os.World :=
  log l levels.LevelCritical msg w.

Definition Printf (l : Logger) (msg : string) (w : os.World) : os.World :=
  Info l msg w.



End Part001.

(** ** src/unnamed/part_000: [RotateConfig] with [StartRoutine]

    A method that dereferences a nil [rotateCfg] panics; such a method returns
    an [option], [None] standing for the panic. *)

Module Part000.

Import gotime.

(** The fields [Rotate], [Duration], [Compress] and [StartRoutine]; they carry
    a prefix because the method [Rotate] takes the name. *)
Record RotateConfig := {
  rcRotate : Z;
  rcDuration : gotime.Duration;
  rcCompress : bool;
  rcStartRoutine : bool;
}.

Record Logger := {
  Output : os.Writer;          (* the writer of the embedded [*log.Logger] *)
  Level : levels.Level;
  w : os.Writer;
  rotateCfg : option RotateConfig;
  suffixFormat : string;
}.

Inductive Task :=
| GoStartRotateRoutine
| GoHousekeeping (targetLogName fileName : string).

Definition New (out : os.Writer) (level : levels.Level) (rc : option RotateConfig)
    : Logger * list Task :=
  let l := {| Output := out; Level := level; w := out; rotateCfg := rc; suffixFormat := "" |} in
  match rc with
  | Some cfg => (l, if rcStartRoutine cfg then [GoStartRotateRoutine] else [])
  | None => (l, [])
  end.

Definition SetOutput (wr : os.Writer) (l : Logger) : Logger :=
  {| Output := wr; Level := Level l; w := wr; rotateCfg := rotateCfg l;
     suffixFormat := suffixFormat l |}.

Definition SetLevel (level : levels.Level) (l : Logger) : Logger :=
  {| Output := Output l; Level := level; w := w l; rotateCfg := rotateCfg l;
     suffixFormat := suffixFormat l |}.

Definition set_suffixFormat (s : string) (l : Logger) : Logger :=
  {| Output := Output l; Level := Level l; w := w l; rotateCfg := rotateCfg l;
     suffixFormat := s |}.

Definition Error (l : Logger) (msg : string) (wd : os.World) : os.World :=
  levels.log (Level l) levels.LevelError msg wd.

Definition genSuffixStr (l : Logger) (wd : os.World) : option (string * os.World) :=
  cfg ← rotateCfg l;
  let '(now, wd) := os.Now wd in
  Some (Format (os.local wd) (Truncate now (rcDuration cfg)) (suffixFormat l), wd).

(** The deferred closure of [compress]. *)
Definition compress_cleanup (rawfile wf : option os.File) (err : option os.error)
    (path : string) (wd : os.World) : os.World :=
  let wd := match rawfile with Some f => os.Close f wd | None => wd end in
  let wd := match wf with Some f => os.Close f wd | None => wd end in
  match err with
  | None => snd (os.Remove path wd)
  | Some _ => wd
  end.

Definition compress (l : Logger) (path : string) (wd : os.World) : option os.error * os.World :=
  match os.Open path wd with
  | (inr e, wd) =>
      let wd := Error l ("open file for compress err:" +:+ e) wd in
      (Some e, compress_cleanup None None (Some e) path wd)
  | (inl rawfile, wd) =>
      let gfn := path +:+ ".gz" in
      match os.OpenTrunc gfn wd with
      | (inr e, wd) =>
          let wd := Error l ("open gz file err:" +:+ e) wd in
          (Some e, compress_cleanup (Some rawfile) None (Some e) path wd)
      | (inl wf, wd) =>
          match os.CopyGz wf rawfile wd with
          | (Some e, wd) =>
              let wd := Error l ("write gz file:" +:+ gfn +:+ ", err:" +:+ e) wd in
              (Some e, compress_cleanup (Some rawfile) (Some wf) (Some e) path wd)
          | (None, wd) =>
              (None, compress_cleanup (Some rawfile) (Some wf) None path wd)
          end
      end
  end.

Definition isOverdue (l : Logger) (ts : string) (wd : os.World) : option (bool * os.World) :=
  match ParseInLocation (suffixFormat l) ts (os.local wd) with
  | (_, Some e) =>
      Some (false, Error l ("parse time err. time-str:" +:+ ts +:+ ", err:" +:+ e) wd)
  | (wt, None) =>
      let '(now, wd) := os.Now wd in
      cfg ← rotateCfg l;
      if Sub now wt >? dur_mul (rcDuration cfg) (rcRotate cfg)
      then Some (true, wd)
      else Some (false, wd)
  end.

(** The body of [for _, fn := range files] in [cleanOldLogs]. *)
Fixpoint cleanOldLogs_loop (l : Logger) (cfg : RotateConfig) (dir : string)
    (rx : regex.Regexp) (names : list string) (wd : os.World) : option os.World :=
  match names with
  | [] => Some wd
  | fn :: rest =>
      let fs := regex.FindString rx fn in
      if String.eqb "" fs then cleanOldLogs_loop l cfg dir rx rest wd
      else
        let fs := if rcCompress cfg then gostrings.remove_first ".gz" fs else fs in
        '(due, wd) ← isOverdue l fs wd;
        if due : bool
        then cleanOldLogs_loop l cfg dir rx rest (snd (os.Remove (filepath.Join dir fn) wd))
        else cleanOldLogs_loop l cfg dir rx rest wd
  end.

Definition cleanOldLogs (l : Logger) (fileName : string) (wd : os.World)
    : option (option os.error * os.World) :=
  let dir := filepath.Dir fileName in
  match os.OpenDir dir wd with
  | (inr e, wd) =>
      Some (Some e, Error l ("Failed to open directory. dir:" +:+ e +:+ ", err:" +:+ e) wd)
  | (inl d, wd) =>
      match os.Readdirnames d wd with
      | (inr e, wd) =>
          Some (Some e,
                os.Close d (Error l ("Failed to read directory. dir:" +:+ e +:+ ", err:" +:+ e) wd))
      | (inl names, wd) =>
          let sl := String.length (suffixFormat l) in
          cfg ← rotateCfg l;
          let rx := if rcCompress cfg then regex.DigitsGz sl else regex.Digits sl in
          wd ← cleanOldLogs_loop l cfg dir rx names wd;
          Some (None, os.Close d wd)
      end
  end.

(** The goroutine [Rotate] starts on success. *)
Definition housekeeping (l : Logger) (targetLogName fileName : string) (wd : os.World)
    : option os.World :=
  cfg ← rotateCfg l;
  let wd := if rcCompress cfg then snd (compress l targetLogName wd) else wd in
  '(_, wd) ← cleanOldLogs l fileName wd;
  Some wd.

Definition Rotate (l : Logger) (wd : os.World)
    : option (option os.error * Logger * os.World * list Task) :=
  cfg ← rotateCfg l;
  let l :=
    if rcDuration cfg <? Minute
    then set_suffixFormat levels.formatSec l
    else set_suffixFormat levels.formatMin l in
  match w l with
  | os.OtherWriter => Some (None, l, wd, [])
  | os.FileWriter fd =>
      let fileName := os.Name fd in
      '(suffix, wd) ← genSuffixStr l wd;
      let targetLogName := fileName +:+ "." +:+ suffix in
      match os.Rename fileName targetLogName wd with
      | (Some err, wd) =>
          let wd := Error l ("rename fail: " +:+ err) wd in
          Some (Some err, l, wd, [])
      | (None, wd) =>
          match os.OpenAppend fileName wd with
          | (inr err, wd) =>
              let wd := Error l ("open fail: " +:+ err) wd in
              let wd := snd (os.Rename targetLogName fileName wd) in
              Some (Some err, l, wd, [])
          | (inl newFd, wd) =>
              let l := SetOutput (os.FileWriter newFd) l in
              let wd := os.Close fd wd in
              Some (None, l, wd, [GoHousekeeping targetLogName fileName])
          end
      end
  end.

(** [startRotateRoutine] up to its loop: [true] when the loop is entered. *)
Definition startRotateRoutine_enters (l : Logger) : bool :=
  match rotateCfg l with
  | None => false
  | Some cfg => negb ((rcRotate cfg <=? 0) || (rcDuration cfg <? 1 * Second))
  end.

(** One turn of that loop, once [time.Sleep] has returned. *)
Definition startRotateRoutine_turn (l : Logger) (wd : os.World)
    : option (Logger * os.World * list Task) :=
  '(_, l, wd, ts) ← Rotate l wd;
  Some (l, wd, ts).

End Part000.

(** ** src/log.go: [StartRotate] and [Stop]

    As in [Part000], a method that dereferences a nil [rotateCfg] returns
    [None] for the panic. *)

Module LogGo.

Import gotime.

(** The fields [Rotate], [Duration] and [Compress], prefixed because the
    method [Rotate] takes the name. *)
Record RotateConfig := {
  rcRotate : Z;
  rcDuration : gotime.Duration;
  rcCompress : bool;
}.

(** A [chan bool], by the order of its [make]. *)
Definition Chan := nat.

Record Logger := {
  Output : os.Writer;          (* the writer of the embedded [*log.Logger] *)
  Level : levels.Level;
  w : os.Writer;
  rotateCfg : option RotateConfig;
  rotateCh : option Chan;
  suffixFormat : string;
}.

Definition errInvalidRotateConfig : os.error := "invalid log rotate config".

Inductive Task :=
| GoRotateLoop
| GoHousekeeping (now : Time) (targetLogName fileName : string).

Definition New (out : os.Writer) (level : levels.Level) (rc : option RotateConfig) : Logger :=
  {| Output := out; Level := level; w := out; rotateCfg := rc; rotateCh := None;
     suffixFormat := "" |}.

Definition SetOutput (wr : os.Writer) (l : Logger) : Logger :=
  {| Output := wr; Level := Level l; w := wr; rotateCfg := rotateCfg l;
     rotateCh := rotateCh l; suffixFormat := suffixFormat l |}.

Definition SetLevel (level : levels.Level) (l : Logger) : Logger :=
  {| Output := Output l; Level := level; w := w l; rotateCfg := rotateCfg l;
     rotateCh := rotateCh l; suffixFormat := suffixFormat l |}.

Definition set_suffixFormat (s : string) (l : Logger) : Logger :=
  {| Output := Output l; Level := Level l; w := w l; rotateCfg := rotateCfg l;
     rotateCh := rotateCh l; suffixFormat := s |}.

Definition set_rotateCh (c : option Chan) (l : Logger) : Logger :=
  {| Output := Output l; Level := Level l; w := w l; rotateCfg := rotateCfg l;
     rotateCh := c; suffixFormat := suffixFormat l |}.

Definition Error (l : Logger) (msg : string) (wd : os.World) : os.World :=
  levels.log (Level l) levels.LevelError msg wd.

Definition genSuffixStr (l : Logger) (wd : os.World) : option (string * os.World) :=
  cfg ← rotateCfg l;
  let '(now, wd) := os.Now wd in
  Some (Format (os.local wd) (Truncate now (rcDuration cfg)) (suffixFormat l), wd).

(** The deferred closure of [compress]. *)
Definition compress_cleanup (rawfile wf : option os.File) (err : option os.error)
    (path : string) (wd : os.World) : os.World :=
  let wd := match rawfile with Some f => os.Close f wd | None => wd end in
  let wd := match wf with Some f => os.Close f wd | None => wd end in
  match err with
  | None => snd (os.Remove path wd)
  | Some _ => wd
  end.

Definition compress (l : Logger) (path : string) (wd : os.World) : option os.error * os.World :=
  match os.Open path wd with
  | (inr e, wd) =>
      let wd := Error l ("open file for compress err:" +:+ e) wd in
      (Some e, compress_cleanup None None (Some e) path wd)
  | (inl rawfile, wd) =>
      let gfn := path +:+ ".gz" in
      match os.OpenTrunc gfn wd with
      | (inr e, wd) =>
          let wd := Error l ("open gz file err:" +:+ e) wd in
          (Some e, compress_cleanup (Some rawfile) None (Some e) path wd)
      | (inl wf, wd) =>
          match os.CopyGz wf rawfile wd with
          | (Some e, wd) =>
              let wd := Error l ("write gz file:" +:+ gfn +:+ ", err:" +:+ e) wd in
              (Some e, compress_cleanup (Some rawfile) (Some wf) (Some e) path wd)
          | (None, wd) =>
              (None, compress_cleanup (Some rawfile) (Some wf) None path wd)
          end
      end
  end.

Definition isOverdue (l : Logger) (now : Time) (ts : string) (wd : os.World)
    : option (bool * os.World) :=
  match ParseInLocation (suffixFormat l) ts (os.local wd) with
  | (_, Some e) =>
      Some (false, Error l ("parse time err. time-str:" +:+ ts +:+ ", err:" +:+ e) wd)
  | (wt, None) =>
      cfg ← rotateCfg l;
      if Sub now wt >? dur_mul (rcDuration cfg) (rcRotate cfg)
      then Some (true, wd)
      else Some (false, wd)
  end.

(** The body of [for _, fn := range files] in [cleanOldLogs]; [fn] is a path
    as [filepath.Glob] returns it. *)
Fixpoint cleanOldLogs_loop (l : Logger) (now : Time) (rx : regex.Regexp)
    (paths : list string) (wd : os.World) : option os.World :=
  match paths with
  | [] => Some wd
  | fn :: rest =>
      let match_ := regex.FindString rx fn in
      if (0 <? String.length match_)%nat then
        '(due, wd) ← isOverdue l now match_ wd;
        if due : bool
        then cleanOldLogs_loop l now rx rest (snd (os.Remove fn wd))
        else cleanOldLogs_loop l now rx rest wd
      else cleanOldLogs_loop l now rx rest wd
  end.

Definition cleanOldLogs (l : Logger) (now : Time) (fileName : string) (wd : os.World)
    : option (option os.error * os.World) :=
  let dir := filepath.Dir fileName in
  match os.Glob dir wd with
  | (inr e, wd) =>
      Some (Some e, Error l ("fail in Glob dir:" +:+ dir +:+ ", err:" +:+ e) wd)
  | (inl paths, wd) =>
      let rx := regex.Digits (String.length (suffixFormat l)) in
      wd ← cleanOldLogs_loop l now rx paths wd;
      Some (None, wd)
  end.

(** The goroutine [Rotate] starts on success. *)
Definition housekeeping (l : Logger) (now : Time) (targetLogName fileName : string)
    (wd : os.World) : option os.World :=
  cfg ← rotateCfg l;
  let wd := if rcCompress cfg then snd (compress l targetLogName wd) else wd in
  '(_, wd) ← cleanOldLogs l now fileName wd;
  Some wd.

Definition Rotate (l : Logger) (wd : os.World)
    : option (option os.error * Logger * os.World * list Task) :=
  cfg ← rotateCfg l;
  let l :=
    if rcDuration cfg <? Minute
    then set_suffixFormat levels.formatSec l
    else set_suffixFormat levels.formatMin l in
  match w l with
  | os.OtherWriter => Some (None, l, wd, [])
  | os.FileWriter fd =>
      let fileName := os.Name fd in
      let '(now, wd) := os.Now wd in
      let suffix := Format (os.local wd) (Truncate now (rcDuration cfg)) (suffixFormat l) in
      let targetLogName := fileName +:+ "." +:+ suffix in
      match os.Rename fileName targetLogName wd with
      | (Some err, wd) =>
          let wd := Error l ("rename fail: " +:+ err) wd in
          Some (Some err, l, wd, [])
      | (None, wd) =>
          match os.OpenAppend fileName wd with
          | (inr err, wd) =>
              let wd := Error l ("open fail: " +:+ err) wd in
              let wd := snd (os.Rename targetLogName fileName wd) in
              Some (Some err, l, wd, [])
          | (inl newFd, wd) =>
              let l := SetOutput (os.FileWriter newFd) l in
              let wd := os.Close fd wd in
              Some (None, l, wd, [GoHousekeeping now targetLogName fileName])
          end
      end
  end.

(** The leveled methods; the message comes already formatted. *)
Definition log (l : Logger) (level : levels.Level) (msg : string) (wd : os.World) : os.World :=
  levels.log (Level l) level msg wd.

Definition Log (l : Logger) (level : levels.Level) (msg : string) (wd : os.World) : os.World :=
  log l level msg wd.

Definition Printf (l : Logger) (msg : string) (wd : os.World) : os.World :=
  log l levels.LevelInfo msg wd.

Definition Debug (l : Logger) (msg : string) (wd : os.World) : os.World :=
  log l levels.LevelDebug msg wd.

Definition Info (l : Logger) (msg : string) (wd : os.World) : os.World :=
  log l levels.LevelInfo msg wd.

Definition Notice (l : Logger) (msg : string) (wd : os.World) : os.World :=
  log l levels.LevelNotice msg wd.

Definition Warning (l : Logger) (msg : string) (wd : os.World) : os.World :=
  log l levels.LevelWarning msg wd.

Definition Critical (l : Logger) (msg : string) (wd : os.World) : os.World :=
  log l levels.LevelCritical msg wd.

(** Channels: which are closed, and the next one [make] hands out. *)
Record Runtime := {
  closed : gset Chan;
  fresh : Chan;
}.

Definition closeChannel (l : Logger) (rt : Runtime) : Logger * Runtime :=
  match rotateCh l with
  | Some c => (set_rotateCh None l, {| closed := {[c]} ∪ closed rt; fresh := fresh rt |})
  | None => (l, rt)
  end.

Definition StartRotate (l : Logger) (rt : Runtime)
    : option os.error * Logger * Runtime * list Task :=
  let invalid :=
    match rotateCfg l with
    | None => true
    | Some cfg => (rcRotate cfg <=? 0) || (rcDuration cfg <? 1 * Second)
    end in
  if invalid then (Some errInvalidRotateConfig, l, rt, [])
  else
    let '(l, rt) := closeChannel l rt in
    let c := fresh rt in
    let rt := {| closed := closed rt; fresh := S c |} in
    (None, set_rotateCh (Some c) l, rt, [GoRotateLoop]).

Definition Stop (l : Logger) (rt : Runtime) : Logger * Runtime := closeChannel l rt.

(** The goroutine [StartRotate] starts: it is at the head of its [for], or
    inside [select] with the channel it read from [l.rotateCh] and the
    instant its timer fires. *)
Inductive Loop :=
| AtTop
| InSelect (ch : option Chan) (deadline : Time).

(** From the head of the [for] into [select]. *)
Definition loop_enter (l : Logger) (wd : os.World) : option (Loop * os.World) :=
  cfg ← rotateCfg l;
  let '(t1, wd) := os.Now wd in
  let next := Truncate (t1 + rcDuration cfg) (rcDuration cfg) in
  let '(t2, wd) := os.Now wd in
  let wait := Sub next t2 in
  Some (InSelect (rotateCh l) (t2 + wait), wd).

(** [select] can return: the channel it waits on is closed (nothing is ever
    sent on it, and a nil channel never delivers), or the timer has fired. *)
Definition select_ready (rt : Runtime) (ch : option Chan) (deadline : Time) (wd : os.World) : bool :=
  match ch with
  | Some c => bool_decide (c ∈ closed rt) || (deadline <=? os.now wd)
  | None => deadline <=? os.now wd
  end.

(** The whole program state: the logger every goroutine shares, the world,
    the channels, the loops started so far and the housekeeping goroutines
    not yet run. *)
Record System := {
  logger : Logger;
  world : os.World;
  runtime : Runtime;
  loops : list Loop;
  pending : list Task;
}.

Inductive Action :=
| DoStartRotate
| DoStop
| DoLoop (i : nat)         (* loop [i] takes its next step *)
| DoClock (t : Time).      (* time passes: the clock now reads [t] *)

Definition set_clock (t : Time) (wd : os.World) : os.World :=
  {| os.files := os.files wd; os.faults := os.faults wd; os.now := t; os.later := os.later wd;
     os.local := os.local wd; os.trace := os.trace wd; os.emitted := os.emitted wd |}.

(** One step of the program; [None] when the action cannot be taken (the
    loop is blocked, there is no such loop) or panics. *)
Definition step (s : System) (a : Action) : option System :=
  match a with
  | DoStartRotate =>
      let '(err, l, rt, ts) := StartRotate (logger s) (runtime s) in
      Some {| logger := l; world := world s; runtime := rt;
              loops := loops s ++ match err with Some _ => [] | None => [AtTop] end;
              pending := pending s |}
  | DoStop =>
      let '(l, rt) := Stop (logger s) (runtime s) in
      Some {| logger := l; world := world s; runtime := rt; loops := loops s;
              pending := pending s |}
  | DoClock t =>
      Some {| logger := logger s; world := set_clock t (world s); runtime := runtime s;
              loops := loops s; pending := pending s |}
  | DoLoop i =>
      st ← loops s !! i;
      match st with
      | AtTop =>
          '(st', wd) ← loop_enter (logger s) (world s);
          Some {| logger := logger s; world := wd; runtime := runtime s;
                  loops := <[i := st']> (loops s); pending := pending s |}
      | InSelect ch deadline =>
          if select_ready (runtime s) ch deadline (world s) then
            '(_, l, wd, ts) ← Rotate (logger s) (world s);
            Some {| logger := l; world := wd; runtime := runtime s;
                    loops := <[i := AtTop]> (loops s); pending := pending s ++ ts |}
          else None
      end
  end.

Fixpoint run (s : System) (acts : list Action) : option System :=
  match acts with
  | [] => Some s
  | a :: rest => s' ← step s a; run s' rest
  end.

End LogGo.

(** ** Concrete inputs used by the examples below *)

Module examples.

Import gotime.

(** A world at instant [t], in UTC, holding [fs], with the fault script [fl]. *)
Definition world_of (fs : list (string * os.Data)) (fl : list (option os.error)) (t : Time)
    : os.World :=
  {| os.files := list_to_map fs; os.faults := fl; os.now := t; os.later := [];
     os.local := 0; os.trace := []; os.emitted := [] |}.

Definition at_15_00_03 : Time := Date 2024 1 1 15 0 3 0.

Definition app_log : os.File := {| os.Name := "app.log" |}.

(** part_001: a logger on [app.log], one-second buckets, five kept, whose
    stored label is [stored]. *)
Definition logger001 (stored : string) : Part001.Logger :=
  {| Part001.Output := os.FileWriter app_log; Part001.Level := levels.LevelDebug;
     Part001.param := {| Part001.Rotate := 5; Part001.Duration := Second;
                         Part001.Compress := true |};
     Part001.fileName := "app.log"; Part001.lastSuffix := stored;
     Part001.fd := Some app_log; Part001.suffixFormat := levels.formatSec;
     Part001.compressing := 0; Part001.rotateWork := true |}.

(** part_001: ninety-second buckets asked of a new logger. *)
Definition param_90s : Part001.LogParam :=
  {| Part001.Rotate := 5; Part001.Duration := 90 * Second; Part001.Compress := false |}.

(** The reopen of [app.log] is refused; the renames go through. *)
Definition world_reopen_refused : os.World :=
  world_of [("app.log", os.Raw "records")] [None; Some "permission denied"; None] at_15_00_03.

(** Beside the log, a compressed file whose fourteen digits are no date. *)
Definition world_with_stray_gz : os.World :=
  world_of [("app.log", os.Raw "records");
            ("snapshot.99999999999999.gz", os.Gz (os.Raw "unrelated"))] [] at_15_00_03.


Definition cfg_1s_keep_5 : LogGo.RotateConfig :=
  {| LogGo.rcRotate := 5; LogGo.rcDuration := Second; LogGo.rcCompress := false |}.

Definition cfg_1h_keep_2 : LogGo.RotateConfig :=
  {| LogGo.rcRotate := 2; LogGo.rcDuration := Hour; LogGo.rcCompress := false |}.

Definition loggerGo (cfg : LogGo.RotateConfig) : LogGo.Logger :=
  LogGo.New (os.FileWriter app_log) levels.LevelDebug (Some cfg).

Definition no_channels : LogGo.Runtime := {| LogGo.closed := ∅; LogGo.fresh := 0%nat |}.

(** src/log.go: the program half a second into 15:00:00, nothing started. *)
Definition system0 : LogGo.System :=
  {| LogGo.logger := loggerGo cfg_1s_keep_5;
     LogGo.world := world_of [("app.log", os.Raw "records")] []
                      (Date 2024 1 1 15 0 0 0 + 500000000);
     LogGo.runtime := no_channels; LogGo.loops := []; LogGo.pending := [] |}.

(** part_000: one-hour buckets, two kept, no compression, on a log file that
    carries its own start time in its name. *)
Definition cfg000_1h_keep_2 : Part000.RotateConfig :=
  {| Part000.rcRotate := 2; Part000.rcDuration := Hour; Part000.rcCompress := false;
     Part000.rcStartRoutine := false |}.

Definition audit_log : os.File := {| os.Name := "audit-202401011200.log" |}.

Definition logger000_audit : Part000.Logger :=
  (Part000.New (os.FileWriter audit_log) levels.LevelDebug (Some cfg000_1h_keep_2)).1.

Definition world_audit : os.World :=
  world_of [("audit-202401011200.log", os.Raw "live records")] [] at_15_00_03.

(** part_000 and src/log.go after a rotation of [app.log], three archives on
    disk, at 15:00:00. *)
Definition logger000_app : Part000.Logger :=
  Part000.set_suffixFormat levels.formatMin
    (Part000.New (os.FileWriter app_log) levels.LevelDebug (Some cfg000_1h_keep_2)).1.

Definition loggerGo_app : LogGo.Logger :=
  LogGo.set_suffixFormat levels.formatMin (loggerGo cfg_1h_keep_2).

Definition world_three_archives : os.World :=
  world_of [("app.log", os.Raw "");
            ("app.log.20240101120000", os.Raw "noon");
            ("app.log.20240101130000.gz", os.Gz (os.Raw "one"));
            ("app.log.20240101140000", os.Raw "two")] [] (Date 2024 1 1 15 0 0 0).



End examples.

(** ** The vocabulary of the statements *)

Module spec.

Import gotime.


(** How many of the calls are renames. *)
Definition renames (cs : list os.Call) : nat :=
  length (List.filter (fun c => match c with os.CRename _ _ => true | _ => false end) cs).

(** [w'] is [w] but for clock readings: the same files, the same calls
    issued, the same records written, the same fault script. *)
Definition untouched (w w' : os.World) : Prop :=
  os.files w' = os.files w /\ os.trace w' = os.trace w
  /\ os.emitted w' = os.emitted w /\ os.faults w' = os.faults w.

(** An entry is expired at [now]: the pattern [rx] matches in its name, the
    match (less its [.gz] when [strip_gz]) parses under [layout] in [loc], and
    the parsed instant lies more than [window] nanoseconds back. *)
Definition expired (rx : regex.Regexp) (strip_gz : bool) (layout : string)
    (loc : Location) (window : Z) (now : Time) (name : string) : bool :=
  match regex.find rx name with
  | None => false
  | Some m =>
      if String.eqb "" m then false
      else
        let label := if strip_gz then gostrings.remove_first ".gz" m else m in
        match ParseInLocation layout label loc with
        | (ts, None) => window <? now - ts
        | (_, Some _) => false
        end
  end.

(** [w1] is [w] with, at most, more records written. *)
Definition only_logged (w w1 : os.World) : Prop :=
  os.files w1 = os.files w /\ os.trace w1 = os.trace w
  /\ os.faults w1 = os.faults w /\ os.now w1 = os.now w
  /\ os.later w1 = os.later w /\ os.local w1 = os.local w.

(** The retention window [Duration * Rotate] fits [int64] (and is not its
    largest value, which no age exceeds). *)
Definition window_fits (d r : Z) : Prop := minDuration <= d * r < maxDuration.

(** The pattern [cleanOldLogs] of part_000 compiles, and the entries it finds
    expired in a listing. *)
Definition pattern000 (l : Part000.Logger) (cfg : Part000.RotateConfig) : regex.Regexp :=
  if Part000.rcCompress cfg
  then regex.DigitsGz (String.length (Part000.suffixFormat l))
  else regex.Digits (String.length (Part000.suffixFormat l)).

Definition doomed000 (l : Part000.Logger) (cfg : Part000.RotateConfig) (w : os.World)
    (names : list string) : list string :=
  List.filter
    (expired (pattern000 l cfg) (Part000.rcCompress cfg) (Part000.suffixFormat l)
       (os.local w) (Part000.rcDuration cfg * Part000.rcRotate cfg) (os.now w))
    names.

(** The same for [cleanOldLogs] of src/log.go, over the paths [Glob] gives. *)
Definition doomedGo (l : LogGo.Logger) (cfg : LogGo.RotateConfig) (now : Time)
    (w : os.World) (paths : list string) : list string :=
  List.filter
    (expired (regex.Digits (String.length (LogGo.suffixFormat l))) false
       (LogGo.suffixFormat l) (os.local w)
       (LogGo.rcDuration cfg * LogGo.rcRotate cfg) now)
    paths.







(** The layout [Rotate] of src/log.go and of part_000 takes for a bucket of
    length [d]. *)
Definition layoutGo (d : Duration) : string :=
  if d <? Minute then levels.formatSec else levels.formatMin.

(** From [w] to [w'] what [active] held went to [archive] and a new, empty
    file stands at [active]; no other path changed and no record was
    written. *)
Definition swapped (active archive : string) (d : os.Data) (w w' : os.World) : Prop :=
  os.files w' !! archive = Some d
  /\ os.files w' !! active = Some (os.Raw "")
  /\ (forall p, p <> archive -> p <> active -> os.files w' !! p = os.files w !! p)
  /\ os.emitted w' = os.emitted w.

(** From [w] to [w'] the file at [path], which held [d], gave way to
    [path.gz] holding the gzip stream of [d], by the six calls of a
    compression that meets no fault. *)
Definition gz_twin (path : string) (d : os.Data) (w w' : os.World) : Prop :=
  os.files w' !! path = None
  /\ os.files w' !! (path +:+ ".gz") = Some (os.Gz d)
  /\ (forall p, p <> path -> p <> path +:+ ".gz" -> os.files w' !! p = os.files w !! p)
  /\ os.emitted w' = os.emitted w
  /\ os.trace w'
     = (os.trace w
        ++ [os.COpen path; os.COpenTrunc (path +:+ ".gz");
            os.CCopy (path +:+ ".gz") path; os.CClose path;
            os.CClose (path +:+ ".gz"); os.CRemove path])%list.

(** An entry is expired for [deleteOverdue] of part_001: [[0-9]{n}\.gz]
    matches in its name and the digits, parsed under [layout], lie more than
    [window] back; or they do not parse at all. *)
Definition expired001 (layout : string) (loc : Location) (window : Z) (now : Time)
    (name : string) : bool :=
  match regex.find (regex.DigitsGz (String.length layout)) name with
  | None => false
  | Some m =>
      if String.eqb "" m then false
      else
        match ParseInLocation layout (gostrings.remove_first ".gz" m) loc with
        | (ts, None) => window <? now - ts
        | (_, Some _) => true
        end
  end.

Definition doomed001 (l : Part001.Logger) (w : os.World) (names : list string) : list string :=
  List.filter
    (expired001 (Part001.suffixFormat l) (os.local w)
       (Part001.Duration (Part001.param l) * Part001.Rotate (Part001.param l)) (os.now w))
    names.

(** [name] holds a run of [n] digits (followed by [.gz] when [gz]). *)
Definition labelled (n : nat) (gz : bool) (name : string) : Prop :=
  exists pre d post,
    name = pre +:+ d +:+ (if gz then ".gz" else "") +:+ post
    /\ String.length d = n /\ digits.all_digits d = true.

(** From [w] to [w'] calls were issued, every [os.Remove] among them on a
    path in [touched], and every path outside [touched] holds what it held. *)
Definition removed_only (touched : string -> Prop) (w w' : os.World) : Prop :=
  exists cs,
    os.trace w' = (os.trace w ++ cs)%list
    /\ (forall p, os.CRemove p ∈ cs -> touched p)
    /\ (forall p, ~ touched p -> os.files w' !! p = os.files w !! p).

(** The value a chunk prints. *)
Definition field (k : Chunk) (c : Civil) : Z :=
  match k with
  | stdLongYear => year c
  | stdZeroMonth => month c
  | stdZeroDay => day c
  | stdHour => hour c
  | stdZeroMinute => minute c
  | stdZeroSecond => second c
  | stdLit _ => 0
  end.

Definition fields_in_range (c : Civil) : Prop :=
  0 <= year c <= 9999 /\ 1 <= month c <= 12 /\ 1 <= day c <= 31
  /\ 0 <= hour c < 24 /\ 0 <= minute c < 60 /\ 0 <= second c < 60.

(** One of the four layouts of the package. *)
Definition granular (layout : string) : Prop :=
  layout = levels.formatDay \/ layout = levels.formatHour
  \/ layout = levels.formatMin \/ layout = levels.formatSec.

(** What a label of [layout] resolves, in seconds, and the instant a label
    written at [t] in [loc] stands for: the start of the day, hour, minute or
    second of [t] on the clock of [loc]. *)
Definition resolution (layout : string) : Z :=
  if String.eqb layout levels.formatDay then 86400
  else if String.eqb layout levels.formatHour then 3600
  else if String.eqb layout levels.formatMin then 60
  else 1.

Definition label_start (loc : Location) (t : Time) (layout : string) : Time :=
  let secs := t / Second + loc in
  (secs - secs mod resolution layout - loc) * Second.

(** [StartRotate] accepts the configuration of [l]. *)
Definition accepted (l : LogGo.Logger) : bool :=
  match LogGo.rotateCfg l with
  | None => false
  | Some cfg => negb ((LogGo.rcRotate cfg <=? 0) || (LogGo.rcDuration cfg <? 1 * Second))
  end.

(** How many of the actions are calls of [StartRotate]. *)
Definition starts (acts : list LogGo.Action) : nat :=
  length (List.filter (fun a => match a with LogGo.DoStartRotate => true | _ => false end) acts).

(** Every closed channel was made earlier, and the channel the logger holds,
    if any, was made earlier and is open. *)
Definition channels_ok (l : LogGo.Logger) (rt : LogGo.Runtime) : Prop :=
  (forall c, c ∈ LogGo.closed rt -> (c < LogGo.fresh rt)%nat)
  /\ match LogGo.rotateCh l with
     | Some c => (c < LogGo.fresh rt)%nat /\ c ∉ LogGo.closed rt
     | None => True
     end.

End spec.

(** * Properties *)

(** ** Levels *)

(** C10. [NewLevel] maps the six names to their levels and every other string
    to [LevelError]. *)
Theorem NewLevel_by_name (name : string) :
  levels.NewLevel name =
    if String.eqb name "debug" then levels.LevelDebug
    else if String.eqb name "info" then levels.LevelInfo
    else if String.eqb name "notice" then levels.LevelNotice
    else if String.eqb name "warning" then levels.LevelWarning
    else if String.eqb name "error" then levels.LevelError
    else if String.eqb name "critical" then levels.LevelCritical
    else levels.LevelError.
Proof.
  unfold levels.NewLevel, levels.levelNames.
  repeat
    (match goal with
     | |- context [String.eqb name ?k] =>
         destruct (String.eqb_spec name k) as [-> | ?];
         [ reflexivity | rewrite (lookup_insert_ne _ k name) by congruence ]
     end).
  rewrite lookup_empty. reflexivity.
Qed.

(** The six names, one by one. *)
Lemma NewLevel_six :
  levels.NewLevel "debug" = levels.LevelDebug
  /\ levels.NewLevel "info" = levels.LevelInfo
  /\ levels.NewLevel "notice" = levels.LevelNotice
  /\ levels.NewLevel "warning" = levels.LevelWarning
  /\ levels.NewLevel "error" = levels.LevelError
  /\ levels.NewLevel "critical" = levels.LevelCritical.
Proof. repeat split; reflexivity. Qed.

(** ** Starting the rotation loop (src/log.go) *)


(** ** The choice of the suffix format *)

(** C7, as the code has it.  [SetLogParam] (part_001) takes the day, hour,
    minute or second layout when [Duration] is exactly 24h, 1h, 1min or 1s,
    and otherwise leaves the layout as it was; while the layout and the
    stored label are empty, [rotate] issues no call at all.  [Rotate]
    (src/log.go) takes the second layout under one minute and the minute
    layout from one minute on. *)
Theorem suffix_format_choice :
  (forall p l w,
     Part001.suffixFormat (Part001.SetLogParam p l w).1.1 =
       if Part001.Duration p =? 24 * gotime.Hour then levels.formatDay
       else if Part001.Duration p =? gotime.Hour then levels.formatHour
       else if Part001.Duration p =? gotime.Minute then levels.formatMin
       else if Part001.Duration p =? gotime.Second then levels.formatSec
       else Part001.suffixFormat l)
  /\ (forall l w,
        Part001.suffixFormat l = "" -> Part001.lastSuffix l = "" ->
        Part001.rotate l w = (None, l, w, []))
  /\ (forall l w cfg r,
        LogGo.rotateCfg l = Some cfg -> LogGo.Rotate l w = Some r ->
        LogGo.suffixFormat r.1.1.2 =
          if LogGo.rcDuration cfg <? gotime.Minute then levels.formatSec
          else levels.formatMin).
Proof.
  split; [| split].
  - intros p l w. unfold Part001.SetLogParam.
    match goal with
    | |- context [String.eqb "" (Part001.lastSuffix ?l1)] => set (chosen := l1)
    end.
    assert (Hkeep :
      Part001.suffixFormat
        (let '(l2, w2) :=
           if String.eqb "" (Part001.lastSuffix chosen)
           then let '(s, w1) := Part001.genSuffixStr chosen w in
                (Part001.set_lastSuffix s chosen, w1)
           else (chosen, w) in
         (l2, w2,
          if Part001.Duration (Part001.param l2) >? 0 then [Part001.GoDoRotate] else [])).1.1
      = Part001.suffixFormat chosen).
    { destruct (String.eqb "" (Part001.lastSuffix chosen)); [| reflexivity].
      destruct (Part001.genSuffixStr chosen w); reflexivity. }
    rewrite Hkeep. subst chosen. simpl.
    repeat
      (match goal with
       | |- context [Part001.Duration p =? ?d] =>
           destruct (Part001.Duration p =? d)
       end; try reflexivity).
  - intros l w Hf Hl. unfold Part001.rotate, Part001.genSuffixStr.
    destruct l as [out lv prm fname lsuf f sfmt cmp rw]; simpl in *; subst.
    destruct f; [| reflexivity].
    match goal with
    | |- (if ?c then _ else _) = _ => destruct c
    end; reflexivity.
  - intros l w cfg r Hcfg Hr. unfold LogGo.Rotate in Hr. rewrite Hcfg in Hr. simpl in Hr.
    destruct (LogGo.rcDuration cfg <? gotime.Minute);
      simpl in Hr;
      repeat (match type of Hr with
              | context [match ?x with _ => _ end] => destruct x; simpl in Hr
              end);
      inversion Hr; reflexivity.
Qed.

(** Ninety seconds match no granularity: a new logger keeps the empty layout
    after [SetLogParam], not the second-level one; and one hour makes
    [Rotate] of src/log.go take the minute layout, not the hour one. *)
Lemma no_fallback_to_second_format :
  Part001.suffixFormat
    (Part001.SetLogParam examples.param_90s
       (Part001.New os.OtherWriter levels.LevelDebug)
       (examples.world_of [] [] examples.at_15_00_03)).1.1 = ""
  /\ "" <> levels.formatSec
  /\ exists r,
       LogGo.Rotate (examples.loggerGo examples.cfg_1h_keep_2)
         (examples.world_of [("app.log", os.Raw "records")] [] examples.at_15_00_03) = Some r
       /\ LogGo.suffixFormat r.1.1.2 = levels.formatMin
       /\ levels.formatMin <> levels.formatHour.
Proof.
  split; [reflexivity |]. split; [discriminate |].
  eexists. split; [vm_compute; reflexivity |]. split; [reflexivity | discriminate].
Qed.

Lemma suffix_format_choice_witness :
  Part001.rotate (Part001.New os.OtherWriter levels.LevelDebug)
    (examples.world_of [] [] examples.at_15_00_03)
  = (None, Part001.New os.OtherWriter levels.LevelDebug,
     examples.world_of [] [] examples.at_15_00_03, []).
Proof.
  destruct suffix_format_choice as (_ & H & _).
  apply H; reflexivity.
Defined.


(** ** The operating system model: what each call changes *)

Lemma Now_frozen w : os.later w = [] -> os.Now w = (os.now w, w).
Proof. unfold os.Now. intros ->. reflexivity. Qed.

Lemma Now_untouched w : spec.untouched w (os.Now w).2.
Proof. unfold os.Now, spec.untouched. destruct w as [? ? ? [|] ? ? ?]; simpl; auto. Qed.

Lemma only_logged_refl w : spec.only_logged w w.
Proof. repeat split. Qed.

Lemma log_only_logged mn lv msg w : spec.only_logged w (levels.log mn lv msg w).
Proof.
  unfold levels.log, spec.only_logged.
  destruct (lv <? mn); [auto 10 |]. destruct w; simpl; auto 10.
Qed.

Lemma Remove_effect name w :
  os.trace (os.Remove name w).2 = (os.trace w ++ [os.CRemove name])%list
  /\ os.emitted (os.Remove name w).2 = os.emitted w
  /\ os.now (os.Remove name w).2 = os.now w
  /\ os.later (os.Remove name w).2 = os.later w
  /\ os.local (os.Remove name w).2 = os.local w
  /\ (os.faults w = [] -> os.faults (os.Remove name w).2 = []
        /\ forall p, os.files (os.Remove name w).2 !! p
                     = if String.eqb p name then None else os.files w !! p).
Proof.
  unfold os.Remove, os.next_fault, os.issue.
  destruct w as [fs [|[e|] fl] ? ? ? ? ?]; simpl.
  - destruct (fs !! name) eqn:E; simpl; repeat split; auto; intros p;
      destruct (String.eqb_spec p name) as [Heq | Hn]; auto.
    + rewrite Heq. apply lookup_delete_eq.
    + apply lookup_delete_ne. congruence.
    + rewrite Heq. exact E.
  - repeat split; auto; discriminate.
  - destruct (fs !! name) eqn:E; simpl; repeat split; auto; discriminate.
Qed.

(** ** [int64] arithmetic of the retention test *)

Lemma wrap64_small z :
  gotime.minDuration <= z <= gotime.maxDuration -> gotime.wrap64 z = z.
Proof.
  unfold gotime.wrap64, gotime.minDuration, gotime.maxDuration. intros H.
  rewrite Z.mod_small; lia.
Qed.

(** Saturation does not change the comparison with a window below the
    largest duration. *)
Lemma Sub_gt_iff now ts win :
  gotime.minDuration <= win < gotime.maxDuration ->
  (gotime.Sub now ts >? win) = (win <? now - ts).
Proof.
  unfold gotime.Sub, gotime.minDuration, gotime.maxDuration. intros H.
  rewrite Z.gtb_ltb.
  destruct (win <? now - ts) eqn:E.
  - apply Z.ltb_lt in E. apply Z.ltb_lt. lia.
  - apply Z.ltb_ge in E. apply Z.ltb_ge. lia.
Qed.

(** ** The retention sweep *)

Lemma isOverdue000_spec l cfg ts w :
  Part000.rotateCfg l = Some cfg -> os.later w = [] ->
  spec.window_fits (Part000.rcDuration cfg) (Part000.rcRotate cfg) ->
  exists w1, spec.only_logged w w1
    /\ Part000.isOverdue l ts w
       = Some (match gotime.ParseInLocation (Part000.suffixFormat l) ts (os.local w) with
               | (t, None) => Part000.rcDuration cfg * Part000.rcRotate cfg <? os.now w - t
               | (_, Some _) => false
               end, w1).
Proof.
  intros Hcfg Hl Hw. unfold Part000.isOverdue.
  destruct (gotime.ParseInLocation (Part000.suffixFormat l) ts (os.local w)) as [t [e|]].
  - eexists. split; [apply log_only_logged | reflexivity].
  - rewrite (Now_frozen w Hl). rewrite Hcfg. simpl.
    unfold gotime.dur_mul. unfold spec.window_fits in Hw.
    rewrite wrap64_small by lia. rewrite Sub_gt_iff by exact Hw.
    exists w. split; [apply only_logged_refl |].
    destruct (_ <? _); reflexivity.
Qed.

(** One turn of the loop: the entry is removed exactly when it is expired. *)
Lemma cleanOldLogs_loop000_cons l cfg dir fn rest w :
  Part000.rotateCfg l = Some cfg ->
  spec.window_fits (Part000.rcDuration cfg) (Part000.rcRotate cfg) ->
  os.later w = [] ->
  exists w1, spec.only_logged w w1
    /\ Part000.cleanOldLogs_loop l cfg dir (spec.pattern000 l cfg) (fn :: rest) w
       = Part000.cleanOldLogs_loop l cfg dir (spec.pattern000 l cfg) rest
           (if spec.expired (spec.pattern000 l cfg) (Part000.rcCompress cfg)
                 (Part000.suffixFormat l) (os.local w)
                 (Part000.rcDuration cfg * Part000.rcRotate cfg) (os.now w) fn
            then (os.Remove (filepath.Join dir fn) w1).2 else w1).
Proof.
  intros Hcfg Hwin Hl. simpl. unfold spec.expired, regex.FindString.
  destruct (regex.find (spec.pattern000 l cfg) fn) as [m|] eqn:Hm.
  2:{ exists w. split; [apply only_logged_refl | reflexivity]. }
  destruct m as [|c m'].
  { exists w. split; [apply only_logged_refl | reflexivity]. }
  cbn [String.eqb].
  set (label := if Part000.rcCompress cfg
                then gostrings.remove_first ".gz" (String c m') else String c m').
  destruct (isOverdue000_spec l cfg label w Hcfg Hl Hwin) as (w1 & Hfr & Hov).
  rewrite Hov. simpl. exists w1. split; [exact Hfr |].
  destruct (gotime.ParseInLocation (Part000.suffixFormat l) label (os.local w)) as [t [e|]];
    [reflexivity |].
  destruct (_ <? _); reflexivity.
Qed.

(** Membership of a path in the removed ones, one entry more. *)
Lemma removed_cons (x p : string) (q : list string) (before : option os.Data) :
  (if bool_decide (p ∈ q) then None else if String.eqb p x then None else before)
  = if bool_decide (p ∈ x :: q) then None else before.
Proof.
  destruct (String.eqb_spec p x) as [-> | Hne].
  - rewrite (bool_decide_eq_true_2 (_ ∈ _ :: _)) by left.
    destruct (bool_decide _); reflexivity.
  - destruct (bool_decide (p ∈ q)) eqn:Hb.
    + apply bool_decide_eq_true_1 in Hb.
      rewrite bool_decide_eq_true_2; [reflexivity | right; exact Hb].
    + apply bool_decide_eq_false_1 in Hb.
      rewrite bool_decide_eq_false_2; [reflexivity |].
      intros Hin. apply elem_of_cons in Hin as [? | ?]; congruence.
Qed.

Lemma cleanOldLogs_loop000_spec l cfg dir names :
  Part000.rotateCfg l = Some cfg ->
  spec.window_fits (Part000.rcDuration cfg) (Part000.rcRotate cfg) ->
  forall w, os.later w = [] ->
  exists w', Part000.cleanOldLogs_loop l cfg dir (spec.pattern000 l cfg) names w = Some w'
    /\ os.trace w'
       = (os.trace w
          ++ map (fun fn => os.CRemove (filepath.Join dir fn)) (spec.doomed000 l cfg w names))%list
    /\ os.now w' = os.now w /\ os.later w' = [] /\ os.local w' = os.local w
    /\ (os.faults w = [] -> os.faults w' = []
        /\ forall p, os.files w' !! p
             = if bool_decide (p ∈ map (filepath.Join dir) (spec.doomed000 l cfg w names))
               then None else os.files w !! p).
Proof.
  intros Hcfg Hwin. induction names as [|fn rest IH]; intros w Hl.
  - exists w. simpl. rewrite app_nil_r. repeat split; auto.
  - destruct (cleanOldLogs_loop000_cons l cfg dir fn rest w Hcfg Hwin Hl)
      as (w1 & (Hf1 & Ht1 & Hfl1 & Hn1 & Hl1 & Hlo1) & ->).
    unfold spec.doomed000 in *. cbn [List.filter].
    destruct (spec.expired _ _ _ _ _ _ fn).
    + pose proof (Remove_effect (filepath.Join dir fn) w1) as (R1 & R2 & R3 & R4 & R5 & R6).
      destruct (IH (os.Remove (filepath.Join dir fn) w1).2 ltac:(congruence))
        as (w' & H1 & H2 & H3 & H4 & H5 & H6).
      exists w'. split; [exact H1 |].
      rewrite R3, R5, Hn1, Hlo1 in *. rewrite R1, Ht1 in H2.
      split. { rewrite H2. simpl. rewrite <- app_assoc. reflexivity. }
      split; [congruence |]. split; [congruence |]. split; [congruence |].
      intros Hfl. destruct (R6 ltac:(congruence)) as [R6a R6b].
      destruct (H6 R6a) as [H6a H6b]. split; [exact H6a |].
      intros p. rewrite H6b. simpl. rewrite R6b, Hf1. apply removed_cons.
    + destruct (IH w1 ltac:(congruence)) as (w' & H1 & H2 & H3 & H4 & H5 & H6).
      exists w'. split; [exact H1 |].
      rewrite Hn1, Hlo1, Ht1 in *. rewrite Hfl1, Hf1 in H6.
      repeat split; auto; try congruence; apply H6; auto.
Qed.

Lemma isOverdueGo_spec l cfg now ts w :
  LogGo.rotateCfg l = Some cfg ->
  spec.window_fits (LogGo.rcDuration cfg) (LogGo.rcRotate cfg) ->
  exists w1, spec.only_logged w w1
    /\ LogGo.isOverdue l now ts w
       = Some (match gotime.ParseInLocation (LogGo.suffixFormat l) ts (os.local w) with
               | (t, None) => LogGo.rcDuration cfg * LogGo.rcRotate cfg <? now - t
               | (_, Some _) => false
               end, w1).
Proof.
  intros Hcfg Hw. unfold LogGo.isOverdue.
  destruct (gotime.ParseInLocation (LogGo.suffixFormat l) ts (os.local w)) as [t [e|]].
  - eexists. split; [apply log_only_logged | reflexivity].
  - rewrite Hcfg. simpl.
    unfold gotime.dur_mul. unfold spec.window_fits in Hw.
    rewrite wrap64_small by lia. rewrite Sub_gt_iff by exact Hw.
    exists w. split; [apply only_logged_refl |].
    destruct (_ <? _); reflexivity.
Qed.

Lemma cleanOldLogs_loopGo_cons l cfg now fn rest w :
  LogGo.rotateCfg l = Some cfg ->
  spec.window_fits (LogGo.rcDuration cfg) (LogGo.rcRotate cfg) ->
  exists w1, spec.only_logged w w1
    /\ LogGo.cleanOldLogs_loop l now (regex.Digits (String.length (LogGo.suffixFormat l)))
         (fn :: rest) w
       = LogGo.cleanOldLogs_loop l now (regex.Digits (String.length (LogGo.suffixFormat l))) rest
           (if spec.expired (regex.Digits (String.length (LogGo.suffixFormat l))) false
                 (LogGo.suffixFormat l) (os.local w)
                 (LogGo.rcDuration cfg * LogGo.rcRotate cfg) now fn
            then (os.Remove fn w1).2 else w1).
Proof.
  intros Hcfg Hwin. simpl. unfold spec.expired, regex.FindString.
  destruct (regex.find _ fn) as [m|] eqn:Hm.
  2:{ exists w. split; [apply only_logged_refl | reflexivity]. }
  destruct m as [|c m'].
  { exists w. split; [apply only_logged_refl | reflexivity]. }
  cbn [String.eqb String.length Nat.ltb Nat.leb].
  destruct (isOverdueGo_spec l cfg now (String c m') w Hcfg Hwin) as (w1 & Hfr & Hov).
  rewrite Hov. simpl. exists w1. split; [exact Hfr |].
  destruct (gotime.ParseInLocation (LogGo.suffixFormat l) (String c m') (os.local w))
    as [t [e|]]; [reflexivity |].
  destruct (_ <? _); reflexivity.
Qed.

Lemma cleanOldLogs_loopGo_spec l cfg now paths :
  LogGo.rotateCfg l = Some cfg ->
  spec.window_fits (LogGo.rcDuration cfg) (LogGo.rcRotate cfg) ->
  forall w,
  exists w', LogGo.cleanOldLogs_loop l now (regex.Digits (String.length (LogGo.suffixFormat l)))
               paths w = Some w'
    /\ os.trace w' = (os.trace w ++ map os.CRemove (spec.doomedGo l cfg now w paths))%list
    /\ os.local w' = os.local w
    /\ (os.faults w = [] -> os.faults w' = []
        /\ forall p, os.files w' !! p
             = if bool_decide (p ∈ spec.doomedGo l cfg now w paths)
               then None else os.files w !! p).
Proof.
  intros Hcfg Hwin. induction paths as [|fn rest IH]; intros w.
  - exists w. simpl. rewrite app_nil_r. repeat split; auto.
  - destruct (cleanOldLogs_loopGo_cons l cfg now fn rest w Hcfg Hwin)
      as (w1 & (Hf1 & Ht1 & Hfl1 & Hn1 & Hl1 & Hlo1) & ->).
    unfold spec.doomedGo in *. cbn [List.filter].
    destruct (spec.expired _ _ _ _ _ _ fn).
    + pose proof (Remove_effect fn w1) as (R1 & R2 & R3 & R4 & R5 & R6).
      destruct (IH (os.Remove fn w1).2) as (w' & H1 & H2 & H3 & H4).
      exists w'. split; [exact H1 |].
      rewrite R5, Hlo1 in *. rewrite R1, Ht1 in H2.
      split. { rewrite H2. simpl. rewrite <- app_assoc. reflexivity. }
      split; [congruence |].
      intros Hfl. destruct (R6 ltac:(congruence)) as [R6a R6b].
      destruct (H4 R6a) as [H4a H4b]. split; [exact H4a |].
      intros p. rewrite H4b. simpl. rewrite R6b, Hf1. apply removed_cons.
    + destruct (IH w1) as (w' & H1 & H2 & H3 & H4).
      exists w'. split; [exact H1 |].
      rewrite Hlo1, Ht1 in *. rewrite Hfl1, Hf1 in H4.
      repeat split; auto; try congruence; apply H4; auto.
Qed.

Lemma cleanOldLogs000_spec l cfg fileName w :
  Part000.rotateCfg l = Some cfg ->
  spec.window_fits (Part000.rcDuration cfg) (Part000.rcRotate cfg) ->
  os.later w = [] -> os.faults w = [] ->
  let dir := filepath.Dir fileName in
  let doomed := spec.doomed000 l cfg w (os.entries dir w) in
  exists w',
    Part000.cleanOldLogs l fileName w = Some (None, w')
    /\ os.trace w'
       = (os.trace w ++ [os.COpen dir; os.CReaddirnames dir]
          ++ map (fun fn => os.CRemove (filepath.Join dir fn)) doomed
          ++ [os.CClose dir])%list
    /\ forall p, os.files w' !! p
         = if bool_decide (p ∈ map (filepath.Join dir) doomed) then None else os.files w !! p.
Proof.
  intros Hcfg Hwin Hl Hfl dir doomed. unfold Part000.cleanOldLogs.
  fold dir. unfold os.OpenDir, os.Readdirnames, os.next_fault, os.issue.
  destruct w as [fs fl nw lt lc tr em]. simpl in Hl, Hfl. subst lt fl. simpl.
  rewrite Hcfg. simpl. fold (spec.pattern000 l cfg).
  set (w2 := {| os.files := fs; os.faults := []; os.now := nw; os.later := [];
                os.local := lc;
                os.trace := (tr ++ [os.COpen dir]) ++ [os.CReaddirnames dir];
                os.emitted := em |}).
  destruct (cleanOldLogs_loop000_spec l cfg dir (os.entries dir w2) Hcfg Hwin w2 eq_refl)
    as (w' & H1 & H2 & _ & _ & _ & H6).
  rewrite H1. simpl. eexists. split; [reflexivity |].
  destruct (H6 eq_refl) as [_ H6b].
  split.
  - unfold os.Close, os.issue. simpl. rewrite H2. subst w2. simpl.
    rewrite <- !app_assoc. reflexivity.
  - intros p. unfold os.Close, os.issue. simpl. rewrite H6b. reflexivity.
Qed.

Lemma cleanOldLogsGo_spec l cfg now fileName w :
  LogGo.rotateCfg l = Some cfg ->
  spec.window_fits (LogGo.rcDuration cfg) (LogGo.rcRotate cfg) ->
  os.faults w = [] ->
  let dir := filepath.Dir fileName in
  let doomed := spec.doomedGo l cfg now w (map (filepath.Join dir) (os.entries dir w)) in
  exists w',
    LogGo.cleanOldLogs l now fileName w = Some (None, w')
    /\ os.trace w' = (os.trace w ++ [os.CGlob (dir +:+ "/*")] ++ map os.CRemove doomed)%list
    /\ forall p, os.files w' !! p
         = if bool_decide (p ∈ doomed) then None else os.files w !! p.
Proof.
  intros Hcfg Hwin Hfl dir doomed. unfold LogGo.cleanOldLogs.
  fold dir. unfold os.Glob, os.next_fault, os.issue.
  destruct w as [fs fl nw lt lc tr em]. simpl in Hfl. subst fl. simpl.
  set (w2 := {| os.files := fs; os.faults := []; os.now := nw; os.later := lt;
                os.local := lc; os.trace := tr ++ [os.CGlob (dir +:+ "/*")];
                os.emitted := em |}).
  destruct (cleanOldLogs_loopGo_spec l cfg now
              (map (filepath.Join dir) (os.entries dir w2)) Hcfg Hwin w2)
    as (w' & H1 & H2 & _ & H4).
  rewrite H1. simpl. eexists. split; [reflexivity |].
  destruct (H4 eq_refl) as [_ H4b].
  split.
  - rewrite H2. subst w2. simpl. rewrite <- !app_assoc. reflexivity.
  - intros p. rewrite H4b. reflexivity.
Qed.

(** C3, as the code has it.  With no fault and a window that fits [int64],
    the sweep issues [os.Remove] for exactly the entries that are expired:
    the pattern matches in the name, the match parses, and the parsed instant
    is more than [Duration * Rotate] before the clock reading.  Every other
    path keeps what it held.  No entry is exempt, the active file included:
    it is judged by its name like the others.  In part_000 the pattern is
    the digit run of the layout's length, followed by [.gz] when [Compress] is
    set, searched in the entry's name; in src/log.go it is the digit run alone,
    whatever [Compress] says, searched in the path [Glob] returned. *)
Theorem sweep_removes_the_expired :
  (forall l cfg fileName w,
     Part000.rotateCfg l = Some cfg ->
     spec.window_fits (Part000.rcDuration cfg) (Part000.rcRotate cfg) ->
     os.later w = [] -> os.faults w = [] ->
     let dir := filepath.Dir fileName in
     let doomed := spec.doomed000 l cfg w (os.entries dir w) in
     exists w',
       Part000.cleanOldLogs l fileName w = Some (None, w')
       /\ os.trace w'
          = (os.trace w ++ [os.COpen dir; os.CReaddirnames dir]
             ++ map (fun fn => os.CRemove (filepath.Join dir fn)) doomed
             ++ [os.CClose dir])%list
       /\ forall p, os.files w' !! p
            = if bool_decide (p ∈ map (filepath.Join dir) doomed)
              then None else os.files w !! p)
  /\ (forall l cfg now fileName w,
        LogGo.rotateCfg l = Some cfg ->
        spec.window_fits (LogGo.rcDuration cfg) (LogGo.rcRotate cfg) ->
        os.faults w = [] ->
        let dir := filepath.Dir fileName in
        let doomed :=
          spec.doomedGo l cfg now w (map (filepath.Join dir) (os.entries dir w)) in
        exists w',
          LogGo.cleanOldLogs l now fileName w = Some (None, w')
          /\ os.trace w'
             = (os.trace w ++ [os.CGlob (dir +:+ "/*")] ++ map os.CRemove doomed)%list
          /\ forall p, os.files w' !! p
               = if bool_decide (p ∈ doomed) then None else os.files w !! p).
Proof.
  split.
  - intros; apply cleanOldLogs000_spec; assumption.
  - intros; apply cleanOldLogsGo_spec; assumption.
Qed.

(** A log file that carries twelve digits in its own name: the sweep that
    follows its rotation removes the fresh archive and the active file. *)
Lemma sweep_removes_active_file :
  exists l w1 w2,
    Part000.Rotate examples.logger000_audit examples.world_audit
      = Some (None, l, w1,
              [Part000.GoHousekeeping "audit-202401011200.log.202401011500"
                 "audit-202401011200.log"])
    /\ Part000.w l = os.FileWriter examples.audit_log
    /\ os.files w1 !! "audit-202401011200.log" = Some (os.Raw "")
    /\ Part000.housekeeping l "audit-202401011200.log.202401011500"
         "audit-202401011200.log" w1 = Some w2
    /\ os.files w2 !! "audit-202401011200.log" = None
    /\ os.files w2 = ∅.
Proof.
  eexists _, _, _.
  split; [vm_compute; reflexivity |].
  split; [reflexivity |].
  split; [vm_compute; reflexivity |].
  split; [vm_compute; reflexivity |].
  split; vm_compute; reflexivity.
Qed.

Lemma sweep_removes_the_expired_witness :
  exists w',
    Part000.cleanOldLogs examples.logger000_app "app.log" examples.world_three_archives
      = Some (None, w')
    /\ os.trace w'
       = [os.COpen "."; os.CReaddirnames "."; os.CRemove "app.log.20240101120000";
          os.CClose "."]
    /\ os.files w' !! "app.log.20240101120000" = None
    /\ os.files w' !! "app.log.20240101130000.gz" = Some (os.Gz (os.Raw "one"))
    /\ os.files w' !! "app.log.20240101140000" = Some (os.Raw "two")
    /\ os.files w' !! "app.log" = Some (os.Raw "").
Proof.
  destruct sweep_removes_the_expired as [H _].
  assert (Hfit : spec.window_fits (Part000.rcDuration examples.cfg000_1h_keep_2)
                   (Part000.rcRotate examples.cfg000_1h_keep_2)).
  { unfold spec.window_fits. vm_compute. split; [discriminate | reflexivity]. }
  destruct (H examples.logger000_app examples.cfg000_1h_keep_2 "app.log"
              examples.world_three_archives eq_refl Hfit eq_refl eq_refl)
    as (w' & H1 & H2 & H3).
  exists w'. split; [exact H1 |].
  split; [rewrite H2; vm_compute; reflexivity |].
  repeat split; rewrite H3; vm_compute; reflexivity.
Defined.

(** ** Compression *)

Lemma length_append (a b : string) :
  String.length (a +:+ b) = (String.length a + String.length b)%nat.
Proof. induction a as [|c a IH]; simpl; [reflexivity | rewrite IH; reflexivity]. Qed.

Lemma gz_name_differs (path : string) : path <> path +:+ ".gz".
Proof.
  intros H. apply (f_equal String.length) in H. rewrite length_append in H.
  simpl in H. lia.
Qed.




Lemma Close_effect f w :
  os.trace (os.Close f w) = (os.trace w ++ [os.CClose (os.Name f)])%list
  /\ os.files (os.Close f w) = os.files w.
Proof. destruct w; simpl; auto. Qed.







(** ** Rotation in part_001 *)

Lemma Rename_trace a b w :
  os.trace (os.Rename a b w).2 = (os.trace w ++ [os.CRename a b])%list.
Proof.
  unfold os.Rename, os.next_fault, os.issue.
  destruct w as [fs [|[e|] fl] ? ? ? ? ?]; simpl;
    try destruct (fs !! a); reflexivity.
Qed.

Lemma OpenAppend_trace name w :
  os.trace (os.OpenAppend name w).2 = (os.trace w ++ [os.COpenAppend name])%list.
Proof.
  unfold os.OpenAppend, os.next_fault, os.issue.
  destruct w as [fs [|[e|] fl] ? ? ? ? ?]; simpl;
    try destruct (fs !! name); reflexivity.
Qed.

Lemma genSuffixStr001_untouched l w : spec.untouched w (Part001.genSuffixStr l w).2.
Proof.
  unfold Part001.genSuffixStr.
  destruct (String.eqb "" (Part001.suffixFormat l)).
  - repeat split.
  - pose proof (Now_untouched w) as H. destruct (os.Now w) as [t w0]. exact H.
Qed.

Lemma set_lastSuffix_same l : Part001.set_lastSuffix (Part001.lastSuffix l) l = l.
Proof. destruct l; reflexivity. Qed.





(** Two calls three seconds into a bucket, the stored label being that of
    15:00:00: the first renames, the second does nothing. *)
Example rotate_twice_at_15_00_03 :
  exists l1 w1,
    Part001.rotate (examples.logger001 "20240101150000")
      (examples.world_of [("app.log", os.Raw "records")] [] examples.at_15_00_03)
    = (None, l1, w1,
       [Part001.GoCompress "app.log.20240101150003"; Part001.GoDeleteOverdue])
    /\ os.trace w1 = [os.CRename "app.log" "app.log.20240101150003";
                      os.COpenAppend "app.log"; os.CClose "app.log"]
    /\ Part001.rotate l1 w1 = (None, l1, w1, []).
Proof.
  eexists _, _. split; [vm_compute; reflexivity |].
  split; vm_compute; reflexivity.
Qed.

(** C2, on part_001.  The rename goes through, the reopen is refused, the
    rename back goes through: [rotate] returns nil, the result of the rename
    back, where the claim has it return the open failure. *)
Theorem rotate001_returns_nil_after_failed_reopen :
  exists w',
    Part001.rotate (examples.logger001 "20240101150000") examples.world_reopen_refused
    = (None, examples.logger001 "20240101150000", w', [])
    /\ os.trace w' = [os.CRename "app.log" "app.log.20240101150003";
                      os.COpenAppend "app.log";
                      os.CRename "app.log.20240101150003" "app.log"]
    /\ os.emitted w'
       = ["[Error] Failed to open file. file:app.log, err:permission denied"].
Proof.
  eexists. split; [vm_compute; reflexivity |].
  split; vm_compute; reflexivity.
Qed.

(** C4, on part_001.  The fourteen digits of [snapshot.99999999999999.gz] are
    no date; [isOverdue] logs the parse error and goes on with the zero time,
    so the file counts as expired and [deleteOverdue] removes it. *)
Theorem deleteOverdue001_removes_unparsable :
  (Part001.isOverdue (examples.logger001 "20240101150003") "99999999999999"
     examples.world_with_stray_gz).1 = true
  /\ os.files examples.world_with_stray_gz !! "snapshot.99999999999999.gz"
     = Some (os.Gz (os.Raw "unrelated"))
  /\ os.files (Part001.deleteOverdue (examples.logger001 "20240101150003")
                 examples.world_with_stray_gz) !! "snapshot.99999999999999.gz" = None
  /\ os.trace (Part001.deleteOverdue (examples.logger001 "20240101150003")
                 examples.world_with_stray_gz)
     = [os.COpen "."; os.CReaddirnames "."; os.CRemove "snapshot.99999999999999.gz";
        os.CClose "."]
  /\ length (os.emitted (Part001.deleteOverdue (examples.logger001 "20240101150003")
                           examples.world_with_stray_gz)) = 1%nat.
Proof. repeat split; vm_compute; reflexivity. Qed.

(** ** The rotation loop of src/log.go *)

(** A loop that waits in [select] rotates as soon as its timer has fired,
    whatever [Stop] did to the channel in between: the loop has no way out. *)
Lemma loop_rotates_when_timer_fires s i ch deadline :
  LogGo.loops s !! i = Some (LogGo.InSelect ch deadline) ->
  deadline <= os.now (LogGo.world s) ->
  LogGo.step s (LogGo.DoLoop i)
  = ('(_, l, wd, ts) ← LogGo.Rotate (LogGo.logger s) (LogGo.world s);
     Some {| LogGo.logger := l; LogGo.world := wd; LogGo.runtime := LogGo.runtime s;
             LogGo.loops := <[i := LogGo.AtTop]> (LogGo.loops s);
             LogGo.pending := (LogGo.pending s ++ ts)%list |}).
Proof.
  intros Hi Hd. unfold LogGo.step. rewrite Hi. simpl.
  assert (Hready : LogGo.select_ready (LogGo.runtime s) ch deadline (LogGo.world s) = true).
  { unfold LogGo.select_ready.
    assert ((deadline <=? os.now (LogGo.world s)) = true) as -> by (apply Z.leb_le; exact Hd).
    destruct ch; [apply orb_true_r | reflexivity]. }
  rewrite Hready. reflexivity.
Qed.

(** No step takes a loop away. *)
Lemma loops_stay s a s' :
  LogGo.step s a = Some s' -> (length (LogGo.loops s) <= length (LogGo.loops s'))%nat.
Proof.
  unfold LogGo.step. destruct a as [| | i | t].
  - destruct (LogGo.StartRotate _ _) as [[[err l] rt] ts]. intros H; inversion H; subst; simpl.
    rewrite length_app. lia.
  - destruct (LogGo.Stop _ _) as [l rt]. intros H; inversion H; subst; simpl. lia.
  - destruct (LogGo.loops s !! i) as [[| ch deadline]|]; simpl; [| | discriminate].
    + destruct (LogGo.loop_enter _ _) as [[st' wd]|]; simpl; [| discriminate].
      intros H; inversion H; subst; simpl. rewrite length_insert. lia.
    + destruct (LogGo.select_ready _ _ _ _); [| discriminate].
      destruct (LogGo.Rotate _ _) as [[[[err l] wd] ts]|]; simpl; [| discriminate].
      intros H; inversion H; subst; simpl. rewrite length_insert. lia.
  - intros H; inversion H; subst; simpl. lia.
Qed.

(** C9, on src/log.go.  The loop is started and waits in [select]; [Stop]
    closes the channel.  Up to there nothing was renamed.  The closed channel
    wakes the loop, which rotates at once (15:00:00.5, label of 15:00:00) and
    goes round; at the next boundary it rotates again (label of 15:00:01).
    The loop is still there, at the head of its [for]; the writer is the
    reopened [app.log]. *)
Theorem Stop_leaves_the_loop_running :
  exists s1 s2,
    LogGo.run examples.system0 [LogGo.DoStartRotate; LogGo.DoLoop 0; LogGo.DoStop] = Some s1
    /\ LogGo.rotateCh (LogGo.logger s1) = None
    /\ os.trace (LogGo.world s1) = []
    /\ LogGo.run s1 [LogGo.DoLoop 0; LogGo.DoLoop 0;
                     LogGo.DoClock (gotime.Date 2024 1 1 15 0 1 0); LogGo.DoLoop 0] = Some s2
    /\ os.trace (LogGo.world s2)
       = [os.CRename "app.log" "app.log.20240101150000"; os.COpenAppend "app.log";
          os.CClose "app.log";
          os.CRename "app.log" "app.log.20240101150001"; os.COpenAppend "app.log";
          os.CClose "app.log"]
    /\ LogGo.loops s2 = [LogGo.AtTop]
    /\ LogGo.w (LogGo.logger s2) = os.FileWriter examples.app_log.
Proof.
  eexists _, _. split; [vm_compute; reflexivity |].
  split; [reflexivity |]. split; [reflexivity |].
  split; [vm_compute; reflexivity |].
  repeat split; vm_compute; reflexivity.
Qed.

(** ** Single flight of [compress] in part_001 *)

(** Run alone, the atomic actions of a call add up to [compress]. *)
Lemma compress_steps_alone path l w :
  Part001.compress_steps 6 path Part001.AtSwap l w
  = (Part001.Returned, (Part001.compress path l w).1, (Part001.compress path l w).2).
Proof.
  unfold Part001.compress, Part001.compress_body.
  destruct (Part001.CompareAndSwapInt32 0 1 l) as [[|] l1] eqn:H0;
    [| cbn [Part001.compress_steps Part001.compress_step]; rewrite H0; reflexivity].
  destruct (os.Open path w) as [[rf|e1] w1] eqn:H1;
    [| cbn [Part001.compress_steps Part001.compress_step]; rewrite H0;
       cbn [Part001.compress_steps Part001.compress_step]; rewrite H1; reflexivity].
  destruct (os.OpenTrunc (path +:+ ".gz") w1) as [[wf|e2] w2] eqn:H2;
    [| cbn [Part001.compress_steps Part001.compress_step]; rewrite H0;
       cbn [Part001.compress_steps Part001.compress_step]; rewrite H1;
       cbn [Part001.compress_steps Part001.compress_step]; rewrite H2; reflexivity].
  destruct (os.CopyGz wf rf w2) as [[e3|] w3] eqn:H3;
    cbn [Part001.compress_steps Part001.compress_step]; rewrite H0;
    cbn [Part001.compress_steps Part001.compress_step]; rewrite H1;
    cbn [Part001.compress_steps Part001.compress_step]; rewrite H2;
    cbn [Part001.compress_steps Part001.compress_step]; rewrite H3; reflexivity.
Qed.









(** ** What [FindString] finds *)

Lemma take_n_splits n : forall s p r,
  digits.take_n n s = Some (p, r) -> s = p +:+ r /\ String.length p = n.
Proof.
  induction n as [|n IH]; intros s p r H; simpl in H.
  - inversion H; subst. split; reflexivity.
  - destruct s as [|c s]; [discriminate |].
    destruct (digits.take_n n s) as [[p' r']|] eqn:E; [| discriminate].
    inversion H; subst. destruct (IH s p' r E) as [-> <-]. split; reflexivity.
Qed.

Lemma prefix_gz r : String.prefix ".gz" r = true -> exists post, r = ".gz" +:+ post.
Proof.
  destruct r as [|a r]; cbn [String.prefix]; [intros H; discriminate H |].
  destruct (ascii_dec "." a) as [<- |]; [| intros H; discriminate H].
  destruct r as [|b r]; cbn [String.prefix]; [intros H; discriminate H |].
  destruct (ascii_dec "g" b) as [<- |]; [| intros H; discriminate H].
  destruct r as [|c r]; cbn [String.prefix]; [intros H; discriminate H |].
  destruct (ascii_dec "z" c) as [<- |]; [| intros H; discriminate H].
  intros _. exists r. reflexivity.
Qed.

Lemma append_cons c (a b : string) : String c a +:+ b = String c (a +:+ b).
Proof. reflexivity. Qed.

Lemma append_assoc (a b c : string) : (a +:+ b) +:+ c = a +:+ (b +:+ c).
Proof.
  induction a as [|x a IH]; [reflexivity |].
  rewrite !append_cons, IH. reflexivity.
Qed.

Lemma match_here_found rx s m :
  regex.match_here rx s = Some m ->
  exists post, s = m +:+ post
    /\ match rx with
       | regex.Digits n => String.length m = n /\ digits.all_digits m = true
       | regex.DigitsGz n =>
           exists d, m = d +:+ ".gz" /\ String.length d = n /\ digits.all_digits d = true
       end.
Proof.
  unfold regex.match_here. destruct rx as [n | n].
  - destruct (digits.take_n n s) as [[p r]|] eqn:E; [| discriminate].
    destruct (digits.all_digits p) eqn:D; [| discriminate].
    intros H; inversion H; subst. destruct (take_n_splits n s m r E) as [-> Hl].
    exists r. auto.
  - destruct (digits.take_n n s) as [[p r]|] eqn:E; [| discriminate].
    destruct (digits.all_digits p) eqn:D; [| discriminate].
    destruct (String.prefix ".gz" r) eqn:P; [| discriminate]. simpl.
    intros H; inversion H; subst. destruct (take_n_splits n s p r E) as [-> Hl].
    destruct (prefix_gz r P) as [post ->].
    exists post. split; [rewrite append_assoc; reflexivity |]. exists p. auto.
Qed.

(** The match [find] returns is a run of [n] digits (followed by [.gz] for
    the second pattern) standing somewhere in the name, and no suffix of the
    text before the end of a failed search starts with a match. *)
Theorem find_is_a_digit_run rx :
  (forall s m,
     regex.find rx s = Some m ->
     exists pre post, s = pre +:+ m +:+ post
       /\ match rx with
          | regex.Digits n => String.length m = n /\ digits.all_digits m = true
          | regex.DigitsGz n =>
              exists d, m = d +:+ ".gz" /\ String.length d = n
                        /\ digits.all_digits d = true
          end)
  /\ (forall s, regex.find rx s = None ->
        forall pre rest, s = pre +:+ rest -> regex.match_here rx rest = None).
Proof.
  split.
  - induction s as [|c s IH]; intros m H; simpl in H.
    + destruct (regex.match_here rx "") as [m'|] eqn:E; [| discriminate].
      inversion H; subst. destruct (match_here_found rx "" m E) as (post & Hs & Hm).
      exists "", post. auto.
    + destruct (regex.match_here rx (String c s)) as [m'|] eqn:E.
      * inversion H; subst. destruct (match_here_found rx _ m E) as (post & Hs & Hm).
        exists "", post. auto.
      * destruct (IH m H) as (pre & post & -> & Hm).
        exists (String c pre), post. auto.
  - induction s as [|c s IH]; intros H pre rest Hs; simpl in H.
    + destruct (regex.match_here rx "") eqn:E; [discriminate |].
      destruct pre as [|x pre].
      * change ("" = rest) in Hs. subst. exact E.
      * rewrite append_cons in Hs. discriminate.
    + destruct (regex.match_here rx (String c s)) eqn:E; [discriminate |].
      destruct pre as [|x pre].
      * change (String c s = rest) in Hs. subst. exact E.
      * rewrite append_cons in Hs. inversion Hs; subst. apply (IH H pre rest eq_refl).
Qed.

Lemma find_is_a_digit_run_witness :
  exists pre post,
    "app.log.20240101130000.gz" = pre +:+ "20240101130000.gz" +:+ post
    /\ exists d, "20240101130000.gz" = d +:+ ".gz" /\ String.length d = 14%nat
                 /\ digits.all_digits d = true.
Proof.
  destruct (find_is_a_digit_run (regex.DigitsGz 14)) as [H _].
  apply (H "app.log.20240101130000.gz" "20240101130000.gz"). reflexivity.
Defined.

(** ** The reopen that fails, in src/log.go *)

(** X1.  [Rotate] of src/log.go, rename done and reopen refused: the rename
    back is issued and the error returned is that of the open, whatever the
    rename back does. *)
Theorem RotateGo_returns_the_open_failure (l : LogGo.Logger) (wd : os.World)
    (cfg : LogGo.RotateConfig) (fd : os.File) :
  LogGo.rotateCfg l = Some cfg -> LogGo.w l = os.FileWriter fd ->
  let layout :=
    if LogGo.rcDuration cfg <? gotime.Minute then levels.formatSec else levels.formatMin in
  let target :=
    os.Name fd +:+ "." +:+
    gotime.Format (os.local (os.Now wd).2)
      (gotime.Truncate (os.Now wd).1 (LogGo.rcDuration cfg)) layout in
  forall w1 e w2,
    os.Rename (os.Name fd) target (os.Now wd).2 = (None, w1) ->
    os.OpenAppend (os.Name fd) w1 = (inr e, w2) ->
    exists wd',
      LogGo.Rotate l wd = Some (Some e, LogGo.set_suffixFormat layout l, wd', [])
      /\ os.trace wd' = (os.trace w2 ++ [os.CRename target (os.Name fd)])%list.
Proof.
  intros Hcfg Hw layout target w1 e w2 Hren Hopen.
  unfold LogGo.Rotate. rewrite Hcfg. cbn [mbind option_bind].
  assert (Hl : (if LogGo.rcDuration cfg <? gotime.Minute
                then LogGo.set_suffixFormat levels.formatSec l
                else LogGo.set_suffixFormat levels.formatMin l)
               = LogGo.set_suffixFormat layout l).
  { subst layout. destruct (_ <? _); reflexivity. }
  rewrite Hl. cbn [LogGo.w LogGo.set_suffixFormat]. rewrite Hw.
  subst target. destruct (os.Now wd) as [now w0]. cbn [fst snd] in *.
  cbn [LogGo.suffixFormat LogGo.set_suffixFormat]. rewrite Hren, Hopen.
  eexists. split; [reflexivity |].
  rewrite Rename_trace.
  destruct (log_only_logged (LogGo.Level l) levels.LevelError ("open fail: " +:+ e) w2)
    as (_ & Ht & _).
  unfold LogGo.Error. cbn [LogGo.Level LogGo.set_suffixFormat]. rewrite Ht. reflexivity.
Qed.

Lemma RotateGo_returns_the_open_failure_witness :
  exists wd',
    LogGo.Rotate (examples.loggerGo examples.cfg_1s_keep_5) examples.world_reopen_refused
    = Some (Some "permission denied",
            LogGo.set_suffixFormat levels.formatSec (examples.loggerGo examples.cfg_1s_keep_5),
            wd', [])
    /\ os.trace wd'
       = [os.CRename "app.log" "app.log.20240101150003"; os.COpenAppend "app.log";
          os.CRename "app.log.20240101150003" "app.log"].
Proof.
  destruct (RotateGo_returns_the_open_failure
              (examples.loggerGo examples.cfg_1s_keep_5) examples.world_reopen_refused
              examples.cfg_1s_keep_5 examples.app_log eq_refl eq_refl
              (os.Rename "app.log" "app.log.20240101150003"
                 (os.Now examples.world_reopen_refused).2).2
              "permission denied"
              (os.OpenAppend "app.log"
                 (os.Rename "app.log" "app.log.20240101150003"
                    (os.Now examples.world_reopen_refused).2).2).2)
    as (wd' & H1 & H2); [vm_compute; reflexivity | vm_compute; reflexivity |].
  exists wd'. split; [exact H1 |]. rewrite H2. vm_compute. reflexivity.
Defined.

(** ** A rotation that meets no fault *)

Lemma Rename_clean a b w d :
  os.faults w = [] -> os.files w !! a = Some d ->
  exists w', os.Rename a b w = (None, w')
    /\ os.files w' = <[b := d]> (delete a (os.files w))
    /\ os.faults w' = [] /\ os.emitted w' = os.emitted w
    /\ os.now w' = os.now w /\ os.later w' = os.later w /\ os.local w' = os.local w
    /\ os.trace w' = (os.trace w ++ [os.CRename a b])%list.
Proof.
  intros Hf Ha. unfold os.Rename, os.next_fault, os.issue.
  destruct w as [fs fl nw lt lc tr em]. simpl in *. subst fl. simpl. rewrite Ha.
  eexists. split; [reflexivity |]. simpl. auto 10.
Qed.

Lemma Rename_failed a b w e w' :
  os.Rename a b w = (Some e, w') ->
  os.files w' = os.files w /\ os.emitted w' = os.emitted w
  /\ os.now w' = os.now w /\ os.later w' = os.later w /\ os.local w' = os.local w
  /\ os.trace w' = (os.trace w ++ [os.CRename a b])%list.
Proof.
  unfold os.Rename, os.next_fault, os.issue.
  destruct w as [fs [|[e1|] fl] nw lt lc tr em]; simpl;
    try destruct (fs !! a); intros H; inversion H; subst; simpl; auto 10.
Qed.

Lemma OpenAppend_clean name w :
  os.faults w = [] ->
  exists w', os.OpenAppend name w = (inl {| os.Name := name |}, w')
    /\ os.files w' = match os.files w !! name with
                     | Some _ => os.files w
                     | None => <[name := os.Raw ""]> (os.files w)
                     end
    /\ os.faults w' = [] /\ os.emitted w' = os.emitted w
    /\ os.now w' = os.now w /\ os.later w' = os.later w /\ os.local w' = os.local w
    /\ os.trace w' = (os.trace w ++ [os.COpenAppend name])%list.
Proof.
  intros Hf. unfold os.OpenAppend, os.next_fault, os.issue.
  destruct w as [fs fl nw lt lc tr em]. simpl in *. subst fl. simpl.
  destruct (fs !! name); eexists; (split; [reflexivity |]); simpl; auto 10.
Qed.

Lemma archive_name_differs (name suffix : string) : name +:+ "." +:+ suffix <> name.
Proof.
  intros H. apply (f_equal String.length) in H. rewrite !length_append in H.
  simpl in H. lia.
Qed.

Lemma swap_files (active suffix : string) (d : os.Data) (fs : gmap string os.Data) :
  let archive := active +:+ "." +:+ suffix in
  let fs' := <[active := os.Raw ""]> (<[archive := d]> (delete active fs)) in
  fs' !! archive = Some d /\ fs' !! active = Some (os.Raw "")
  /\ forall p, p <> archive -> p <> active -> fs' !! p = fs !! p.
Proof.
  intros archive fs'. subst fs'.
  split. { rewrite lookup_insert_ne
             by (intros H; symmetry in H; exact (archive_name_differs _ _ H)).
           apply lookup_insert_eq. }
  split. { apply lookup_insert_eq. }
  intros p Hp1 Hp2. rewrite lookup_insert_ne by congruence.
  rewrite lookup_insert_ne by congruence. apply lookup_delete_ne. congruence.
Qed.

(** The two calls every version issues first: rename to the archive name,
    then reopen. *)
Lemma rename_then_open active suffix d w :
  os.faults w = [] -> os.files w !! active = Some d ->
  let archive := active +:+ "." +:+ suffix in
  exists w1 w2,
    os.Rename active archive w = (None, w1)
    /\ os.OpenAppend active w1 = (inl {| os.Name := active |}, w2)
    /\ spec.swapped active archive d w w2
    /\ os.faults w2 = [] /\ os.now w2 = os.now w /\ os.later w2 = os.later w
    /\ os.local w2 = os.local w
    /\ os.trace w2 = (os.trace w ++ [os.CRename active archive; os.COpenAppend active])%list.
Proof.
  intros Hfl Hfile archive.
  destruct (Rename_clean active archive w d Hfl Hfile)
    as (w1 & R & F1 & Fl1 & E1 & N1 & L1 & Lo1 & T1).
  destruct (OpenAppend_clean active w1 Fl1)
    as (w2 & O & F2 & Fl2 & E2 & N2 & L2 & Lo2 & T2).
  assert (Hgone : os.files w1 !! active = None).
  { rewrite F1. rewrite lookup_insert_ne by apply archive_name_differs.
    apply lookup_delete_eq. }
  rewrite Hgone in F2.
  exists w1, w2. split; [exact R |]. split; [exact O |].
  split.
  { unfold spec.swapped. rewrite F2, F1, E2, E1.
    destruct (swap_files active suffix d (os.files w)) as (A & B & C). auto. }
  rewrite T2, T1, <- app_assoc. repeat split; congruence.
Qed.

Lemma RotateGo_clean l wd cfg fd d :
  LogGo.rotateCfg l = Some cfg -> LogGo.w l = os.FileWriter fd ->
  os.faults wd = [] -> os.files wd !! os.Name fd = Some d ->
  let target :=
    os.Name fd +:+ "." +:+
    gotime.Format (os.local wd) (gotime.Truncate (os.now wd) (LogGo.rcDuration cfg))
      (spec.layoutGo (LogGo.rcDuration cfg)) in
  exists wd',
    LogGo.Rotate l wd
    = Some (None,
            LogGo.SetOutput (os.FileWriter {| os.Name := os.Name fd |})
              (LogGo.set_suffixFormat (spec.layoutGo (LogGo.rcDuration cfg)) l),
            wd', [LogGo.GoHousekeeping (os.now wd) target (os.Name fd)])
    /\ spec.swapped (os.Name fd) target d wd wd'
    /\ os.faults wd' = [] /\ os.local wd' = os.local wd
    /\ (os.later wd = [] -> os.now wd' = os.now wd /\ os.later wd' = [])
    /\ os.trace wd'
       = (os.trace wd ++ [os.CRename (os.Name fd) target; os.COpenAppend (os.Name fd);
                          os.CClose (os.Name fd)])%list.
Proof.
  intros Hcfg Hw Hfl Hfile target.
  unfold LogGo.Rotate. rewrite Hcfg. cbn [mbind option_bind].
  assert (Hl : (if LogGo.rcDuration cfg <? gotime.Minute
                then LogGo.set_suffixFormat levels.formatSec l
                else LogGo.set_suffixFormat levels.formatMin l)
               = LogGo.set_suffixFormat (spec.layoutGo (LogGo.rcDuration cfg)) l).
  { unfold spec.layoutGo. destruct (_ <? _); reflexivity. }
  rewrite Hl. cbn [LogGo.w LogGo.set_suffixFormat]. rewrite Hw.
  pose proof (Now_untouched wd) as (Uf & Ut & Ue & Ufl).
  assert (Hloc : os.local (os.Now wd).2 = os.local wd)
    by (unfold os.Now; destruct (os.later wd); reflexivity).
  assert (Hnow : (os.Now wd).1 = os.now wd) by reflexivity.
  assert (Hfro : os.later wd = [] -> os.now (os.Now wd).2 = os.now wd
                                      /\ os.later (os.Now wd).2 = [])
    by (unfold os.Now; intros E; rewrite E; simpl; auto).
  subst target. destruct (os.Now wd) as [now w0]. cbn [fst snd] in *. subst now.
  cbn [LogGo.suffixFormat LogGo.set_suffixFormat]. rewrite Hloc.
  destruct (rename_then_open (os.Name fd)
              (gotime.Format (os.local wd)
                 (gotime.Truncate (os.now wd) (LogGo.rcDuration cfg))
                 (spec.layoutGo (LogGo.rcDuration cfg))) d w0)
    as (w1 & w2 & -> & -> & (S1 & S2 & S3 & S4) & Fl & N & L & Lo & T);
    [congruence | congruence |].
  eexists. split; [reflexivity |].
  destruct (Close_effect fd w2) as (Ct & Cf).
  assert (Ce : os.emitted (os.Close fd w2) = os.emitted w2) by (destruct w2; reflexivity).
  assert (Cx : os.faults (os.Close fd w2) = os.faults w2 /\ os.now (os.Close fd w2) = os.now w2
               /\ os.later (os.Close fd w2) = os.later w2
               /\ os.local (os.Close fd w2) = os.local w2) by (destruct w2; auto).
  destruct Cx as (C1 & C2 & C3 & C4).
  split.
  { unfold spec.swapped. rewrite Cf, Ce. repeat split; try assumption.
    - intros p H1 H2. rewrite S3 by assumption. rewrite Uf. reflexivity.
    - congruence. }
  split; [congruence |]. split; [congruence |].
  split. { intros Hlt. destruct (Hfro Hlt). split; congruence. }
  rewrite Ct, T, Ut, <- app_assoc. reflexivity.
Qed.

Lemma Rotate000_clean l wd cfg fd d :
  Part000.rotateCfg l = Some cfg -> Part000.w l = os.FileWriter fd ->
  os.faults wd = [] -> os.files wd !! os.Name fd = Some d ->
  let target :=
    os.Name fd +:+ "." +:+
    gotime.Format (os.local wd) (gotime.Truncate (os.now wd) (Part000.rcDuration cfg))
      (spec.layoutGo (Part000.rcDuration cfg)) in
  exists wd',
    Part000.Rotate l wd
    = Some (None,
            Part000.SetOutput (os.FileWriter {| os.Name := os.Name fd |})
              (Part000.set_suffixFormat (spec.layoutGo (Part000.rcDuration cfg)) l),
            wd', [Part000.GoHousekeeping target (os.Name fd)])
    /\ spec.swapped (os.Name fd) target d wd wd'
    /\ os.faults wd' = [] /\ os.local wd' = os.local wd
    /\ (os.later wd = [] -> os.now wd' = os.now wd /\ os.later wd' = [])
    /\ os.trace wd'
       = (os.trace wd ++ [os.CRename (os.Name fd) target; os.COpenAppend (os.Name fd);
                          os.CClose (os.Name fd)])%list.
Proof.
  intros Hcfg Hw Hfl Hfile target.
  unfold Part000.Rotate. rewrite Hcfg. cbn [mbind option_bind].
  assert (Hl : (if Part000.rcDuration cfg <? gotime.Minute
                then Part000.set_suffixFormat levels.formatSec l
                else Part000.set_suffixFormat levels.formatMin l)
               = Part000.set_suffixFormat (spec.layoutGo (Part000.rcDuration cfg)) l).
  { unfold spec.layoutGo. destruct (_ <? _); reflexivity. }
  rewrite Hl. cbn [Part000.w Part000.set_suffixFormat]. rewrite Hw.
  unfold Part000.genSuffixStr. cbn [Part000.rotateCfg Part000.set_suffixFormat].
  rewrite Hcfg. cbn [mbind option_bind].
  pose proof (Now_untouched wd) as (Uf & Ut & Ue & Ufl).
  assert (Hloc : os.local (os.Now wd).2 = os.local wd)
    by (unfold os.Now; destruct (os.later wd); reflexivity).
  assert (Hnow : (os.Now wd).1 = os.now wd) by reflexivity.
  assert (Hfro : os.later wd = [] -> os.now (os.Now wd).2 = os.now wd
                                      /\ os.later (os.Now wd).2 = [])
    by (unfold os.Now; intros E; rewrite E; simpl; auto).
  subst target. destruct (os.Now wd) as [now w0]. cbn [fst snd] in *. subst now.
  cbn [Part000.suffixFormat Part000.set_suffixFormat]. rewrite Hloc.
  cbn [mbind option_bind].
  destruct (rename_then_open (os.Name fd)
              (gotime.Format (os.local wd)
                 (gotime.Truncate (os.now wd) (Part000.rcDuration cfg))
                 (spec.layoutGo (Part000.rcDuration cfg))) d w0)
    as (w1 & w2 & -> & -> & (S1 & S2 & S3 & S4) & Fl & N & L & Lo & T);
    [congruence | congruence |].
  eexists. split; [reflexivity |].
  destruct (Close_effect fd w2) as (Ct & Cf).
  assert (Ce : os.emitted (os.Close fd w2) = os.emitted w2) by (destruct w2; reflexivity).
  assert (Cx : os.faults (os.Close fd w2) = os.faults w2 /\ os.now (os.Close fd w2) = os.now w2
               /\ os.later (os.Close fd w2) = os.later w2
               /\ os.local (os.Close fd w2) = os.local w2) by (destruct w2; auto).
  destruct Cx as (C1 & C2 & C3 & C4).
  split.
  { unfold spec.swapped. rewrite Cf, Ce. repeat split; try assumption.
    - intros p H1 H2. rewrite S3 by assumption. rewrite Uf. reflexivity.
    - congruence. }
  split; [congruence |]. split; [congruence |].
  split. { intros Hlt. destruct (Hfro Hlt). split; congruence. }
  rewrite Ct, T, Ut, <- app_assoc. reflexivity.
Qed.

Lemma renames_app a b : spec.renames (a ++ b) = (spec.renames a + spec.renames b)%nat.
Proof. unfold spec.renames. rewrite List.filter_app, List.length_app. reflexivity. Qed.

(** X3.  [Rotate] of src/log.go and of part_000 on a file writer, no call
    failing: the result is nil, what the log held is now under the archive
    name (the file name, a dot, the truncated clock reading in the layout
    the duration selects), a new empty file stands under the log's name and
    is the logger's writer, no other path changed, and one housekeeping
    goroutine is started for that archive. *)
Theorem Rotate_archives_and_reopens (name : string) (d : os.Data) (wd : os.World) :
  os.faults wd = [] -> os.files wd !! name = Some d ->
  (forall l cfg,
     LogGo.rotateCfg l = Some cfg -> LogGo.w l = os.FileWriter {| os.Name := name |} ->
     let target :=
       name +:+ "." +:+
       gotime.Format (os.local wd) (gotime.Truncate (os.now wd) (LogGo.rcDuration cfg))
         (spec.layoutGo (LogGo.rcDuration cfg)) in
     exists l' wd',
       LogGo.Rotate l wd = Some (None, l', wd', [LogGo.GoHousekeeping (os.now wd) target name])
       /\ LogGo.w l' = os.FileWriter {| os.Name := name |}
       /\ LogGo.Output l' = os.FileWriter {| os.Name := name |}
       /\ spec.swapped name target d wd wd')
  /\ (forall l cfg,
        Part000.rotateCfg l = Some cfg -> Part000.w l = os.FileWriter {| os.Name := name |} ->
        let target :=
          name +:+ "." +:+
          gotime.Format (os.local wd) (gotime.Truncate (os.now wd) (Part000.rcDuration cfg))
            (spec.layoutGo (Part000.rcDuration cfg)) in
        exists l' wd',
          Part000.Rotate l wd = Some (None, l', wd', [Part000.GoHousekeeping target name])
          /\ Part000.w l' = os.FileWriter {| os.Name := name |}
          /\ Part000.Output l' = os.FileWriter {| os.Name := name |}
          /\ spec.swapped name target d wd wd').
Proof.
  intros Hfl Hfile. split.
  - intros l cfg Hcfg Hw target.
    destruct (RotateGo_clean l wd cfg {| os.Name := name |} d Hcfg Hw Hfl Hfile)
      as (wd' & HR & HS & _).
    eexists _, wd'. split; [exact HR |]. auto.
  - intros l cfg Hcfg Hw target.
    destruct (Rotate000_clean l wd cfg {| os.Name := name |} d Hcfg Hw Hfl Hfile)
      as (wd' & HR & HS & _).
    eexists _, wd'. split; [exact HR |]. auto.
Qed.

Lemma Rotate_archives_and_reopens_witness :
  exists l' wd',
    LogGo.Rotate (examples.loggerGo examples.cfg_1s_keep_5)
      (examples.world_of [("app.log", os.Raw "records")] [] examples.at_15_00_03)
    = Some (None, l', wd',
            [LogGo.GoHousekeeping examples.at_15_00_03 "app.log.20240101150003" "app.log"])
    /\ os.files wd' !! "app.log.20240101150003" = Some (os.Raw "records")
    /\ os.files wd' !! "app.log" = Some (os.Raw "").
Proof.
  destruct (Rotate_archives_and_reopens "app.log" (os.Raw "records")
              (examples.world_of [("app.log", os.Raw "records")] [] examples.at_15_00_03))
    as [H _]; [reflexivity | vm_compute; reflexivity |].
  destruct (H (examples.loggerGo examples.cfg_1s_keep_5) examples.cfg_1s_keep_5
              eq_refl eq_refl) as (l' & wd' & H1 & _ & _ & (A & B & _)).
  exists l', wd'. split; [exact H1 |]. split; [exact A | exact B].
Defined.

(** X4.  [rotate] of part_001 past its guards (a handle, a duration, a file
    name, a stored label, and a fresh label that differs from it), no call
    failing: the result is nil, what the log held is now under the file name
    followed by the fresh label, a new empty file stands under the log's
    name and is both the writer and [fd], the fresh label is stored, and the
    goroutines started are [compress] of the archive when [Compress] is set,
    then [deleteOverdue]. *)
Theorem rotate001_archives_and_reopens (l : Part001.Logger) (w : os.World)
    (oldFd : os.File) (d : os.Data) :
  Part001.fd l = Some oldFd ->
  Part001.Duration (Part001.param l) <> 0 ->
  Part001.fileName l <> "" ->
  Part001.lastSuffix l <> "" ->
  (Part001.genSuffixStr l w).1 <> Part001.lastSuffix l ->
  os.faults w = [] ->
  os.files w !! Part001.fileName l = Some d ->
  let nf := Part001.fileName l +:+ "." +:+ (Part001.genSuffixStr l w).1 in
  exists l' w',
    Part001.rotate l w
    = (None, l', w',
       ((if Part001.Compress (Part001.param l) then [Part001.GoCompress nf] else [])
        ++ [Part001.GoDeleteOverdue])%list)
    /\ Part001.lastSuffix l' = (Part001.genSuffixStr l w).1
    /\ Part001.fd l' = Some {| os.Name := Part001.fileName l |}
    /\ Part001.Output l' = os.FileWriter {| os.Name := Part001.fileName l |}
    /\ spec.swapped (Part001.fileName l) nf d w w'
    /\ os.trace w'
       = (os.trace w ++ [os.CRename (Part001.fileName l) nf;
                         os.COpenAppend (Part001.fileName l);
                         os.CClose (os.Name oldFd)])%list.
Proof.
  intros Hfd Hd Hn Hls Hne Hfl Hfile nf. unfold Part001.rotate. rewrite Hfd.
  assert ((0 =? Part001.Duration (Part001.param l)) = false) as ->
    by (apply Z.eqb_neq; congruence).
  assert (String.eqb "" (Part001.fileName l) = false) as ->
    by (apply String.eqb_neq; congruence).
  cbn [orb].
  pose proof (genSuffixStr001_untouched l w) as (Uf & Ut & Ue & Ufl).
  subst nf. destruct (Part001.genSuffixStr l w) as [suffix w0]. cbn [fst snd] in *.
  assert (String.eqb "" (Part001.lastSuffix l) = false) as ->
    by (apply String.eqb_neq; congruence).
  assert (String.eqb (Part001.lastSuffix l) suffix = false) as ->
    by (apply String.eqb_neq; congruence).
  destruct (rename_then_open (Part001.fileName l) suffix d w0)
    as (w1 & w2 & -> & -> & (S1 & S2 & S3 & S4) & _ & _ & _ & _ & T);
    [congruence | congruence |].
  eexists _, _. split; [reflexivity |].
  split; [reflexivity |]. split; [reflexivity |]. split; [reflexivity |].
  destruct (Close_effect oldFd w2) as (Ct & Cf).
  assert (Ce : os.emitted (os.Close oldFd w2) = os.emitted w2) by (destruct w2; reflexivity).
  split.
  - unfold spec.swapped. rewrite Cf, Ce. repeat split; try assumption.
    + intros p H1 H2. rewrite S3 by assumption. rewrite Uf. reflexivity.
    + congruence.
  - rewrite Ct, T, Ut, <- app_assoc. reflexivity.
Qed.

Lemma rotate001_archives_and_reopens_witness :
  exists l' w',
    Part001.rotate (examples.logger001 "20240101150000")
      (examples.world_of [("app.log", os.Raw "records")] [] examples.at_15_00_03)
    = (None, l', w', [Part001.GoCompress "app.log.20240101150003"; Part001.GoDeleteOverdue])
    /\ Part001.lastSuffix l' = "20240101150003"
    /\ os.files w' !! "app.log.20240101150003" = Some (os.Raw "records")
    /\ os.files w' !! "app.log" = Some (os.Raw "").
Proof.
  destruct (rotate001_archives_and_reopens (examples.logger001 "20240101150000")
              (examples.world_of [("app.log", os.Raw "records")] [] examples.at_15_00_03)
              examples.app_log (os.Raw "records") eq_refl)
    as (l' & w' & H1 & H2 & _ & _ & (A & B & _) & _);
    [vm_compute; discriminate | vm_compute; discriminate | vm_compute; discriminate
    | vm_compute; discriminate | reflexivity | vm_compute; reflexivity |].
  exists l', w'. split; [exact H1 |]. split; [exact H2 |]. split; [exact A | exact B].
Defined.

(** X5.  [Rotate] of src/log.go keeps no label: called twice while the clock
    stands still, it renames twice to the same archive name.  The first call
    archives what the log held; the second replaces that archive by the empty
    file the first call had just created, so the records of the bucket are on
    no path any more. *)
Theorem RotateGo_twice_loses_the_bucket (l : LogGo.Logger) (wd : os.World)
    (cfg : LogGo.RotateConfig) (fd : os.File) (d : os.Data) :
  LogGo.rotateCfg l = Some cfg -> LogGo.w l = os.FileWriter fd ->
  os.faults wd = [] -> os.later wd = [] -> os.files wd !! os.Name fd = Some d ->
  let target :=
    os.Name fd +:+ "." +:+
    gotime.Format (os.local wd) (gotime.Truncate (os.now wd) (LogGo.rcDuration cfg))
      (spec.layoutGo (LogGo.rcDuration cfg)) in
  exists l1 w1 ts1 l2 w2 ts2,
    LogGo.Rotate l wd = Some (None, l1, w1, ts1)
    /\ os.files w1 !! target = Some d
    /\ LogGo.Rotate l1 w1 = Some (None, l2, w2, ts2)
    /\ os.files w2 !! target = Some (os.Raw "")
    /\ os.files w2 !! os.Name fd = Some (os.Raw "")
    /\ (forall p, p <> target -> p <> os.Name fd -> os.files w2 !! p = os.files wd !! p)
    /\ spec.renames (os.trace w2) = (spec.renames (os.trace wd) + 2)%nat.
Proof.
  intros Hcfg Hw Hfl Hlt Hfile target.
  destruct (RotateGo_clean l wd cfg fd d Hcfg Hw Hfl Hfile)
    as (w1 & R1 & (A1 & B1 & C1 & D1) & Fl1 & Lo1 & Fr1 & T1).
  destruct (Fr1 Hlt) as [N1 L1].
  set (l1 := LogGo.SetOutput (os.FileWriter {| os.Name := os.Name fd |})
               (LogGo.set_suffixFormat (spec.layoutGo (LogGo.rcDuration cfg)) l)) in *.
  destruct (RotateGo_clean l1 w1 cfg {| os.Name := os.Name fd |} (os.Raw "")
              Hcfg eq_refl Fl1 B1)
    as (w2 & R2 & (A2 & B2 & C2 & D2) & Fl2 & Lo2 & Fr2 & T2).
  cbn [os.Name] in *. rewrite Lo1, N1 in *. fold target in A1, C1, R1, T1, A2, C2, R2, T2.
  eexists l1, w1, _, _, w2, _.
  split; [exact R1 |]. split; [exact A1 |]. split; [exact R2 |].
  split; [exact A2 |]. split; [exact B2 |].
  split. { intros p H1 H2. rewrite C2, C1 by assumption. reflexivity. }
  rewrite T2, T1, !renames_app. cbn. lia.
Qed.

Lemma RotateGo_twice_loses_the_bucket_witness :
  exists l1 w1 ts1 l2 w2 ts2,
    LogGo.Rotate (examples.loggerGo examples.cfg_1s_keep_5)
      (examples.world_of [("app.log", os.Raw "records")] [] examples.at_15_00_03)
    = Some (None, l1, w1, ts1)
    /\ os.files w1 !! "app.log.20240101150003" = Some (os.Raw "records")
    /\ LogGo.Rotate l1 w1 = Some (None, l2, w2, ts2)
    /\ os.files w2 !! "app.log.20240101150003" = Some (os.Raw "")
    /\ os.files w2 !! "app.log" = Some (os.Raw "").
Proof.
  destruct (RotateGo_twice_loses_the_bucket (examples.loggerGo examples.cfg_1s_keep_5)
              (examples.world_of [("app.log", os.Raw "records")] [] examples.at_15_00_03)
              examples.cfg_1s_keep_5 examples.app_log (os.Raw "records")
              eq_refl eq_refl eq_refl eq_refl)
    as (l1 & w1 & ts1 & l2 & w2 & ts2 & H1 & H2 & H3 & H4 & H5 & _);
    [vm_compute; reflexivity |].
  exists l1, w1, ts1, l2, w2, ts2. auto.
Defined.

Lemma log_emitted min level msg w :
  os.emitted (levels.log min level msg w)
  = (os.emitted w
     ++ if level <? min then [] else [levels.Level_String level +:+ msg])%list.
Proof.
  unfold levels.log. destruct (level <? min); simpl; [rewrite app_nil_r |]; reflexivity.
Qed.

(** X2.  When the first rename fails, [Rotate] of src/log.go and [rotate] of
    part_001 return that error, start no goroutine and leave the files as
    they were; the logger keeps its writer (part_001: the logger is unchanged
    altogether), the only call issued is the rename, and the only record
    written is the error record, if the level lets it through. *)
Theorem failed_rename_leaves_the_log_in_place (e : os.error) :
  (forall l wd cfg fd w1,
     LogGo.rotateCfg l = Some cfg -> LogGo.w l = os.FileWriter fd ->
     let target :=
       os.Name fd +:+ "." +:+
       gotime.Format (os.local wd) (gotime.Truncate (os.now wd) (LogGo.rcDuration cfg))
         (spec.layoutGo (LogGo.rcDuration cfg)) in
     os.Rename (os.Name fd) target (os.Now wd).2 = (Some e, w1) ->
     exists wd',
       LogGo.Rotate l wd
       = Some (Some e, LogGo.set_suffixFormat (spec.layoutGo (LogGo.rcDuration cfg)) l, wd', [])
       /\ os.files wd' = os.files wd
       /\ os.trace wd' = (os.trace wd ++ [os.CRename (os.Name fd) target])%list
       /\ os.emitted wd'
          = (os.emitted wd
             ++ if levels.LevelError <? LogGo.Level l then []
                else ["[Error] rename fail: " +:+ e])%list)
  /\ (forall l w oldFd w1,
        Part001.fd l = Some oldFd ->
        Part001.Duration (Part001.param l) <> 0 -> Part001.fileName l <> "" ->
        Part001.lastSuffix l <> "" ->
        (Part001.genSuffixStr l w).1 <> Part001.lastSuffix l ->
        let nf := Part001.fileName l +:+ "." +:+ (Part001.genSuffixStr l w).1 in
        os.Rename (Part001.fileName l) nf (Part001.genSuffixStr l w).2 = (Some e, w1) ->
        exists w',
          Part001.rotate l w = (Some e, l, w', [])
          /\ os.files w' = os.files w
          /\ os.trace w' = (os.trace w ++ [os.CRename (Part001.fileName l) nf])%list
          /\ os.emitted w'
             = (os.emitted w
                ++ if levels.LevelError <? Part001.Level l then []
                   else ["[Error] Failed to rename. oldPath:" +:+ Part001.fileName l
                         +:+ ", newPath:" +:+ nf +:+ ", err:" +:+ e])%list).
Proof.
  split.
  - intros l wd cfg fd w1 Hcfg Hw target Hren.
    unfold LogGo.Rotate. rewrite Hcfg. cbn [mbind option_bind].
    assert (Hl : (if LogGo.rcDuration cfg <? gotime.Minute
                  then LogGo.set_suffixFormat levels.formatSec l
                  else LogGo.set_suffixFormat levels.formatMin l)
                 = LogGo.set_suffixFormat (spec.layoutGo (LogGo.rcDuration cfg)) l).
    { unfold spec.layoutGo. destruct (_ <? _); reflexivity. }
    rewrite Hl. cbn [LogGo.w LogGo.set_suffixFormat]. rewrite Hw.
    pose proof (Now_untouched wd) as (Uf & Ut & Ue & Ufl).
    assert (Hloc : os.local (os.Now wd).2 = os.local wd)
      by (unfold os.Now; destruct (os.later wd); reflexivity).
    assert (Hnow : (os.Now wd).1 = os.now wd) by reflexivity.
    subst target. destruct (os.Now wd) as [now w0]. cbn [fst snd] in *. subst now.
    cbn [LogGo.suffixFormat LogGo.set_suffixFormat]. rewrite Hloc, Hren.
    destruct (Rename_failed _ _ _ _ _ Hren) as (F & E & _ & _ & _ & T).
    eexists. split; [reflexivity |].
    destruct (log_only_logged (LogGo.Level l) levels.LevelError ("rename fail: " +:+ e) w1)
      as (Lf & Lt & _).
    unfold LogGo.Error. cbn [LogGo.Level LogGo.set_suffixFormat].
    rewrite Lf, Lt, log_emitted, F, T, E, Uf, Ut, Ue. auto.
  - intros l w oldFd w1 Hfd Hd Hn Hls Hne nf Hren.
    unfold Part001.rotate. rewrite Hfd.
    assert ((0 =? Part001.Duration (Part001.param l)) = false) as ->
      by (apply Z.eqb_neq; congruence).
    assert (String.eqb "" (Part001.fileName l) = false) as ->
      by (apply String.eqb_neq; congruence).
    cbn [orb].
    pose proof (genSuffixStr001_untouched l w) as (Uf & Ut & Ue & Ufl).
    subst nf. destruct (Part001.genSuffixStr l w) as [suffix w0]. cbn [fst snd] in *.
    assert (String.eqb "" (Part001.lastSuffix l) = false) as ->
      by (apply String.eqb_neq; congruence).
    assert (String.eqb (Part001.lastSuffix l) suffix = false) as ->
      by (apply String.eqb_neq; congruence).
    rewrite Hren.
    destruct (Rename_failed _ _ _ _ _ Hren) as (F & E & _ & _ & _ & T).
    eexists. split; [reflexivity |].
    match goal with
    | |- context [Part001.Error l ?m w1] =>
        destruct (log_only_logged (Part001.Level l) levels.LevelError m w1) as (Lf & Lt & _);
        unfold Part001.Error; rewrite Lf, Lt, log_emitted
    end.
    rewrite F, T, E, Uf, Ut, Ue. auto.
Qed.

Lemma failed_rename_leaves_the_log_in_place_witness :
  exists w',
    Part001.rotate (examples.logger001 "20240101150000")
      (examples.world_of [("app.log", os.Raw "records")] [Some "permission denied"]
         examples.at_15_00_03)
    = (Some "permission denied", examples.logger001 "20240101150000", w', [])
    /\ os.files w' !! "app.log" = Some (os.Raw "records")
    /\ os.trace w' = [os.CRename "app.log" "app.log.20240101150003"].
Proof.
  destruct (failed_rename_leaves_the_log_in_place "permission denied") as [_ H].
  destruct (H (examples.logger001 "20240101150000")
              (examples.world_of [("app.log", os.Raw "records")] [Some "permission denied"]
                 examples.at_15_00_03)
              examples.app_log
              (os.Rename "app.log" "app.log.20240101150003"
                 (examples.world_of [("app.log", os.Raw "records")]
                    [Some "permission denied"] examples.at_15_00_03)).2
              eq_refl) as (w' & H1 & H2 & H3 & _);
    [vm_compute; discriminate | vm_compute; discriminate | vm_compute; discriminate
    | vm_compute; discriminate | vm_compute; reflexivity |].
  exists w'. split; [exact H1 |]. split; [rewrite H2; reflexivity | rewrite H3; reflexivity].
Defined.

(** ** Setting up a logger of part_001 *)

Lemma SetLogParam_parts p l w :
  exists chosen,
    Part001.param chosen = p
    /\ Part001.lastSuffix chosen = Part001.lastSuffix l
    /\ Part001.rotateWork chosen = Part001.rotateWork l
    /\ Part001.fileName chosen = Part001.fileName l
    /\ Part001.fd chosen = Part001.fd l
    /\ Part001.SetLogParam p l w
       = (if String.eqb "" (Part001.lastSuffix l)
          then (Part001.set_lastSuffix (Part001.genSuffixStr chosen w).1 chosen,
                (Part001.genSuffixStr chosen w).2)
          else (chosen, w),
          if Part001.Duration p >? 0 then [Part001.GoDoRotate] else []).
Proof.
  unfold Part001.SetLogParam.
  match goal with
  | |- context [String.eqb "" (Part001.lastSuffix ?l1)] => set (chosen := l1)
  end.
  assert (H : Part001.param chosen = p /\ Part001.lastSuffix chosen = Part001.lastSuffix l
              /\ Part001.rotateWork chosen = Part001.rotateWork l
              /\ Part001.fileName chosen = Part001.fileName l
              /\ Part001.fd chosen = Part001.fd l).
  { subst chosen. cbn [Part001.param Part001.set_param].
    repeat (match goal with |- context [if ?c then _ else _] => destruct c end);
      simpl; auto. }
  destruct H as (Hp & Hs & Hr & Hn & Hf).
  exists chosen. repeat (split; [assumption |]).
  rewrite Hs. destruct (String.eqb "" (Part001.lastSuffix l)).
  - destruct (Part001.genSuffixStr chosen w) as [s w1]. cbn [fst snd].
    cbn [Part001.param Part001.set_lastSuffix]. rewrite Hp. reflexivity.
  - rewrite Hp. reflexivity.
Qed.

Lemma genSuffixStr001_by_format l l' w :
  Part001.suffixFormat l' = Part001.suffixFormat l ->
  Part001.genSuffixStr l' w = Part001.genSuffixStr l w.
Proof. unfold Part001.genSuffixStr. intros ->. reflexivity. Qed.

Lemma genSuffixStr001_frozen l w :
  os.later w = [] -> (Part001.genSuffixStr l w).2 = w.
Proof.
  intros Hl. unfold Part001.genSuffixStr.
  destruct (String.eqb "" (Part001.suffixFormat l)); [reflexivity |].
  rewrite (Now_frozen w Hl). reflexivity.
Qed.

Lemma rotate001_same_label_frozen l w :
  os.later w = [] -> (Part001.genSuffixStr l w).1 = Part001.lastSuffix l ->
  Part001.rotate l w = (None, l, w, []).
Proof.
  intros Hlt Hsame. unfold Part001.rotate.
  destruct (Part001.fd l) as [oldFd|]; [| reflexivity].
  destruct (_ || _); [reflexivity |].
  pose proof (genSuffixStr001_frozen l w Hlt) as Hw.
  destruct (Part001.genSuffixStr l w) as [s w0]. cbn [fst snd] in *. subst s w0.
  destruct (String.eqb "" (Part001.lastSuffix l)).
  - rewrite set_lastSuffix_same. reflexivity.
  - rewrite String.eqb_refl. reflexivity.
Qed.

(** X6.  [SetLogParam] on a logger that has no label yet stores the label of
    the current clock reading (the empty label when the duration selects no
    layout), reads the clock and touches nothing else, and asks for the
    rotation loop when the duration is positive.  A [rotate] that follows
    while the clock stands still finds its own label and does nothing. *)
Theorem rotate_right_after_SetLogParam (p : Part001.LogParam) (l : Part001.Logger)
    (w : os.World) :
  Part001.lastSuffix l = "" -> os.later w = [] ->
  exists l1,
    Part001.SetLogParam p l w
    = (l1, w, if Part001.Duration p >? 0 then [Part001.GoDoRotate] else [])
    /\ Part001.param l1 = p
    /\ Part001.lastSuffix l1 = (Part001.genSuffixStr l1 w).1
    /\ Part001.rotate l1 w = (None, l1, w, []).
Proof.
  intros Hls Hlt.
  destruct (SetLogParam_parts p l w) as (chosen & Hp & Hs & _ & _ & _ & ->).
  rewrite Hls. cbn [String.eqb].
  rewrite (genSuffixStr001_frozen chosen w Hlt).
  set (l1 := Part001.set_lastSuffix (Part001.genSuffixStr chosen w).1 chosen).
  assert (Hg : Part001.genSuffixStr l1 w = Part001.genSuffixStr chosen w)
    by (apply genSuffixStr001_by_format; reflexivity).
  exists l1. split; [reflexivity |]. split; [exact Hp |].
  split; [rewrite Hg; reflexivity |].
  apply rotate001_same_label_frozen; [exact Hlt | rewrite Hg; reflexivity].
Qed.

Lemma rotate_right_after_SetLogParam_witness :
  exists l1,
    Part001.SetLogParam
      {| Part001.Rotate := 5; Part001.Duration := gotime.Hour; Part001.Compress := true |}
      (examples.logger001 "")
      (examples.world_of [("app.log", os.Raw "records")] [] examples.at_15_00_03)
    = (l1, examples.world_of [("app.log", os.Raw "records")] [] examples.at_15_00_03,
       [Part001.GoDoRotate])
    /\ Part001.lastSuffix l1 = "2024010115"
    /\ Part001.rotate l1
         (examples.world_of [("app.log", os.Raw "records")] [] examples.at_15_00_03)
       = (None, l1,
          examples.world_of [("app.log", os.Raw "records")] [] examples.at_15_00_03, []).
Proof.
  destruct (rotate_right_after_SetLogParam
              {| Part001.Rotate := 5; Part001.Duration := gotime.Hour;
                 Part001.Compress := true |}
              (examples.logger001 "")
              (examples.world_of [("app.log", os.Raw "records")] [] examples.at_15_00_03)
              eq_refl eq_refl) as (l1 & H1 & H2 & H3 & H4).
  exists l1. split; [exact H1 |]. split; [| exact H4].
  rewrite H3. inversion H1. vm_compute. reflexivity.
Defined.




(** X7.  [SetOutputByName] issues one call, the open of [path], and never
    closes the handle the logger held.  When the open fails the error is
    returned and logger and files are unchanged; when it succeeds [path] is
    the file name, the handle and the writer, and [path] holds what it held
    before, or nothing if it did not exist; no other path changes. *)
Theorem SetOutputByName_switches_files (path : string) (l : Part001.Logger) (w : os.World) :
  exists w',
    os.trace w' = (os.trace w ++ [os.COpenAppend path])%list
    /\ os.emitted w' = os.emitted w
    /\ (forall p, p <> path -> os.files w' !! p = os.files w !! p)
    /\ ((exists e, Part001.SetOutputByName path l w = (Some e, l, w')
                   /\ os.files w' = os.files w)
        \/ (Part001.SetOutputByName path l w
            = (None,
               Part001.set_fd {| os.Name := path |}
                 (Part001.set_fileName path (Part001.SetOutput {| os.Name := path |} l)), w')
            /\ os.files w' !! path = Some (default (os.Raw "") (os.files w !! path)))).
Proof.
  exists (os.OpenAppend path w).2.
  split; [apply OpenAppend_trace |].
  unfold Part001.SetOutputByName, os.OpenAppend, os.next_fault, os.issue.
  destruct w as [fs [|[e|] fl] nw lt lc tr em]; cbn [os.files os.faults os.trace os.emitted].
  - destruct (fs !! path) eqn:E; cbn [snd os.files os.emitted os.set_files].
    + split; [reflexivity |]. split; [reflexivity |]. right. split; [reflexivity |].
      rewrite E. reflexivity.
    + split; [reflexivity |].
      split; [intros p Hp; apply lookup_insert_ne; congruence |].
      right. split; [reflexivity |]. apply lookup_insert_eq.
  - cbn [snd os.files os.emitted]. split; [reflexivity |]. split; [reflexivity |].
    left. exists e. auto.
  - destruct (fs !! path) eqn:E; cbn [snd os.files os.emitted os.set_files].
    + split; [reflexivity |]. split; [reflexivity |]. right. split; [reflexivity |].
      rewrite E. reflexivity.
    + split; [reflexivity |].
      split; [intros p Hp; apply lookup_insert_ne; congruence |].
      right. split; [reflexivity |]. apply lookup_insert_eq.
Qed.

(** ** Compression that meets no fault *)

Lemma Open_clean name w d :
  os.faults w = [] -> os.files w !! name = Some d ->
  os.Open name w = (inl {| os.Name := name |}, os.issue (os.COpen name) w).
Proof.
  intros Hf Hn. unfold os.Open, os.next_fault, os.issue.
  destruct w as [fs fl nw lt lc tr em]. simpl in *. subst fl. simpl. rewrite Hn. reflexivity.
Qed.

Lemma OpenTrunc_clean name w :
  os.faults w = [] ->
  os.OpenTrunc name w
  = (inl {| os.Name := name |},
     os.set_files (<[name := os.Raw ""]> (os.files w)) (os.issue (os.COpenTrunc name) w)).
Proof.
  intros Hf. unfold os.OpenTrunc, os.next_fault, os.issue.
  destruct w as [fs fl nw lt lc tr em]. simpl in *. subst fl. reflexivity.
Qed.

Lemma CopyGz_clean dst src w d :
  os.faults w = [] -> os.files w !! os.Name src = Some d ->
  os.CopyGz dst src w
  = (None, os.set_files (<[os.Name dst := os.Gz d]> (os.files w))
             (os.issue (os.CCopy (os.Name dst) (os.Name src)) w)).
Proof.
  intros Hf Hn. unfold os.CopyGz, os.next_fault, os.issue.
  destruct w as [fs fl nw lt lc tr em]. simpl in *. subst fl. simpl. rewrite Hn. reflexivity.
Qed.

Lemma Remove_clean name w d :
  os.faults w = [] -> os.files w !! name = Some d ->
  os.Remove name w
  = (None, os.set_files (delete name (os.files w)) (os.issue (os.CRemove name) w)).
Proof.
  intros Hf Hn. unfold os.Remove, os.next_fault, os.issue.
  destruct w as [fs fl nw lt lc tr em]. simpl in *. subst fl. simpl. rewrite Hn. reflexivity.
Qed.

Lemma clean_run_gz_twin path d w :
  os.faults w = [] -> os.files w !! path = Some d ->
  let w1 := os.issue (os.COpen path) w in
  let w2 := os.set_files (<[path +:+ ".gz" := os.Raw ""]> (os.files w1))
              (os.issue (os.COpenTrunc (path +:+ ".gz")) w1) in
  let w3 := os.set_files (<[path +:+ ".gz" := os.Gz d]> (os.files w2))
              (os.issue (os.CCopy (path +:+ ".gz") path) w2) in
  let w4 := os.Close {| os.Name := path +:+ ".gz" |} (os.Close {| os.Name := path |} w3) in
  let w5 := os.set_files (delete path (os.files w4)) (os.issue (os.CRemove path) w4) in
  spec.gz_twin path d w w5.
Proof.
  intros Hf Hp. destruct w as [fs fl nw lt lc tr em]. simpl in *. subst fl.
  unfold spec.gz_twin. simpl.
  split; [apply lookup_delete_eq |].
  split. { rewrite lookup_delete_ne by apply gz_name_differs. apply lookup_insert_eq. }
  split. { intros p H1 H2. rewrite lookup_delete_ne by congruence.
           rewrite !lookup_insert_ne by congruence. reflexivity. }
  split; [reflexivity |]. rewrite <- !app_assoc. reflexivity.
Qed.

Lemma compressGo_clean l path w d :
  os.faults w = [] -> os.files w !! path = Some d ->
  exists w', LogGo.compress l path w = (None, w') /\ spec.gz_twin path d w w'.
Proof.
  intros Hf Hp. unfold LogGo.compress.
  rewrite (Open_clean path w d Hf Hp).
  rewrite OpenTrunc_clean by (destruct w; exact Hf).
  erewrite CopyGz_clean.
  2:{ destruct w; exact Hf. }
  2:{ destruct w. simpl in *. rewrite lookup_insert_ne by (intros H; symmetry in H; exact (gz_name_differs _ H)). exact Hp. }
  unfold LogGo.compress_cleanup.
  erewrite Remove_clean.
  2:{ destruct w; exact Hf. }
  2:{ destruct w. simpl in *. rewrite !lookup_insert_ne by (intros H; symmetry in H; exact (gz_name_differs _ H)). exact Hp. }
  eexists. split; [reflexivity |]. cbn [snd].
  exact (clean_run_gz_twin path d w Hf Hp).
Qed.

Lemma compress000_clean l path w d :
  os.faults w = [] -> os.files w !! path = Some d ->
  exists w', Part000.compress l path w = (None, w') /\ spec.gz_twin path d w w'.
Proof.
  intros Hf Hp. unfold Part000.compress.
  rewrite (Open_clean path w d Hf Hp).
  rewrite OpenTrunc_clean by (destruct w; exact Hf).
  erewrite CopyGz_clean.
  2:{ destruct w; exact Hf. }
  2:{ destruct w. simpl in *. rewrite lookup_insert_ne by (intros H; symmetry in H; exact (gz_name_differs _ H)). exact Hp. }
  unfold Part000.compress_cleanup.
  erewrite Remove_clean.
  2:{ destruct w; exact Hf. }
  2:{ destruct w. simpl in *. rewrite !lookup_insert_ne by (intros H; symmetry in H; exact (gz_name_differs _ H)). exact Hp. }
  eexists. split; [reflexivity |]. cbn [snd].
  exact (clean_run_gz_twin path d w Hf Hp).
Qed.

Lemma compress001_gives_flag_back path l w :
  Part001.compressing l = 0 -> (Part001.compress path l w).1 = l.
Proof.
  intros Hc. unfold Part001.compress, Part001.CompareAndSwapInt32. rewrite Hc. cbn.
  destruct l; simpl in *; subst; reflexivity.
Qed.

Lemma compress001_clean l path w d :
  Part001.compressing l = 0 ->
  os.faults w = [] -> os.files w !! path = Some d ->
  exists w', Part001.compress path l w = (l, w') /\ spec.gz_twin path d w w'.
Proof.
  intros Hc Hf Hp.
  pose proof (compress001_gives_flag_back path l w Hc) as Hl.
  destruct (Part001.compress path l w) as [l' w'] eqn:E. simpl in Hl. subst l'.
  exists w'. split; [reflexivity |].
  unfold Part001.compress, Part001.CompareAndSwapInt32 in E. rewrite Hc in E. cbn [Z.eqb] in E.
  inversion E as [[Hl Hw]]. clear E Hl.
  unfold Part001.compress_body.
  rewrite (Open_clean path w d Hf Hp).
  rewrite OpenTrunc_clean by (destruct w; exact Hf).
  erewrite CopyGz_clean.
  2:{ destruct w; exact Hf. }
  2:{ destruct w. simpl in *. rewrite lookup_insert_ne by (intros H; symmetry in H; exact (gz_name_differs _ H)). exact Hp. }
  unfold Part001.compress_cleanup.
  erewrite Remove_clean.
  2:{ destruct w; exact Hf. }
  2:{ destruct w. simpl in *. rewrite !lookup_insert_ne by (intros H; symmetry in H; exact (gz_name_differs _ H)). exact Hp. }
  cbn [snd]. exact (clean_run_gz_twin path d w Hf Hp).
Qed.

(** X9.  [compress(path)] on an existing file, no call failing, in the three
    versions: [path.gz] holds the gzip stream of what [path] held, [path] is
    gone, no other path changed, nothing was logged, and the calls are open,
    create, copy, the two closes and the remove, in that order.  src/log.go
    and part_000 return nil; part_001, entered with the flag down, returns
    with the flag down. *)
Theorem compress_leaves_the_gz_twin (path : string) (d : os.Data) (w : os.World) :
  os.faults w = [] -> os.files w !! path = Some d ->
  (forall l, exists w', LogGo.compress l path w = (None, w') /\ spec.gz_twin path d w w')
  /\ (forall l, exists w', Part000.compress l path w = (None, w') /\ spec.gz_twin path d w w')
  /\ (forall l, Part001.compressing l = 0 ->
        exists w', Part001.compress path l w = (l, w') /\ spec.gz_twin path d w w').
Proof.
  intros Hf Hp. split; [| split].
  - intros l. exact (compressGo_clean l path w d Hf Hp).
  - intros l. exact (compress000_clean l path w d Hf Hp).
  - intros l Hc. exact (compress001_clean l path w d Hc Hf Hp).
Qed.

Lemma compress_leaves_the_gz_twin_witness :
  exists w',
    Part001.compress "app.log.20240101150002" (examples.logger001 "20240101150003")
      (examples.world_of [("app.log", os.Raw ""); ("app.log.20240101150002", os.Raw "bucket")]
         [] examples.at_15_00_03)
    = (examples.logger001 "20240101150003", w')
    /\ os.files w' !! "app.log.20240101150002" = None
    /\ os.files w' !! "app.log.20240101150002.gz" = Some (os.Gz (os.Raw "bucket")).
Proof.
  destruct (compress_leaves_the_gz_twin "app.log.20240101150002" (os.Raw "bucket")
              (examples.world_of
                 [("app.log", os.Raw ""); ("app.log.20240101150002", os.Raw "bucket")]
                 [] examples.at_15_00_03)) as (_ & _ & H);
    [reflexivity | vm_compute; reflexivity |].
  destruct (H (examples.logger001 "20240101150003") eq_refl) as (w' & H1 & H2 & H3 & _).
  exists w'. split; [exact H1 |]. split; [exact H2 | exact H3].
Defined.

(** ** The sweep of part_001 *)

Lemma parse_error_zero layout value loc t e :
  gotime.ParseInLocation layout value loc = (t, Some e) -> t = gotime.zeroTime.
Proof.
  unfold gotime.ParseInLocation.
  destruct (gotime.parse_chunks _ _ _) as [c|]; [| intros H; inversion H; reflexivity].
  destruct (_ && _); intros H; inversion H; reflexivity.
Qed.

(** [isOverdue] of part_001 goes on after a parse error, with the zero time:
    after year 1970 the age then exceeds every window. *)
Lemma isOverdue001_spec l ts w :
  os.later w = [] -> 0 <= os.now w ->
  spec.window_fits (Part001.Duration (Part001.param l)) (Part001.Rotate (Part001.param l)) ->
  exists w1, spec.only_logged w w1
    /\ Part001.isOverdue l ts w
       = (match gotime.ParseInLocation (Part001.suffixFormat l) ts (os.local w) with
          | (t, None) =>
              Part001.Duration (Part001.param l) * Part001.Rotate (Part001.param l)
              <? os.now w - t
          | (_, Some _) => true
          end, w1).
Proof.
  intros Hl Hnow Hw. unfold Part001.isOverdue.
  destruct (gotime.ParseInLocation (Part001.suffixFormat l) ts (os.local w)) as [t [e|]] eqn:P.
  - apply parse_error_zero in P. subst t.
    set (w1 := Part001.Error l _ w).
    assert (Hlog : spec.only_logged w w1) by apply log_only_logged.
    destruct Hlog as (Lf & Lt & Lfl & Ln & Ll & Llo).
    rewrite (Now_frozen w1) by congruence.
    unfold gotime.dur_mul. unfold spec.window_fits in Hw.
    rewrite wrap64_small by lia. rewrite Sub_gt_iff by exact Hw.
    exists w1. split; [repeat split; assumption |].
    assert ((Part001.Duration (Part001.param l) * Part001.Rotate (Part001.param l)
             <? os.now w1 - gotime.zeroTime) = true) as ->; [| reflexivity].
    apply Z.ltb_lt. rewrite Ln. unfold gotime.zeroTime, gotime.Second, gotime.maxDuration in *. lia.
  - rewrite (Now_frozen w Hl).
    unfold gotime.dur_mul. unfold spec.window_fits in Hw.
    rewrite wrap64_small by lia. rewrite Sub_gt_iff by exact Hw.
    exists w. split; [apply only_logged_refl |].
    destruct (_ <? _); reflexivity.
Qed.

Lemma deleteOverdue_loop_cons l dir fn rest w :
  os.later w = [] -> 0 <= os.now w ->
  spec.window_fits (Part001.Duration (Part001.param l)) (Part001.Rotate (Part001.param l)) ->
  exists w1, spec.only_logged w w1
    /\ Part001.deleteOverdue_loop l dir
         (regex.DigitsGz (String.length (Part001.suffixFormat l))) (fn :: rest) w
       = Part001.deleteOverdue_loop l dir
           (regex.DigitsGz (String.length (Part001.suffixFormat l))) rest
           (if spec.expired001 (Part001.suffixFormat l) (os.local w)
                 (Part001.Duration (Part001.param l) * Part001.Rotate (Part001.param l))
                 (os.now w) fn
            then (os.Remove (filepath.Join dir fn) w1).2 else w1).
Proof.
  intros Hl Hnow Hwin. cbn [Part001.deleteOverdue_loop]. unfold spec.expired001, regex.FindString.
  destruct (regex.find _ fn) as [m|] eqn:Hm.
  2:{ exists w. split; [apply only_logged_refl | reflexivity]. }
  destruct m as [|c m'].
  { exists w. split; [apply only_logged_refl | reflexivity]. }
  cbn [String.eqb negb].
  destruct (isOverdue001_spec l (gostrings.remove_first ".gz" (String c m')) w Hl Hnow Hwin)
    as (w1 & Hfr & Hov).
  rewrite Hov. exists w1. split; [exact Hfr |].
  destruct (gotime.ParseInLocation _ _ _) as [t [e|]]; [reflexivity |].
  destruct (_ <? _); reflexivity.
Qed.

Lemma deleteOverdue_loop_spec l dir names :
  spec.window_fits (Part001.Duration (Part001.param l)) (Part001.Rotate (Part001.param l)) ->
  forall w, os.later w = [] -> 0 <= os.now w ->
  exists w', Part001.deleteOverdue_loop l dir
               (regex.DigitsGz (String.length (Part001.suffixFormat l))) names w = w'
    /\ os.trace w'
       = (os.trace w
          ++ map (fun fn => os.CRemove (filepath.Join dir fn)) (spec.doomed001 l w names))%list
    /\ os.now w' = os.now w /\ os.later w' = [] /\ os.local w' = os.local w
    /\ (os.faults w = [] -> os.faults w' = []
        /\ forall p, os.files w' !! p
             = if bool_decide (p ∈ map (filepath.Join dir) (spec.doomed001 l w names))
               then None else os.files w !! p).
Proof.
  intros Hwin. induction names as [|fn rest IH]; intros w Hl Hnow.
  - exists w. simpl. rewrite app_nil_r. repeat split; auto.
  - destruct (deleteOverdue_loop_cons l dir fn rest w Hl Hnow Hwin)
      as (w1 & (Hf1 & Ht1 & Hfl1 & Hn1 & Hl1 & Hlo1) & ->).
    unfold spec.doomed001 in *. cbn [List.filter].
    destruct (spec.expired001 _ _ _ _ fn).
    + pose proof (Remove_effect (filepath.Join dir fn) w1) as (R1 & R2 & R3 & R4 & R5 & R6).
      destruct (IH (os.Remove (filepath.Join dir fn) w1).2 ltac:(congruence) ltac:(congruence))
        as (w' & H1 & H2 & H3 & H4 & H5 & H6).
      exists w'. split; [exact H1 |].
      rewrite R3, R5, Hn1, Hlo1 in *. rewrite R1, Ht1 in H2.
      split. { rewrite H2. simpl. rewrite <- app_assoc. reflexivity. }
      split; [congruence |]. split; [congruence |]. split; [congruence |].
      intros Hfl. destruct (R6 ltac:(congruence)) as [R6a R6b].
      destruct (H6 R6a) as [H6a H6b]. split; [exact H6a |].
      intros p. rewrite H6b. simpl. rewrite R6b, Hf1. apply removed_cons.
    + destruct (IH w1 ltac:(congruence) ltac:(congruence)) as (w' & H1 & H2 & H3 & H4 & H5 & H6).
      exists w'. split; [exact H1 |].
      rewrite Hn1, Hlo1, Ht1 in *. rewrite Hfl1, Hf1 in H6.
      repeat split; auto; try congruence; apply H6; auto.
Qed.

(** X10.  [deleteOverdue] of part_001, with a file name and a layout, no call
    failing, the clock standing still at or after 1970 and a window that fits
    [int64]: it opens the directory of the log, lists it, issues [os.Remove]
    for exactly the entries in whose name [[0-9]{n}\.gz] matches and whose
    digits either lie more than [Duration * Rotate] back or do not parse, in
    directory order, and closes the directory; the removed paths are gone and
    every other path holds what it held. *)
Theorem deleteOverdue001_removes_exactly (l : Part001.Logger) (w : os.World) :
  Part001.fileName l <> "" -> Part001.suffixFormat l <> "" ->
  spec.window_fits (Part001.Duration (Part001.param l)) (Part001.Rotate (Part001.param l)) ->
  os.later w = [] -> 0 <= os.now w -> os.faults w = [] ->
  let dir := filepath.Dir (Part001.fileName l) in
  let doomed := spec.doomed001 l w (os.entries dir w) in
  os.trace (Part001.deleteOverdue l w)
  = (os.trace w ++ [os.COpen dir; os.CReaddirnames dir]
     ++ map (fun fn => os.CRemove (filepath.Join dir fn)) doomed
     ++ [os.CClose dir])%list
  /\ forall p, os.files (Part001.deleteOverdue l w) !! p
       = if bool_decide (p ∈ map (filepath.Join dir) doomed) then None else os.files w !! p.
Proof.
  intros Hn Hs Hwin Hl Hnow Hfl dir doomed. unfold Part001.deleteOverdue.
  assert (String.eqb "" (Part001.fileName l) = false) as ->
    by (apply String.eqb_neq; congruence).
  assert (String.eqb "" (Part001.suffixFormat l) = false) as ->
    by (apply String.eqb_neq; congruence).
  cbn [orb]. fold dir.
  unfold os.OpenDir, os.Readdirnames, os.next_fault, os.issue.
  destruct w as [fs fl nw lt lc tr em]. simpl in Hl, Hfl, Hnow. subst lt fl. simpl.
  set (w2 := {| os.files := fs; os.faults := []; os.now := nw; os.later := [];
                os.local := lc;
                os.trace := (tr ++ [os.COpen dir]) ++ [os.CReaddirnames dir];
                os.emitted := em |}).
  destruct (deleteOverdue_loop_spec l dir (os.entries dir w2) Hwin w2 eq_refl Hnow)
    as (w' & H1 & H2 & _ & _ & _ & H6).
  rewrite H1. destruct (H6 eq_refl) as [_ H6b].
  split.
  - rewrite H2. subst w2. simpl. rewrite <- !app_assoc. reflexivity.
  - intros p. rewrite H6b. reflexivity.
Qed.

Lemma deleteOverdue001_removes_exactly_witness :
  os.trace (Part001.deleteOverdue (examples.logger001 "20240101150003")
              (examples.world_of
                 [("app.log", os.Raw "");
                  ("app.log.20240101145950.gz", os.Gz (os.Raw "old"));
                  ("app.log.20240101150001.gz", os.Gz (os.Raw "new"));
                  ("app.log.20240101150002", os.Raw "raw")] [] examples.at_15_00_03))
  = [os.COpen "."; os.CReaddirnames "."; os.CRemove "app.log.20240101145950.gz";
     os.CClose "."].
Proof.
  destruct (deleteOverdue001_removes_exactly (examples.logger001 "20240101150003")
              (examples.world_of
                 [("app.log", os.Raw "");
                  ("app.log.20240101145950.gz", os.Gz (os.Raw "old"));
                  ("app.log.20240101150001.gz", os.Gz (os.Raw "new"));
                  ("app.log.20240101150002", os.Raw "raw")] [] examples.at_15_00_03))
    as [H _];
    [vm_compute; discriminate | vm_compute; discriminate
    | vm_compute; split; [discriminate | reflexivity]
    | reflexivity | vm_compute; discriminate | reflexivity |].
  rewrite H. vm_compute. reflexivity.
Defined.

(** ** What no sweep touches *)

Lemma found_is_labelled rx s m :
  regex.find rx s = Some m ->
  spec.labelled (match rx with regex.Digits n | regex.DigitsGz n => n end)
           (match rx with regex.Digits _ => false | regex.DigitsGz _ => true end) s.
Proof.
  intros H. destruct (find_is_a_digit_run rx) as [F _].
  destruct (F s m H) as (pre & post & -> & Hm). destruct rx as [n | n].
  - destruct Hm as [Hl Hd]. exists pre, m, post. auto.
  - destruct Hm as (d & -> & Hl & Hd). exists pre, d, post.
    rewrite append_assoc. auto.
Qed.

Lemma Remove_others name w p :
  p <> name -> os.files (os.Remove name w).2 !! p = os.files w !! p.
Proof.
  intros Hne. unfold os.Remove, os.next_fault, os.issue.
  destruct w as [fs [|[e|] fl] ? ? ? ? ?]; simpl; try reflexivity;
    destruct (fs !! name); simpl; try reflexivity; apply lookup_delete_ne; congruence.
Qed.

Lemma removed_only_refl (touched : string -> Prop) w : spec.removed_only touched w w.
Proof. exists []. rewrite app_nil_r. split; [reflexivity |]. split; [| reflexivity].
  intros p Hin. apply elem_of_nil in Hin. destruct Hin. Qed.

Lemma removed_only_trans (touched : string -> Prop) w1 w2 w3 :
  spec.removed_only touched w1 w2 -> spec.removed_only touched w2 w3 -> spec.removed_only touched w1 w3.
Proof.
  intros (cs1 & T1 & R1 & F1) (cs2 & T2 & R2 & F2). exists (cs1 ++ cs2)%list.
  split; [rewrite T2, T1, app_assoc; reflexivity |].
  split.
  - intros p Hin. apply elem_of_app in Hin as [Hin | Hin]; auto.
  - intros p Hp. rewrite F2, F1 by assumption. reflexivity.
Qed.

Lemma removed_only_same (touched : string -> Prop) w w' :
  os.trace w' = os.trace w -> os.files w' = os.files w -> spec.removed_only touched w w'.
Proof.
  intros Ht Hf. exists []. rewrite app_nil_r. split; [exact Ht |]. split.
  - intros p Hin. apply elem_of_nil in Hin. destruct Hin.
  - intros p _. rewrite Hf. reflexivity.
Qed.

Lemma removed_only_Remove (touched : string -> Prop) name w :
  touched name -> spec.removed_only touched w (os.Remove name w).2.
Proof.
  intros Hn. exists [os.CRemove name].
  destruct (Remove_effect name w) as (T & _). split; [exact T |]. split.
  - intros p Hin. apply list_elem_of_singleton in Hin. inversion Hin; subst. exact Hn.
  - intros p Hp. apply Remove_others. intros ->. contradiction.
Qed.

Lemma removed_only_issue (touched : string -> Prop) c w :
  (forall p, c <> os.CRemove p) -> spec.removed_only touched w (os.issue c w).
Proof.
  intros Hc. exists [c]. split; [reflexivity |]. split; [| reflexivity].
  intros p Hin. apply list_elem_of_singleton in Hin. symmetry in Hin. destruct (Hc p Hin).
Qed.

Lemma isOverdue001_same l ts w :
  os.trace (Part001.isOverdue l ts w).2 = os.trace w
  /\ os.files (Part001.isOverdue l ts w).2 = os.files w.
Proof.
  unfold Part001.isOverdue.
  destruct (gotime.ParseInLocation _ _ _) as [wt err].
  set (w1 := match err with Some e => Part001.Error l _ w | None => w end).
  assert (H1 : os.trace w1 = os.trace w /\ os.files w1 = os.files w).
  { subst w1. destruct err as [e|]; [| auto].
    destruct (log_only_logged (Part001.Level l) levels.LevelError
                ("Failed to parse time. ts:" +:+ ts +:+ ", err:" +:+ e) w) as (A & B & _).
    unfold Part001.Error. auto. }
  clearbody w1. destruct H1 as [T1 F1].
  pose proof (Now_untouched w1) as (Uf & Ut & _).
  destruct (os.Now w1) as [now w2]. cbn [snd] in *.
  destruct (_ >? _); cbn [snd]; split; congruence.
Qed.

Lemma deleteOverdue_loop_sound l dir n names :
  forall w,
    spec.removed_only (fun p => exists fn, p = filepath.Join dir fn /\ spec.labelled n true fn)
      w (Part001.deleteOverdue_loop l dir (regex.DigitsGz n) names w).
Proof.
  induction names as [|fn rest IH]; intros w; cbn [Part001.deleteOverdue_loop].
  - apply removed_only_refl.
  - unfold regex.FindString.
    destruct (regex.find (regex.DigitsGz n) fn) as [m|] eqn:Hm; [| apply IH].
    destruct (negb (String.eqb "" m)); [| apply IH].
    destruct (isOverdue001_same l (gostrings.remove_first ".gz" m) w) as [T F].
    destruct (Part001.isOverdue l _ w) as [[|] w1]; cbn [snd] in *.
    + eapply removed_only_trans; [| apply IH].
      eapply removed_only_trans; [apply (removed_only_same _ w w1 T F) |].
      apply removed_only_Remove. exists fn. split; [reflexivity |].
      exact (found_is_labelled _ _ _ Hm).
    + eapply removed_only_trans; [apply (removed_only_same _ w w1 T F) | apply IH].
Qed.

Lemma Error001_same (touched : string -> Prop) l msg w :
  spec.removed_only touched w (Part001.Error l msg w).
Proof.
  destruct (log_only_logged (Part001.Level l) levels.LevelError msg w) as (A & B & _).
  apply removed_only_same; assumption.
Qed.

Lemma OpenDir_sound (touched : string -> Prop) dir w :
  spec.removed_only touched w (os.OpenDir dir w).2.
Proof.
  unfold os.OpenDir, os.next_fault.
  destruct (os.faults (os.issue (os.COpen dir) w)) as [|[e|] fl] eqn:E; cbn [snd];
    try (apply removed_only_issue; discriminate);
    (eapply removed_only_trans; [apply (removed_only_issue _ (os.COpen dir)); discriminate |]);
    apply removed_only_same; reflexivity.
Qed.

Lemma Readdirnames_sound (touched : string -> Prop) d w :
  spec.removed_only touched w (os.Readdirnames d w).2.
Proof.
  unfold os.Readdirnames, os.next_fault.
  destruct (os.faults (os.issue (os.CReaddirnames (os.Name d)) w)) as [|[e|] fl] eqn:E;
    cbn [snd];
    try (apply removed_only_issue; discriminate);
    (eapply removed_only_trans;
       [apply (removed_only_issue _ (os.CReaddirnames (os.Name d))); discriminate |]);
    apply removed_only_same; reflexivity.
Qed.

Lemma Glob_sound (touched : string -> Prop) dir w :
  spec.removed_only touched w (os.Glob dir w).2.
Proof.
  unfold os.Glob, os.next_fault.
  destruct (os.faults (os.issue (os.CGlob (dir +:+ "/*")) w)) as [|[e|] fl] eqn:E;
    cbn [snd];
    try (apply removed_only_issue; discriminate);
    (eapply removed_only_trans;
       [apply (removed_only_issue _ (os.CGlob (dir +:+ "/*"))); discriminate |]);
    apply removed_only_same; reflexivity.
Qed.

Lemma deleteOverdue_sound l w :
  spec.removed_only
    (fun p => exists fn, p = filepath.Join (filepath.Dir (Part001.fileName l)) fn
                         /\ spec.labelled (String.length (Part001.suffixFormat l)) true fn)
    w (Part001.deleteOverdue l w).
Proof.
  unfold Part001.deleteOverdue.
  destruct (_ || _); [apply removed_only_refl |].
  set (dir := filepath.Dir (Part001.fileName l)).
  pose proof (OpenDir_sound
    (fun p => exists fn, p = filepath.Join dir fn
                         /\ spec.labelled (String.length (Part001.suffixFormat l)) true fn)
    dir w) as H1.
  destruct (os.OpenDir dir w) as [[d|e] w1]; cbn [snd] in H1.
  2:{ eapply removed_only_trans; [exact H1 | apply Error001_same]. }
  pose proof (Readdirnames_sound
    (fun p => exists fn, p = filepath.Join dir fn
                         /\ spec.labelled (String.length (Part001.suffixFormat l)) true fn)
    d w1) as H2.
  destruct (os.Readdirnames d w1) as [[names|e] w2]; cbn [snd] in H2.
  - eapply removed_only_trans; [exact H1 |].
    eapply removed_only_trans; [exact H2 |].
    eapply removed_only_trans; [apply deleteOverdue_loop_sound |].
    apply removed_only_issue. discriminate.
  - eapply removed_only_trans; [exact H1 |].
    eapply removed_only_trans; [exact H2 |].
    eapply removed_only_trans; [apply Error001_same |].
    apply removed_only_issue. discriminate.
Qed.

Lemma isOverdueGo_same l now ts w due w1 :
  LogGo.isOverdue l now ts w = Some (due, w1) ->
  os.trace w1 = os.trace w /\ os.files w1 = os.files w.
Proof.
  unfold LogGo.isOverdue.
  destruct (gotime.ParseInLocation _ _ _) as [wt [e|]].
  - intros H; inversion H; subst.
    destruct (log_only_logged (LogGo.Level l) levels.LevelError
                ("parse time err. time-str:" +:+ ts +:+ ", err:" +:+ e) w) as (A & B & _).
    unfold LogGo.Error. auto.
  - destruct (LogGo.rotateCfg l); cbn [mbind option_bind]; [| discriminate].
    destruct (_ >? _); intros H; inversion H; subst; auto.
Qed.

Lemma cleanOldLogs_loopGo_sound l now n paths :
  forall w w',
    LogGo.cleanOldLogs_loop l now (regex.Digits n) paths w = Some w' ->
    spec.removed_only (spec.labelled n false) w w'.
Proof.
  induction paths as [|fn rest IH]; intros w w'; cbn [LogGo.cleanOldLogs_loop].
  - intros H; inversion H; subst. apply removed_only_refl.
  - unfold regex.FindString.
    destruct (regex.find (regex.Digits n) fn) as [m|] eqn:Hm; [| apply IH].
    destruct (0 <? String.length m)%nat; [| apply IH].
    destruct (LogGo.isOverdue l now m w) as [[due w1]|] eqn:Ho;
      cbn [mbind option_bind]; [| discriminate].
    destruct (isOverdueGo_same _ _ _ _ _ _ Ho) as [T F].
    destruct due; intros H.
    + eapply removed_only_trans; [| apply (IH _ _ H)].
      eapply removed_only_trans; [apply (removed_only_same _ w w1 T F) |].
      apply removed_only_Remove. exact (found_is_labelled _ _ _ Hm).
    + eapply removed_only_trans; [apply (removed_only_same _ w w1 T F) | apply (IH _ _ H)].
Qed.

Lemma ErrorGo_same (touched : string -> Prop) l msg w :
  spec.removed_only touched w (LogGo.Error l msg w).
Proof.
  destruct (log_only_logged (LogGo.Level l) levels.LevelError msg w) as (A & B & _).
  apply removed_only_same; assumption.
Qed.

Lemma cleanOldLogsGo_sound l now fileName w err w' :
  LogGo.cleanOldLogs l now fileName w = Some (err, w') ->
  spec.removed_only (spec.labelled (String.length (LogGo.suffixFormat l)) false) w w'.
Proof.
  unfold LogGo.cleanOldLogs.
  pose proof (Glob_sound (spec.labelled (String.length (LogGo.suffixFormat l)) false)
                (filepath.Dir fileName) w) as H1.
  destruct (os.Glob (filepath.Dir fileName) w) as [[paths|e] w1]; cbn [snd] in H1.
  - destruct (LogGo.cleanOldLogs_loop _ _ _ _ _) as [w2|] eqn:L;
      cbn [mbind option_bind]; [| discriminate].
    intros H; inversion H; subst.
    eapply removed_only_trans; [exact H1 | exact (cleanOldLogs_loopGo_sound _ _ _ _ _ _ L)].
  - intros H; inversion H; subst.
    eapply removed_only_trans; [exact H1 | apply ErrorGo_same].
Qed.

Lemma isOverdue000_same l ts w due w1 :
  Part000.isOverdue l ts w = Some (due, w1) ->
  os.trace w1 = os.trace w /\ os.files w1 = os.files w.
Proof.
  unfold Part000.isOverdue.
  destruct (gotime.ParseInLocation _ _ _) as [wt [e|]].
  - intros H; inversion H; subst.
    destruct (log_only_logged (Part000.Level l) levels.LevelError
                ("parse time err. time-str:" +:+ ts +:+ ", err:" +:+ e) w) as (A & B & _).
    unfold Part000.Error. auto.
  - pose proof (Now_untouched w) as (Uf & Ut & _).
    destruct (os.Now w) as [now w0]. cbn [snd] in *.
    destruct (Part000.rotateCfg l); cbn [mbind option_bind]; [| discriminate].
    destruct (_ >? _); intros H; inversion H; subst; auto.
Qed.

Lemma cleanOldLogs_loop000_sound l cfg dir n names :
  forall w w',
    Part000.cleanOldLogs_loop l cfg dir
      (if Part000.rcCompress cfg then regex.DigitsGz n else regex.Digits n) names w = Some w' ->
    spec.removed_only (fun p => exists fn, p = filepath.Join dir fn
                                      /\ spec.labelled n (Part000.rcCompress cfg) fn) w w'.
Proof.
  induction names as [|fn rest IH]; intros w w'; cbn [Part000.cleanOldLogs_loop].
  - intros H; inversion H; subst. apply removed_only_refl.
  - unfold regex.FindString.
    destruct (regex.find _ fn) as [m|] eqn:Hm; [| apply IH].
    destruct (String.eqb "" m); [apply IH |].
    match goal with
    | |- context [Part000.isOverdue l ?ts w] =>
        destruct (Part000.isOverdue l ts w) as [[due w1]|] eqn:Ho
    end; cbn [mbind option_bind]; [| discriminate].
    destruct (isOverdue000_same _ _ _ _ _ Ho) as [T F].
    destruct due; intros H.
    + eapply removed_only_trans; [| apply (IH _ _ H)].
      eapply removed_only_trans; [apply (removed_only_same _ w w1 T F) |].
      apply removed_only_Remove. exists fn. split; [reflexivity |].
      pose proof (found_is_labelled _ _ _ Hm) as Hlab.
      destruct (Part000.rcCompress cfg); exact Hlab.
    + eapply removed_only_trans; [apply (removed_only_same _ w w1 T F) | apply (IH _ _ H)].
Qed.

Lemma Error000_same (touched : string -> Prop) l msg w :
  spec.removed_only touched w (Part000.Error l msg w).
Proof.
  destruct (log_only_logged (Part000.Level l) levels.LevelError msg w) as (A & B & _).
  apply removed_only_same; assumption.
Qed.

Lemma cleanOldLogs000_sound l cfg fileName w err w' :
  Part000.rotateCfg l = Some cfg ->
  Part000.cleanOldLogs l fileName w = Some (err, w') ->
  spec.removed_only
    (fun p => exists fn, p = filepath.Join (filepath.Dir fileName) fn
                         /\ spec.labelled (String.length (Part000.suffixFormat l))
                              (Part000.rcCompress cfg) fn) w w'.
Proof.
  intros Hcfg. unfold Part000.cleanOldLogs.
  set (dir := filepath.Dir fileName).
  set (touched := fun p => exists fn, p = filepath.Join dir fn
                         /\ spec.labelled (String.length (Part000.suffixFormat l))
                              (Part000.rcCompress cfg) fn).
  pose proof (OpenDir_sound touched dir w) as H1.
  destruct (os.OpenDir dir w) as [[d|e] w1]; cbn [snd] in H1.
  2:{ intros H; inversion H; subst.
      eapply removed_only_trans; [exact H1 | apply Error000_same]. }
  pose proof (Readdirnames_sound touched d w1) as H2.
  destruct (os.Readdirnames d w1) as [[names|e] w2]; cbn [snd] in H2.
  - rewrite Hcfg. cbn [mbind option_bind].
    destruct (Part000.cleanOldLogs_loop _ _ _ _ _ _) as [w3|] eqn:L;
      cbn [mbind option_bind]; [| discriminate].
    intros H; inversion H; subst.
    eapply removed_only_trans; [exact H1 |].
    eapply removed_only_trans; [exact H2 |].
    eapply removed_only_trans; [exact (cleanOldLogs_loop000_sound _ _ _ _ _ _ _ L) |].
    apply removed_only_issue. discriminate.
  - intros H; inversion H; subst.
    eapply removed_only_trans; [exact H1 |].
    eapply removed_only_trans; [exact H2 |].
    eapply removed_only_trans; [apply Error000_same |].
    apply removed_only_issue. discriminate.
Qed.

(** X11.  Whatever the faults and whatever the clock does, a sweep removes
    nothing but labelled names: every [os.Remove] that [deleteOverdue]
    (part_001) and [cleanOldLogs] (part_000) issue is on an entry of the log's
    directory whose name holds as many digits in a row as the layout is long,
    followed by [.gz] (in part_000 only when [Compress] is set); every
    [os.Remove] of [cleanOldLogs] of src/log.go is on a path that holds such a
    run of digits.  Every other path holds what it held. *)
Theorem sweep_touches_labelled_names_only :
  (forall l w,
     spec.removed_only
       (fun p => exists fn, p = filepath.Join (filepath.Dir (Part001.fileName l)) fn
                            /\ spec.labelled (String.length (Part001.suffixFormat l)) true fn)
       w (Part001.deleteOverdue l w))
  /\ (forall l cfg fileName w err w',
        Part000.rotateCfg l = Some cfg ->
        Part000.cleanOldLogs l fileName w = Some (err, w') ->
        spec.removed_only
          (fun p => exists fn, p = filepath.Join (filepath.Dir fileName) fn
                               /\ spec.labelled (String.length (Part000.suffixFormat l))
                                    (Part000.rcCompress cfg) fn) w w')
  /\ (forall l now fileName w err w',
        LogGo.cleanOldLogs l now fileName w = Some (err, w') ->
        spec.removed_only (spec.labelled (String.length (LogGo.suffixFormat l)) false) w w').
Proof.
  split; [exact deleteOverdue_sound |].
  split; [exact cleanOldLogs000_sound | exact cleanOldLogsGo_sound].
Qed.

(** ** Labels: what [Format] writes, [ParseInLocation] reads back *)

Lemma civil_days z :
  let '(y, m, d) := gotime.civil_from_days z in
  gotime.days_from_civil y m d = z /\ 1 <= m <= 12 /\ 1 <= d <= 31.
Proof.
  unfold gotime.civil_from_days, gotime.days_from_civil.
  set (z1 := z + 719468).
  set (era := z1 / 146097).
  set (doe := z1 - era * 146097).
  set (yoe := (doe - doe / 1460 + doe / 36524 - doe / 146096) / 365).
  set (doy := doe - (365 * yoe + yoe / 4 - yoe / 100)).
  set (mp := (5 * doy + 2) / 153).
  assert (Hdoe : 0 <= doe < 146097) by (subst doe era; Z.div_mod_to_equations; lia).
  assert (Hyoe : 0 <= yoe < 400 /\ 0 <= doy <= 365).
  { subst doy yoe. clearbody doe. clear - Hdoe. Z.div_mod_to_equations. lia. }
  assert (Hmp : 0 <= mp <= 11) by (subst mp; destruct Hyoe; Z.div_mod_to_equations; lia).
  destruct (mp <? 10) eqn:E1.
  - apply Z.ltb_lt in E1.
    assert ((mp + 3 <=? 2) = false) as -> by (apply Z.leb_gt; lia).
    replace ((mp + 3 + 9) mod 12) with mp by (Z.div_mod_to_equations; lia).
    replace ((yoe + era * 400) / 400) with era by (Z.div_mod_to_equations; lia).
    split; [| split; [lia |]].
    + replace (yoe + era * 400 - era * 400) with yoe by lia.
      subst doy mp z1 doe. Z.div_mod_to_equations; lia.
    + subst mp. clearbody doy. Z.div_mod_to_equations. lia.
  - apply Z.ltb_ge in E1.
    assert ((mp - 9 <=? 2) = true) as -> by (apply Z.leb_le; lia).
    replace ((mp - 9 + 9) mod 12) with mp by (Z.div_mod_to_equations; lia).
    replace (yoe + era * 400 + 1 - 1) with (yoe + era * 400) by lia.
    replace ((yoe + era * 400) / 400) with era by (Z.div_mod_to_equations; lia).
    split; [| split; [lia |]].
    + replace (yoe + era * 400 - era * 400) with yoe by lia.
      subst doy mp z1 doe. Z.div_mod_to_equations; lia.
    + subst mp. clearbody doy. Z.div_mod_to_equations. lia.
Qed.

Lemma civil_day_in_month z :
  let '(y, m, d) := gotime.civil_from_days z in
  d <= gotime.daysIn m y.
Proof.
  unfold gotime.civil_from_days.
  set (z1 := z + 719468).
  set (era := z1 / 146097).
  set (doe := z1 - era * 146097).
  set (yoe := (doe - doe / 1460 + doe / 36524 - doe / 146096) / 365).
  set (doy := doe - (365 * yoe + yoe / 4 - yoe / 100)).
  set (mp := (5 * doy + 2) / 153).
  assert (Hdoe : 0 <= doe < 146097) by (subst doe era; Z.div_mod_to_equations; lia).
  assert (Hyoe : 0 <= yoe < 400 /\ 0 <= doy <= 365).
  { subst doy yoe. clearbody doe. clear - Hdoe. Z.div_mod_to_equations. lia. }
  assert (Hleap : doy = 365 ->
                  (yoe + 1) mod 4 = 0 /\ ((yoe + 1) mod 100 <> 0 \/ (yoe + 1) mod 400 = 0)).
  { subst doy yoe. clearbody doe. clear - Hdoe. intros H. Z.div_mod_to_equations. lia. }
  assert (Hmp : 0 <= mp <= 11) by (subst mp; destruct Hyoe; Z.div_mod_to_equations; lia).
  assert (Hd : (153 * mp + 2) / 5 <= doy
               /\ (mp < 11 -> doy < (153 * (mp + 1) + 2) / 5)).
  { subst mp. clearbody doy. Z.div_mod_to_equations. lia. }
  clearbody mp doy yoe era. destruct Hyoe as [Hy Hdy]. destruct Hd as [Hd1 Hd2].
  unfold gotime.daysIn, gotime.isLeap.
  destruct (Z.ltb_spec mp 10) as [E1 | E1].
  - destruct (Z.eqb_spec (mp + 3) 2); [lia |].
    destruct (Z.eqb_spec (mp + 3) 4); destruct (Z.eqb_spec (mp + 3) 6);
      destruct (Z.eqb_spec (mp + 3) 9); destruct (Z.eqb_spec (mp + 3) 11);
      cbn [orb]; specialize (Hd2 ltac:(lia)); Z.div_mod_to_equations; lia.
  - destruct (Z.eqb_spec (mp - 9) 2) as [E2 | E2].
    + assert (mp = 11) by lia. subst mp.
      destruct (Z.leb_spec (11 - 9) 2); [| lia].
      destruct (Z.eq_dec doy 365) as [E | NE].
      * destruct (Hleap E) as [H4 H100].
        replace ((yoe + era * 400 + 1) mod 4) with 0 by (Z.div_mod_to_equations; lia).
        destruct (Z.eqb_spec ((yoe + era * 400 + 1) mod 100) 0) as [E100 | E100].
        -- replace ((yoe + era * 400 + 1) mod 400) with 0 by (Z.div_mod_to_equations; lia).
           cbn [Z.eqb andb orb negb]. Z.div_mod_to_equations; lia.
        -- cbn [Z.eqb andb orb negb]. Z.div_mod_to_equations; lia.
      * destruct (_ && _); Z.div_mod_to_equations; lia.
    + assert (mp = 10) by lia. subst mp.
      destruct (Z.eqb_spec (10 - 9) 4); [lia |]. destruct (Z.eqb_spec (10 - 9) 6); [lia |].
      destruct (Z.eqb_spec (10 - 9) 9); [lia |]. destruct (Z.eqb_spec (10 - 9) 11); [lia |].
      cbn [orb]. specialize (Hd2 ltac:(lia)). Z.div_mod_to_equations; lia.
Qed.

Lemma char_of_digit v :
  digits.isDigit (digits.char_of v) = true /\ digits.digit_of (digits.char_of v) = v mod 10.
Proof.
  unfold digits.char_of.
  assert (H : 0 <= v mod 10 < 10) by (apply Z.mod_pos_bound; lia).
  assert (C : v mod 10 = 0 \/ v mod 10 = 1 \/ v mod 10 = 2 \/ v mod 10 = 3 \/ v mod 10 = 4
              \/ v mod 10 = 5 \/ v mod 10 = 6 \/ v mod 10 = 7 \/ v mod 10 = 8
              \/ v mod 10 = 9) by lia.
  destruct C as [-> | [-> | [-> | [-> | [-> | [-> | [-> | [-> | [-> | ->]]]]]]]]];
    split; reflexivity.
Qed.

Lemma length_zpad_aux w : forall v acc,
  String.length (digits.zpad_aux w v acc) = (w + String.length acc)%nat.
Proof.
  induction w as [|w IH]; intros v acc; cbn [digits.zpad_aux]; [reflexivity |].
  rewrite IH. cbn [String.length]. lia.
Qed.

Lemma length_zpad w v : String.length (digits.zpad w v) = w.
Proof. unfold digits.zpad. rewrite length_zpad_aux. cbn [String.length]. lia. Qed.

Lemma atoi_acc_zpad_aux w : forall v a acc,
  digits.atoi_acc a (digits.zpad_aux w v acc)
  = digits.atoi_acc (a * 10 ^ Z.of_nat w + v mod 10 ^ Z.of_nat w) acc.
Proof.
  induction w as [|w IH]; intros v a acc; cbn [digits.zpad_aux].
  - change (Z.of_nat 0) with 0. rewrite Z.pow_0_r, Z.mod_1_r. f_equal. lia.
  - rewrite IH. cbn [digits.atoi_acc].
    destruct (char_of_digit v) as [-> ->]. f_equal.
    rewrite Nat2Z.inj_succ, Z.pow_succ_r by lia.
    rewrite (Z.rem_mul_r v 10 (10 ^ Z.of_nat w)) by lia. lia.
Qed.

Lemma atoi_zpad w v :
  (0 < w)%nat -> 0 <= v < 10 ^ Z.of_nat w -> digits.atoi (digits.zpad w v) = Some v.
Proof.
  intros Hw Hv. unfold digits.atoi.
  pose proof (length_zpad w v) as Hl.
  destruct (digits.zpad w v) as [|c s] eqn:E; [simpl in Hl; lia |].
  rewrite <- E. unfold digits.zpad. rewrite atoi_acc_zpad_aux. cbn [digits.atoi_acc].
  rewrite Z.mod_small by lia. f_equal.
Qed.

Lemma take_n_app n : forall p r,
  String.length p = n -> digits.take_n n (p +:+ r) = Some (p, r).
Proof.
  induction n as [|n IH]; intros p r Hl.
  - destruct p; [reflexivity | discriminate].
  - destruct p as [|c p]; [discriminate |]. rewrite append_cons. cbn [digits.take_n].
    rewrite IH by (simpl in Hl; lia). reflexivity.
Qed.

Lemma parse_field k ks c rest c0 :
  (forall a, k <> gotime.stdLit a) -> spec.fields_in_range c ->
  gotime.parse_chunks (k :: ks) (gotime.format_chunk c k +:+ rest) c0
  = gotime.parse_chunks ks rest (gotime.set_field k (spec.field k c) c0).
Proof.
  intros Hk (Hy & Hm & Hd & Hh & Hmi & Hs).
  destruct k; try (exfalso; eapply Hk; reflexivity);
    cbn [gotime.parse_chunks gotime.format_chunk gotime.field_width spec.field];
    rewrite take_n_app by apply length_zpad;
    rewrite atoi_zpad by (try lia; change (10 ^ Z.of_nat 4) with 10000;
                          change (10 ^ Z.of_nat 2) with 100; lia);
    cbn [gotime.field_in_range]; try reflexivity.
  - assert ((1 <=? gotime.month c) && (gotime.month c <=? 12) = true) as ->;
      [| reflexivity].
    apply andb_true_iff. split; apply Z.leb_le; lia.
  - assert ((0 <=? gotime.hour c) && (gotime.hour c <? 24) = true) as ->; [| reflexivity].
    apply andb_true_iff. split; [apply Z.leb_le | apply Z.ltb_lt]; lia.
  - assert ((0 <=? gotime.minute c) && (gotime.minute c <? 60) = true) as ->; [| reflexivity].
    apply andb_true_iff. split; [apply Z.leb_le | apply Z.ltb_lt]; lia.
  - assert ((0 <=? gotime.second c) && (gotime.second c <? 60) = true) as ->; [| reflexivity].
    apply andb_true_iff. split; [apply Z.leb_le | apply Z.ltb_lt]; lia.
Qed.

Lemma civil_in_range loc t :
  0 <= gotime.year (gotime.civil loc t) <= 9999 ->
  spec.fields_in_range (gotime.civil loc t)
  /\ gotime.day (gotime.civil loc t)
     <= gotime.daysIn (gotime.month (gotime.civil loc t)) (gotime.year (gotime.civil loc t))
  /\ gotime.days_from_civil (gotime.year (gotime.civil loc t))
       (gotime.month (gotime.civil loc t)) (gotime.day (gotime.civil loc t))
     = (t / gotime.Second + loc) / 86400.
Proof.
  unfold gotime.civil, spec.fields_in_range.
  set (secs := t / gotime.Second + loc).
  pose proof (civil_days (secs / 86400)) as H1.
  pose proof (civil_day_in_month (secs / 86400)) as H2.
  destruct (gotime.civil_from_days (secs / 86400)) as [[y m] d].
  cbn [gotime.year gotime.month gotime.day gotime.hour gotime.minute gotime.second].
  destruct H1 as (H1 & Hm & Hd). intros Hy.
  repeat split; try lia; try (clearbody secs; Z.div_mod_to_equations; lia).
Qed.

(** A label written under one of the four layouts parses, and parses to the
    start of its day, hour, minute or second. *)
Lemma label_round_trip loc t layout :
  spec.granular layout -> 0 <= gotime.year (gotime.civil loc t) <= 9999 ->
  gotime.ParseInLocation layout (gotime.Format loc t layout) loc
  = (spec.label_start loc t layout, None).
Proof.
  intros Hg Hy.
  destruct (civil_in_range loc t Hy) as (Hr & Hdim & Hdays).
  assert (Hday : (1 <=? gotime.day (gotime.civil loc t))
                 && (gotime.day (gotime.civil loc t)
                     <=? gotime.daysIn (gotime.month (gotime.civil loc t))
                           (gotime.year (gotime.civil loc t))) = true).
  { destruct Hr as (_ & _ & Hd & _). apply andb_true_iff. split; apply Z.leb_le; lia. }
  assert (Htod :
    gotime.hour (gotime.civil loc t) = ((t / gotime.Second + loc) mod 86400) / 3600
    /\ gotime.minute (gotime.civil loc t) = (((t / gotime.Second + loc) mod 86400) mod 3600) / 60
    /\ gotime.second (gotime.civil loc t) = ((t / gotime.Second + loc) mod 86400) mod 60).
  { unfold gotime.civil. destruct (gotime.civil_from_days _) as [[y m] d]. auto. }
  destruct Htod as (Hh & Hmi & Hs).
  unfold gotime.ParseInLocation, gotime.Format, spec.label_start.
  set (c := gotime.civil loc t) in *.
  set (secs := t / gotime.Second + loc) in *.
  destruct Hg as [-> | [-> | [-> | ->]]];
    cbn [gotime.chunks levels.formatDay levels.formatHour levels.formatMin levels.formatSec
         fold_right];
    rewrite !parse_field by (assumption || discriminate);
    cbn [gotime.parse_chunks gotime.set_field spec.field gotime.year gotime.month gotime.day
         gotime.hour gotime.minute gotime.second];
    rewrite Hday; f_equal; unfold gotime.Date; rewrite Hdays;
    try rewrite Hh; try rewrite Hmi; try rewrite Hs;
    unfold spec.resolution; cbn [String.eqb Ascii.eqb Bool.eqb levels.formatDay levels.formatHour
                            levels.formatMin levels.formatSec];
    f_equal; clearbody secs; Z.div_mod_to_equations; lia.
Qed.

Lemma granular_not_empty layout : spec.granular layout -> String.eqb "" layout = false.
Proof. intros [-> | [-> | [-> | ->]]]; reflexivity. Qed.

(** X12.  Under each of the four layouts, at an instant with a four-digit
    year: the label [genSuffixStr] of part_001 writes is the clock reading in
    that layout, and [isOverdue] of the three versions reads a label so
    written back as the start of its day, hour, minute or second in the local
    zone; the answer is whether that start lies more than [Duration * Rotate]
    before the clock reading (before the [now] handed down, in src/log.go),
    and nothing is logged. *)
Theorem written_label_is_read_back (loc : gotime.Location) (t : gotime.Time)
    (layout : string) :
  spec.granular layout ->
  0 <= gotime.year (gotime.civil loc t) <= 9999 ->
  (forall l w0,
     Part001.suffixFormat l = layout -> os.local w0 = loc -> os.now w0 = t ->
     (Part001.genSuffixStr l w0).1 = gotime.Format loc t layout)
  /\ (forall l w,
        Part001.suffixFormat l = layout -> os.local w = loc -> os.later w = [] ->
        spec.window_fits (Part001.Duration (Part001.param l)) (Part001.Rotate (Part001.param l)) ->
        Part001.isOverdue l (gotime.Format loc t layout) w
        = (Part001.Duration (Part001.param l) * Part001.Rotate (Part001.param l)
           <? os.now w - spec.label_start loc t layout, w))
  /\ (forall l cfg now w,
        LogGo.suffixFormat l = layout -> LogGo.rotateCfg l = Some cfg -> os.local w = loc ->
        spec.window_fits (LogGo.rcDuration cfg) (LogGo.rcRotate cfg) ->
        LogGo.isOverdue l now (gotime.Format loc t layout) w
        = Some (LogGo.rcDuration cfg * LogGo.rcRotate cfg <? now - spec.label_start loc t layout, w))
  /\ (forall l cfg w,
        Part000.suffixFormat l = layout -> Part000.rotateCfg l = Some cfg ->
        os.local w = loc -> os.later w = [] ->
        spec.window_fits (Part000.rcDuration cfg) (Part000.rcRotate cfg) ->
        Part000.isOverdue l (gotime.Format loc t layout) w
        = Some (Part000.rcDuration cfg * Part000.rcRotate cfg
                <? os.now w - spec.label_start loc t layout, w)).
Proof.
  intros Hg Hy. pose proof (label_round_trip loc t layout Hg Hy) as RT.
  split; [| split; [| split]].
  - intros l w0 Hf Hloc Hnow. unfold Part001.genSuffixStr.
    rewrite Hf, (granular_not_empty _ Hg).
    assert (Hl : os.local (os.Now w0).2 = os.local w0)
      by (unfold os.Now; destruct (os.later w0); reflexivity).
    assert (Hn : (os.Now w0).1 = os.now w0) by reflexivity.
    destruct (os.Now w0) as [t0 w1]. cbn [fst snd] in *. congruence.
  - intros l w Hf Hloc Hlt Hwin. unfold Part001.isOverdue.
    rewrite Hf, Hloc, RT, (Now_frozen w Hlt).
    unfold gotime.dur_mul. unfold spec.window_fits in Hwin.
    rewrite wrap64_small by lia. rewrite Sub_gt_iff by exact Hwin.
    destruct (_ <? _); reflexivity.
  - intros l cfg now w Hf Hcfg Hloc Hwin. unfold LogGo.isOverdue.
    rewrite Hf, Hloc, RT, Hcfg. cbn [mbind option_bind].
    unfold gotime.dur_mul. unfold spec.window_fits in Hwin.
    rewrite wrap64_small by lia. rewrite Sub_gt_iff by exact Hwin.
    destruct (_ <? _); reflexivity.
  - intros l cfg w Hf Hcfg Hloc Hlt Hwin. unfold Part000.isOverdue.
    rewrite Hf, Hloc, RT, (Now_frozen w Hlt), Hcfg. cbn [mbind option_bind].
    unfold gotime.dur_mul. unfold spec.window_fits in Hwin.
    rewrite wrap64_small by lia. rewrite Sub_gt_iff by exact Hwin.
    destruct (_ <? _); reflexivity.
Qed.

Lemma written_label_is_read_back_witness :
  Part001.isOverdue (examples.logger001 "20240101150003") "20240101145957"
    (examples.world_of [] [] examples.at_15_00_03)
  = (true, examples.world_of [] [] examples.at_15_00_03).
Proof.
  destruct (written_label_is_read_back 0 (gotime.Date 2024 1 1 14 59 57 0 + 250000000)
              levels.formatSec) as (_ & H & _).
  - right. right. right. reflexivity.
  - vm_compute. split; discriminate.
  - apply (H (examples.logger001 "20240101150003")
             (examples.world_of [] [] examples.at_15_00_03)); try reflexivity.
    vm_compute. split; [discriminate | reflexivity].
Defined.

(** ** The loops of src/log.go over a whole run *)

Lemma RotateGo_keeps l wd e l' wd' ts :
  LogGo.Rotate l wd = Some (e, l', wd', ts) ->
  LogGo.rotateCfg l' = LogGo.rotateCfg l /\ LogGo.rotateCh l' = LogGo.rotateCh l
  /\ LogGo.Level l' = LogGo.Level l.
Proof.
  unfold LogGo.Rotate. destruct (LogGo.rotateCfg l) as [cfg|] eqn:Hcfg; [| discriminate].
  cbn [mbind option_bind].
  set (l0 := if LogGo.rcDuration cfg <? gotime.Minute
             then LogGo.set_suffixFormat levels.formatSec l
             else LogGo.set_suffixFormat levels.formatMin l).
  assert (H0 : LogGo.rotateCfg l0 = Some cfg /\ LogGo.rotateCh l0 = LogGo.rotateCh l
               /\ LogGo.Level l0 = LogGo.Level l)
    by (subst l0; destruct (_ <? _); simpl; auto).
  clearbody l0. destruct H0 as (A & B & C).
  destruct (LogGo.w l0) as [fd|].
  2:{ intros H; inversion H; subst. auto. }
  destruct (os.Now wd) as [now w0].
  destruct (os.Rename _ _ _) as [[err|] w1].
  { intros H; inversion H; subst. auto. }
  destruct (os.OpenAppend _ _) as [[newFd|err] w2];
    intros H; inversion H; subst; simpl; auto.
Qed.

Lemma closeChannel_keeps l rt :
  LogGo.rotateCfg (LogGo.closeChannel l rt).1 = LogGo.rotateCfg l.
Proof. unfold LogGo.closeChannel. destruct (LogGo.rotateCh l); reflexivity. Qed.

Lemma StartRotate_accepted l rt :
  LogGo.StartRotate l rt
  = if spec.accepted l
    then (None,
          LogGo.set_rotateCh (Some (LogGo.fresh (LogGo.closeChannel l rt).2))
            (LogGo.closeChannel l rt).1,
          {| LogGo.closed := LogGo.closed (LogGo.closeChannel l rt).2;
             LogGo.fresh := S (LogGo.fresh (LogGo.closeChannel l rt).2) |},
          [LogGo.GoRotateLoop])
    else (Some LogGo.errInvalidRotateConfig, l, rt, []).
Proof.
  unfold LogGo.StartRotate, spec.accepted. destruct (LogGo.rotateCfg l) as [cfg|]; [| reflexivity].
  destruct (_ || _); cbn [negb]; [reflexivity |].
  destruct (LogGo.closeChannel l rt); reflexivity.
Qed.

Lemma step_loops s a s' :
  LogGo.step s a = Some s' ->
  LogGo.rotateCfg (LogGo.logger s') = LogGo.rotateCfg (LogGo.logger s)
  /\ length (LogGo.loops s')
     = (length (LogGo.loops s)
        + match a with
          | LogGo.DoStartRotate => if spec.accepted (LogGo.logger s) then 1 else 0
          | _ => 0
          end)%nat.
Proof.
  unfold LogGo.step. destruct a as [| | i | t].
  - rewrite StartRotate_accepted. destruct (spec.accepted (LogGo.logger s));
      intros H; inversion H; subst; simpl; rewrite length_app; simpl.
    + split; [apply closeChannel_keeps | lia].
    + split; [reflexivity | lia].
  - unfold LogGo.Stop. pose proof (closeChannel_keeps (LogGo.logger s) (LogGo.runtime s)) as K.
    destruct (LogGo.closeChannel _ _) as [l rt]. intros H; inversion H; subst; simpl in *.
    split; [exact K | lia].
  - destruct (LogGo.loops s !! i) as [[| ch deadline]|]; simpl; [| | discriminate].
    + destruct (LogGo.loop_enter _ _) as [[st' wd]|]; simpl; [| discriminate].
      intros H; inversion H; subst; simpl. rewrite length_insert. split; [reflexivity | lia].
    + destruct (LogGo.select_ready _ _ _ _); [| discriminate].
      destruct (LogGo.Rotate _ _) as [[[[err l] wd] ts]|] eqn:R; simpl; [| discriminate].
      destruct (RotateGo_keeps _ _ _ _ _ _ R) as (K & _).
      intros H; inversion H; subst; simpl. rewrite length_insert. split; [exact K | lia].
  - intros H; inversion H; subst; simpl. split; [reflexivity | lia].
Qed.

Lemma accepted_by_cfg l l' :
  LogGo.rotateCfg l' = LogGo.rotateCfg l -> spec.accepted l' = spec.accepted l.
Proof. unfold spec.accepted. intros ->. reflexivity. Qed.

(** X14.  Along any run of the program, the number of rotation loops is the
    number there was plus one for every call of [StartRotate], when the
    configuration is one [StartRotate] accepts, and stays what it was when it
    is not: no [Stop], no later [StartRotate] and no turn of a loop ends a
    loop. *)
Theorem every_StartRotate_adds_a_loop (acts : list LogGo.Action) :
  forall s s',
    LogGo.run s acts = Some s' ->
    length (LogGo.loops s')
    = (length (LogGo.loops s) + if spec.accepted (LogGo.logger s) then spec.starts acts else 0)%nat.
Proof.
  induction acts as [|a rest IH]; intros s s' H.
  - inversion H; subst. unfold spec.starts. simpl. destruct (spec.accepted _); lia.
  - cbn [LogGo.run] in H. destruct (LogGo.step s a) as [s1|] eqn:Hs; [| discriminate].
    cbn [mbind option_bind] in H.
    destruct (step_loops s a s1 Hs) as [Hc Hl].
    rewrite (IH s1 s' H), Hl, (accepted_by_cfg _ _ Hc).
    unfold spec.starts. cbn [List.filter].
    destruct (spec.accepted (LogGo.logger s)); destruct a; simpl; lia.
Qed.

Lemma every_StartRotate_adds_a_loop_witness :
  exists s',
    LogGo.run examples.system0
      [LogGo.DoStartRotate; LogGo.DoStop; LogGo.DoStartRotate; LogGo.DoLoop 0] = Some s'
    /\ length (LogGo.loops s') = 2%nat.
Proof.
  eexists. split; [vm_compute; reflexivity |].
  apply (every_StartRotate_adds_a_loop
           [LogGo.DoStartRotate; LogGo.DoStop; LogGo.DoStartRotate; LogGo.DoLoop 0]
           examples.system0).
  vm_compute. reflexivity.
Defined.

Lemma closeChannel_ok l rt :
  spec.channels_ok l rt ->
  spec.channels_ok (LogGo.closeChannel l rt).1 (LogGo.closeChannel l rt).2
  /\ LogGo.rotateCh (LogGo.closeChannel l rt).1 = None
  /\ LogGo.fresh (LogGo.closeChannel l rt).2 = LogGo.fresh rt
  /\ LogGo.closed rt ⊆ LogGo.closed (LogGo.closeChannel l rt).2.
Proof.
  unfold spec.channels_ok, LogGo.closeChannel. intros [Hall Hcur].
  destruct (LogGo.rotateCh l) as [c|] eqn:E; simpl.
  - destruct Hcur as [Hlt Hopen]. repeat split; auto; [| set_solver].
    intros c' Hin. apply elem_of_union in Hin as [Hin | Hin]; [| auto].
    apply elem_of_singleton in Hin. subst. exact Hlt.
  - rewrite E. repeat split; auto.
Qed.

Lemma step_channels s a s' :
  spec.channels_ok (LogGo.logger s) (LogGo.runtime s) ->
  LogGo.step s a = Some s' ->
  spec.channels_ok (LogGo.logger s') (LogGo.runtime s')
  /\ LogGo.closed (LogGo.runtime s) ⊆ LogGo.closed (LogGo.runtime s').
Proof.
  intros Hok. unfold LogGo.step. destruct a as [| | i | t].
  - rewrite StartRotate_accepted.
    destruct (closeChannel_ok _ _ Hok) as ([Hall _] & Hn & Hf & Hsub).
    destruct (spec.accepted (LogGo.logger s)); intros H; inversion H; subst; simpl;
      [| split; [exact Hok | reflexivity]].
    split; [| exact Hsub].
    unfold spec.channels_ok. simpl. split.
    + intros c Hin. specialize (Hall c Hin). lia.
    + split; [lia |]. intros Hin. specialize (Hall _ Hin). lia.
  - unfold LogGo.Stop. destruct (closeChannel_ok _ _ Hok) as (Hok' & _ & _ & Hsub).
    destruct (LogGo.closeChannel _ _) as [l rt]. intros H; inversion H; subst; simpl in *.
    auto.
  - destruct (LogGo.loops s !! i) as [[| ch deadline]|]; simpl; [| | discriminate].
    + destruct (LogGo.loop_enter _ _) as [[st' wd]|]; simpl; [| discriminate].
      intros H; inversion H; subst; simpl. auto.
    + destruct (LogGo.select_ready _ _ _ _); [| discriminate].
      destruct (LogGo.Rotate _ _) as [[[[err l] wd] ts]|] eqn:R; simpl; [| discriminate].
      destruct (RotateGo_keeps _ _ _ _ _ _ R) as (_ & K & _).
      intros H; inversion H; subst; simpl. split; [| reflexivity].
      unfold spec.channels_ok in *. rewrite K. exact Hok.
  - intros H; inversion H; subst; simpl. auto.
Qed.

Lemma Stop_twice l rt :
  LogGo.Stop (LogGo.Stop l rt).1 (LogGo.Stop l rt).2 = LogGo.Stop l rt.
Proof.
  unfold LogGo.Stop, LogGo.closeChannel.
  destruct (LogGo.rotateCh l) eqn:E; simpl; [reflexivity | rewrite E; reflexivity].
Qed.

(** X15.  With [StartRotate] and [Stop] called one after the other (each
    runs to its end before the next starts), the channel the logger holds is
    always an open one: [closeChannel] never closes a channel a second time.
    Channels once closed stay closed, and a [Stop] that follows a [Stop]
    changes nothing. *)
Theorem closeChannel_never_closes_twice (acts : list LogGo.Action) :
  forall s s',
    spec.channels_ok (LogGo.logger s) (LogGo.runtime s) ->
    LogGo.run s acts = Some s' ->
    spec.channels_ok (LogGo.logger s') (LogGo.runtime s')
    /\ LogGo.closed (LogGo.runtime s) ⊆ LogGo.closed (LogGo.runtime s')
    /\ LogGo.Stop (LogGo.Stop (LogGo.logger s') (LogGo.runtime s')).1
         (LogGo.Stop (LogGo.logger s') (LogGo.runtime s')).2
       = LogGo.Stop (LogGo.logger s') (LogGo.runtime s').
Proof.
  induction acts as [|a rest IH]; intros s s' Hok H.
  - inversion H; subst. split; [exact Hok |]. split; [reflexivity |].
    apply Stop_twice.
  - cbn [LogGo.run] in H. destruct (LogGo.step s a) as [s1|] eqn:Hs; [| discriminate].
    cbn [mbind option_bind] in H.
    destruct (step_channels s a s1 Hok Hs) as [Hok1 Hsub1].
    destruct (IH s1 s' Hok1 H) as (A & B & C).
    split; [exact A |]. split; [etrans; eassumption | exact C].
Qed.

Lemma closeChannel_never_closes_twice_witness :
  exists s', LogGo.run examples.system0
               [LogGo.DoStartRotate; LogGo.DoStop; LogGo.DoStartRotate; LogGo.DoStop;
                LogGo.DoStop] = Some s'
    /\ spec.channels_ok (LogGo.logger s') (LogGo.runtime s').
Proof.
  eexists. split; [vm_compute; reflexivity |].
  eapply (closeChannel_never_closes_twice
            [LogGo.DoStartRotate; LogGo.DoStop; LogGo.DoStartRotate; LogGo.DoStop; LogGo.DoStop]
            examples.system0).
  - split; [intros c Hc; apply elem_of_empty in Hc; destruct Hc | exact I].
  - vm_compute. reflexivity.
Defined.

(** X13.  A loop that enters [select] while the clock stands still waits
    on the channel the logger holds at that moment and sets its timer to the
    next multiple of [Duration] counted from the zero time, strictly after
    the clock reading and at most [Duration] after it.  Until the clock
    advances or that channel is closed the loop cannot move. *)
Theorem loop_waits_for_the_next_boundary (l : LogGo.Logger) (wd : os.World)
    (cfg : LogGo.RotateConfig) :
  LogGo.rotateCfg l = Some cfg ->
  0 < LogGo.rcDuration cfg <= gotime.maxDuration ->
  os.later wd = [] ->
  exists deadline,
    LogGo.loop_enter l wd = Some (LogGo.InSelect (LogGo.rotateCh l) deadline, wd)
    /\ os.now wd < deadline <= os.now wd + LogGo.rcDuration cfg
    /\ (deadline - gotime.zeroTime) mod LogGo.rcDuration cfg = 0
    /\ forall s i,
         LogGo.logger s = l -> LogGo.world s = wd ->
         LogGo.loops s !! i = Some (LogGo.InSelect (LogGo.rotateCh l) deadline) ->
         (forall c, LogGo.rotateCh l = Some c -> c ∉ LogGo.closed (LogGo.runtime s)) ->
         LogGo.step s (LogGo.DoLoop i) = None.
Proof.
  intros Hcfg [Hpos Hmax] Hlt.
  set (D := LogGo.rcDuration cfg) in *.
  set (r := (os.now wd + D - gotime.zeroTime) mod D).
  assert (Hr : 0 <= r < D) by (apply Z.mod_pos_bound; lia).
  exists (os.now wd + D - r).
  assert (Hdl : os.now wd < os.now wd + D - r <= os.now wd + D) by lia.
  split.
  { unfold LogGo.loop_enter. rewrite Hcfg. cbn [mbind option_bind].
    rewrite (Now_frozen wd Hlt). fold D.
    unfold gotime.Truncate. assert ((D <=? 0) = false) as -> by (apply Z.leb_gt; lia).
    fold r. rewrite (Now_frozen wd Hlt). unfold gotime.Sub.
    unfold gotime.maxDuration, gotime.minDuration in *.
    f_equal. f_equal. f_equal. lia. }
  split; [exact Hdl |].
  split.
  { replace (os.now wd + D - r - gotime.zeroTime)
      with ((os.now wd + D - gotime.zeroTime) - r) by lia.
    subst r. rewrite Zminus_mod_idemp_r. rewrite Z.sub_diag. apply Z.mod_0_l. lia. }
  intros s i Hl Hw Hi Hopen. unfold LogGo.step. rewrite Hi. cbn [mbind option_bind].
  assert (LogGo.select_ready (LogGo.runtime s) (LogGo.rotateCh l) (os.now wd + D - r)
            (LogGo.world s) = false) as ->; [| reflexivity].
  unfold LogGo.select_ready. rewrite Hw.
  assert ((os.now wd + D - r <=? os.now wd) = false) as -> by (apply Z.leb_gt; lia).
  destruct (LogGo.rotateCh l) as [c|]; [| reflexivity].
  rewrite orb_false_r. apply bool_decide_eq_false. apply Hopen. reflexivity.
Qed.

Lemma loop_waits_for_the_next_boundary_witness :
  LogGo.loop_enter (examples.loggerGo examples.cfg_1s_keep_5) (LogGo.world examples.system0)
  = Some (LogGo.InSelect None (gotime.Date 2024 1 1 15 0 1 0), LogGo.world examples.system0).
Proof.
  destruct (loop_waits_for_the_next_boundary (examples.loggerGo examples.cfg_1s_keep_5)
              (LogGo.world examples.system0) examples.cfg_1s_keep_5 eq_refl)
    as (deadline & H1 & H2 & H3 & _).
  - vm_compute. split; [reflexivity | discriminate].
  - reflexivity.
  - rewrite H1. vm_compute in H1. inversion H1. reflexivity.
Defined.

Lemma RotateGo_returns l wd cfg :
  LogGo.rotateCfg l = Some cfg -> exists r, LogGo.Rotate l wd = Some r.
Proof.
  intros Hcfg. unfold LogGo.Rotate. rewrite Hcfg. cbn [mbind option_bind].
  destruct (LogGo.w _) as [fd|]; [| eexists; reflexivity].
  destruct (os.Now wd) as [now w0].
  destruct (os.Rename _ _ _) as [[err|] w1]; [eexists; reflexivity |].
  destruct (os.OpenAppend _ _) as [[newFd|err] w2]; eexists; reflexivity.
Qed.

(** Where there is a loop, the configuration is one [StartRotate] accepts. *)
Lemma run_loops_accepted acts : forall s s',
  ((0 < length (LogGo.loops s))%nat -> spec.accepted (LogGo.logger s) = true) ->
  LogGo.run s acts = Some s' ->
  (0 < length (LogGo.loops s'))%nat -> spec.accepted (LogGo.logger s') = true.
Proof.
  induction acts as [|a rest IH]; intros s s' HP H.
  - inversion H; subst. exact HP.
  - cbn [LogGo.run] in H. destruct (LogGo.step s a) as [s1|] eqn:Hs; [| discriminate].
    cbn [mbind option_bind] in H.
    destruct (step_loops s a s1 Hs) as [Hc Hl].
    apply (IH s1 s'); [| exact H].
    intros Hpos. rewrite (accepted_by_cfg _ _ Hc).
    destruct (spec.accepted (LogGo.logger s)) eqn:E; [reflexivity |].
    apply HP. destruct a; lia.
Qed.

(** X16.  [Rotate] dereferences the configuration without a check, but in a
    program that starts without loops every loop was started by a
    [StartRotate] that had checked it, and nothing replaces the
    configuration: a loop at the head of its [for], or in [select] with its
    channel closed or its timer fired, always takes its step. *)
Theorem started_loops_never_panic (s0 : LogGo.System) (acts : list LogGo.Action)
    (s : LogGo.System) (i : nat) (st : LogGo.Loop) :
  LogGo.loops s0 = [] ->
  LogGo.run s0 acts = Some s ->
  LogGo.loops s !! i = Some st ->
  match st with
  | LogGo.AtTop => True
  | LogGo.InSelect ch deadline =>
      LogGo.select_ready (LogGo.runtime s) ch deadline (LogGo.world s) = true
  end ->
  exists s', LogGo.step s (LogGo.DoLoop i) = Some s'.
Proof.
  intros H0 Hrun Hi Hready.
  assert (Hacc : spec.accepted (LogGo.logger s) = true).
  { apply (run_loops_accepted acts s0 s); [| exact Hrun |].
    - rewrite H0. cbn [length]. lia.
    - apply lookup_lt_Some in Hi. lia. }
  unfold spec.accepted in Hacc.
  destruct (LogGo.rotateCfg (LogGo.logger s)) as [cfg|] eqn:Hcfg; [| discriminate].
  unfold LogGo.step. rewrite Hi. cbn [mbind option_bind].
  destruct st as [| ch deadline].
  - unfold LogGo.loop_enter. rewrite Hcfg. cbn [mbind option_bind].
    destruct (os.Now (LogGo.world s)) as [t1 w1]. destruct (os.Now w1) as [t2 w2].
    cbn [mbind option_bind]. eexists. reflexivity.
  - rewrite Hready.
    destruct (RotateGo_returns (LogGo.logger s) (LogGo.world s) cfg Hcfg) as ([[[e l] wd] ts] & ->).
    cbn [mbind option_bind]. eexists. reflexivity.
Qed.

Lemma started_loops_never_panic_witness :
  exists s',
    LogGo.step
      {| LogGo.logger :=
           LogGo.set_rotateCh (Some 0%nat) (examples.loggerGo examples.cfg_1s_keep_5);
         LogGo.world := LogGo.world examples.system0;
         LogGo.runtime := {| LogGo.closed := ∅; LogGo.fresh := 1%nat |};
         LogGo.loops := [LogGo.AtTop]; LogGo.pending := [] |}
      (LogGo.DoLoop 0) = Some s'.
Proof.
  apply (started_loops_never_panic examples.system0 [LogGo.DoStartRotate] _ 0%nat LogGo.AtTop);
    [reflexivity | vm_compute; reflexivity | reflexivity | exact I].
Defined.

(** ** Levels and the leveled methods *)

Lemma Level_String_cases (l : levels.Level) :
  (l = 0 \/ l = 1 \/ l = 2 \/ l = 3 \/ l = 4 \/ l = 5) /\ levels.Level_String l <> "[Unknown] "
  \/ (l < 0 \/ 5 < l) /\ levels.Level_String l = "[Unknown] ".
Proof.
  destruct (Z.eq_dec l 0) as [-> |]; [left; split; [auto | discriminate] |].
  destruct (Z.eq_dec l 1) as [-> |]; [left; split; [auto | discriminate] |].
  destruct (Z.eq_dec l 2) as [-> |]; [left; split; [auto 10 | discriminate] |].
  destruct (Z.eq_dec l 3) as [-> |]; [left; split; [auto 10 | discriminate] |].
  destruct (Z.eq_dec l 4) as [-> |]; [left; split; [auto 10 | discriminate] |].
  destruct (Z.eq_dec l 5) as [-> |]; [left; split; [auto 10 | discriminate] |].
  right. split; [lia |].
  unfold levels.Level_String, levels.levelTags,
    levels.LevelDebug, levels.LevelInfo, levels.LevelNotice, levels.LevelWarning,
    levels.LevelError, levels.LevelCritical.
  rewrite !lookup_insert_ne by congruence. rewrite lookup_empty. reflexivity.
Qed.

Lemma NewLevel_cases (name : string) :
  levels.levelNames !! name = Some (levels.NewLevel name)
  /\ 0 <= levels.NewLevel name <= 5
  \/ levels.levelNames !! name = None /\ levels.NewLevel name = levels.LevelError.
Proof.
  unfold levels.NewLevel, levels.levelNames.
  destruct (String.eqb_spec name "debug") as [-> | ?]; [left; split; [reflexivity | split; apply Z.leb_le; reflexivity] |].
  destruct (String.eqb_spec name "info") as [-> | ?]; [left; split; [reflexivity | split; apply Z.leb_le; reflexivity] |].
  destruct (String.eqb_spec name "notice") as [-> | ?]; [left; split; [reflexivity | split; apply Z.leb_le; reflexivity] |].
  destruct (String.eqb_spec name "warning") as [-> | ?]; [left; split; [reflexivity | split; apply Z.leb_le; reflexivity] |].
  destruct (String.eqb_spec name "error") as [-> | ?]; [left; split; [reflexivity | split; apply Z.leb_le; reflexivity] |].
  destruct (String.eqb_spec name "critical") as [-> | ?]; [left; split; [reflexivity | split; apply Z.leb_le; reflexivity] |].
  right. rewrite !lookup_insert_ne by congruence. rewrite lookup_empty. auto.
Qed.

(** X17.  [String] answers [[Unknown] ] exactly on the levels below
    [LevelDebug] and above [LevelCritical]; a level [NewLevel] returned
    always has a tag of its own. *)
Theorem tag_is_unknown_outside_the_six (l : levels.Level) :
  (levels.Level_String l = "[Unknown] " <-> l < levels.LevelDebug \/ levels.LevelCritical < l)
  /\ forall name, levels.Level_String (levels.NewLevel name) <> "[Unknown] ".
Proof.
  split.
  - destruct (Level_String_cases l) as [[Hin Hne] | [Hout He]].
    + split; [intros H; contradiction |].
      unfold levels.LevelDebug, levels.LevelCritical. lia.
    + split; [intros _; exact Hout | intros _; exact He].
  - intros name.
    destruct (Level_String_cases (levels.NewLevel name)) as [[_ Hne] | [Hout _]];
      [exact Hne |].
    destruct (NewLevel_cases name) as [[_ Hr] | [_ Hr]];
      [lia | rewrite Hr in Hout; unfold levels.LevelError in Hout; lia].
Qed.

(** X18.  A logger built with the level of a name [levelNames] does not know
    is a logger at [LevelError]: [Debug], [Info], [Printf], [Notice] and
    [Warning] write nothing, [Error] and [Critical] write their record, the
    tag first.  So in src/log.go, and so in part_001, where [Printf] goes
    through [Info]. *)
Theorem unknown_level_name_logs_errors_only (name msg : string) (out : os.Writer)
    (wd : os.World) :
  levels.levelNames !! name = None ->
  (forall rc,
     let l := LogGo.New out (levels.NewLevel name) rc in
     LogGo.Debug l msg wd = wd /\ LogGo.Info l msg wd = wd /\ LogGo.Printf l msg wd = wd
     /\ LogGo.Notice l msg wd = wd /\ LogGo.Warning l msg wd = wd
     /\ LogGo.Error l msg wd = os.emit ("[Error] " +:+ msg) wd
     /\ LogGo.Critical l msg wd = os.emit ("[Critical] " +:+ msg) wd)
  /\ (let l := Part001.New out (levels.NewLevel name) in
      Part001.Debug l msg wd = wd /\ Part001.Info l msg wd = wd
      /\ Part001.Printf l msg wd = wd
      /\ Part001.Notice l msg wd = wd /\ Part001.Warning l msg wd = wd
      /\ Part001.Error l msg wd = os.emit ("[Error] " +:+ msg) wd
      /\ Part001.Critical l msg wd = os.emit ("[Critical] " +:+ msg) wd).
Proof.
  intros Hname.
  destruct (NewLevel_cases name) as [[Hs _] | [_ Hr]];
    [discriminate (eq_trans (eq_sym Hname) Hs) |].
  rewrite Hr. split; [intros rc |]; repeat split.
Qed.

Lemma unknown_level_name_logs_errors_only_witness :
  LogGo.Warning (LogGo.New os.OtherWriter (levels.NewLevel "warn") None) "disk almost full"
    (examples.world_of [] [] examples.at_15_00_03)
  = examples.world_of [] [] examples.at_15_00_03.
Proof.
  destruct (unknown_level_name_logs_errors_only "warn" "disk almost full" os.OtherWriter
              (examples.world_of [] [] examples.at_15_00_03) eq_refl)
    as [H _].
  destruct (H None) as (_ & _ & _ & _ & H' & _). exact H'.
Defined.

(** ** The routine of part_000 *)

(** X19.  [New] of part_000 starts the rotation routine, and the routine
    reaches its loop, exactly when a configuration is given whose
    [StartRoutine] is set, whose [Rotate] is positive and whose [Duration] is
    at least one second. *)
Theorem New000_runs_the_routine_iff (out : os.Writer) (level : levels.Level)
    (rc : option Part000.RotateConfig) :
  (Part000.GoStartRotateRoutine ∈ (Part000.New out level rc).2
   /\ Part000.startRotateRoutine_enters (Part000.New out level rc).1 = true)
  <-> exists cfg, rc = Some cfg /\ Part000.rcStartRoutine cfg = true
                  /\ 0 < Part000.rcRotate cfg /\ gotime.Second <= Part000.rcDuration cfg.
Proof.
  unfold Part000.New, Part000.startRotateRoutine_enters. split.
  - intros [Hin Hen]. destruct rc as [cfg|]; cbn [fst snd Part000.rotateCfg] in *;
      [| discriminate].
    exists cfg. split; [reflexivity |].
    destruct (Part000.rcStartRoutine cfg); [| apply elem_of_nil in Hin; destruct Hin].
    split; [reflexivity |].
    apply negb_true_iff, orb_false_iff in Hen. destruct Hen as [H1 H2].
    apply Z.leb_gt in H1. apply Z.ltb_ge in H2. unfold gotime.Second in *. lia.
  - intros (cfg & -> & Hs & Hr & Hd). cbn [fst snd Part000.rotateCfg]. rewrite Hs.
    split; [left |].
    apply negb_true_iff, orb_false_iff.
    split; [apply Z.leb_gt; lia | apply Z.ltb_ge; unfold gotime.Second in *; lia].
Qed.

(** ** A rotation and the sweep it starts *)

(** X20.  The sweep that follows a rotation does not find the archive just
    made overdue.  With [Rotate] positive, a window that fits [int64], a zone
    whose offset is in whole minutes and a four-digit year: in src/log.go and
    part_000, when [Duration] is a whole number of seconds (under one minute)
    or of minutes (from one minute on), [isOverdue] answers no on the label
    [Rotate] forms from the clock reading it hands to the sweep; in part_001,
    when [Duration] is the day, hour, minute or second of the layout,
    [isOverdue] answers no on the label [genSuffixStr] has just written. *)
Theorem fresh_archive_is_not_overdue (w : os.World) :
  os.later w = [] -> os.local w mod 60 = 0 ->
  (forall l cfg now,
     LogGo.rotateCfg l = Some cfg ->
     LogGo.suffixFormat l = spec.layoutGo (LogGo.rcDuration cfg) ->
     0 < LogGo.rcRotate cfg -> 0 < LogGo.rcDuration cfg ->
     LogGo.rcDuration cfg mod
       (spec.resolution (spec.layoutGo (LogGo.rcDuration cfg)) * gotime.Second) = 0 ->
     spec.window_fits (LogGo.rcDuration cfg) (LogGo.rcRotate cfg) ->
     0 <= gotime.year (gotime.civil (os.local w)
                         (gotime.Truncate now (LogGo.rcDuration cfg))) <= 9999 ->
     LogGo.isOverdue l now
       (gotime.Format (os.local w) (gotime.Truncate now (LogGo.rcDuration cfg))
          (LogGo.suffixFormat l)) w
     = Some (false, w))
  /\ (forall l cfg,
        Part000.rotateCfg l = Some cfg ->
        Part000.suffixFormat l = spec.layoutGo (Part000.rcDuration cfg) ->
        0 < Part000.rcRotate cfg -> 0 < Part000.rcDuration cfg ->
        Part000.rcDuration cfg mod
          (spec.resolution (spec.layoutGo (Part000.rcDuration cfg)) * gotime.Second) = 0 ->
        spec.window_fits (Part000.rcDuration cfg) (Part000.rcRotate cfg) ->
        0 <= gotime.year (gotime.civil (os.local w)
                            (gotime.Truncate (os.now w) (Part000.rcDuration cfg))) <= 9999 ->
        exists label,
          Part000.genSuffixStr l w = Some (label, w)
          /\ Part000.isOverdue l label w = Some (false, w))
  /\ (forall l,
        spec.granular (Part001.suffixFormat l) ->
        Part001.Duration (Part001.param l)
        = spec.resolution (Part001.suffixFormat l) * gotime.Second ->
        0 < Part001.Rotate (Part001.param l) ->
        spec.window_fits (Part001.Duration (Part001.param l))
          (Part001.Rotate (Part001.param l)) ->
        0 <= gotime.year (gotime.civil (os.local w) (os.now w)) <= 9999 ->
        Part001.isOverdue l (Part001.genSuffixStr l w).1 w = (false, w)).
Proof.
  intros Hlt Hloc. split; [| split].
  - intros l cfg now Hcfg Hf Hr Hd Hmul Hwin Hy.
    set (D := LogGo.rcDuration cfg) in *.
    assert (Hg : spec.granular (spec.layoutGo D)).
    { unfold spec.layoutGo, spec.granular. destruct (_ <? _); auto. }
    unfold LogGo.isOverdue. rewrite Hf.
    rewrite (label_round_trip _ _ _ Hg Hy), Hcfg. cbn [mbind option_bind]. fold D.
    unfold gotime.dur_mul. unfold spec.window_fits in Hwin.
    rewrite wrap64_small by lia. rewrite Sub_gt_iff by exact Hwin.
    assert ((D * LogGo.rcRotate cfg
             <? now - spec.label_start (os.local w) (gotime.Truncate now D) (spec.layoutGo D))
            = false) as ->; [| reflexivity].
    apply Z.ltb_ge.
    unfold spec.label_start, gotime.Truncate.
    assert ((D <=? 0) = false) as -> by (apply Z.leb_gt; lia).
    set (res := spec.resolution (spec.layoutGo D)) in *.
    assert (Hres : res = 1 \/ res = 60).
    { subst res. unfold spec.layoutGo, spec.resolution. destruct (_ <? _); auto. }
    assert (HD : D <= D * LogGo.rcRotate cfg) by nia.
    unfold gotime.zeroTime, gotime.Second in *.
    clearbody res D. clear Hy Hg Hf Hwin.
    destruct Hres as [-> | ->]; Z.div_mod_to_equations; lia.
  - intros l cfg Hcfg Hf Hr Hd Hmul Hwin Hy.
    set (D := Part000.rcDuration cfg) in *.
    assert (Hg : spec.granular (spec.layoutGo D)).
    { unfold spec.layoutGo, spec.granular. destruct (_ <? _); auto. }
    unfold Part000.genSuffixStr. rewrite Hcfg. cbn [mbind option_bind].
    rewrite (Now_frozen w Hlt). fold D. eexists. split; [reflexivity |].
    unfold Part000.isOverdue. rewrite Hf.
    rewrite (label_round_trip _ _ _ Hg Hy), (Now_frozen w Hlt), Hcfg.
    cbn [mbind option_bind]. fold D.
    unfold gotime.dur_mul. unfold spec.window_fits in Hwin.
    rewrite wrap64_small by lia. rewrite Sub_gt_iff by exact Hwin.
    assert ((D * Part000.rcRotate cfg
             <? os.now w - spec.label_start (os.local w) (gotime.Truncate (os.now w) D)
                             (spec.layoutGo D))
            = false) as ->; [| reflexivity].
    apply Z.ltb_ge.
    unfold spec.label_start, gotime.Truncate.
    assert ((D <=? 0) = false) as -> by (apply Z.leb_gt; lia).
    set (res := spec.resolution (spec.layoutGo D)) in *.
    assert (Hres : res = 1 \/ res = 60).
    { subst res. unfold spec.layoutGo, spec.resolution. destruct (_ <? _); auto. }
    assert (HD : D <= D * Part000.rcRotate cfg) by nia.
    unfold gotime.zeroTime, gotime.Second in *.
    clearbody res D. clear Hy Hg Hf Hwin.
    destruct Hres as [-> | ->]; Z.div_mod_to_equations; lia.
  - intros l Hg HD Hr Hwin Hy.
    assert (Hlab : (Part001.genSuffixStr l w).1
                   = gotime.Format (os.local w) (os.now w) (Part001.suffixFormat l)).
    { unfold Part001.genSuffixStr. rewrite (granular_not_empty _ Hg), (Now_frozen w Hlt).
      reflexivity. }
    rewrite Hlab. unfold Part001.isOverdue.
    rewrite (label_round_trip _ _ _ Hg Hy), (Now_frozen w Hlt).
    unfold gotime.dur_mul. unfold spec.window_fits in Hwin.
    rewrite wrap64_small by lia. rewrite Sub_gt_iff by exact Hwin.
    assert ((Part001.Duration (Part001.param l) * Part001.Rotate (Part001.param l)
             <? os.now w - spec.label_start (os.local w) (os.now w) (Part001.suffixFormat l))
            = false) as ->; [| reflexivity].
    apply Z.ltb_ge. rewrite HD. unfold spec.label_start.
    set (res := spec.resolution (Part001.suffixFormat l)) in *.
    assert (Hres : res = 86400 \/ res = 3600 \/ res = 60 \/ res = 1).
    { subst res. destruct Hg as [-> | [-> | [-> | ->]]]; cbn; auto. }
    assert (HR : res * gotime.Second <= res * gotime.Second * Part001.Rotate (Part001.param l))
      by (unfold gotime.Second; nia).
    unfold gotime.Second in *. clearbody res. clear Hy Hg HD Hwin Hlab.
    destruct Hres as [-> | [-> | [-> | ->]]]; Z.div_mod_to_equations; lia.
Qed.

Lemma fresh_archive_is_not_overdue_witness :
  Part001.isOverdue (examples.logger001 "20240101150000") "20240101150003"
    (examples.world_of [] [] (examples.at_15_00_03 + 700000000))
  = (false, examples.world_of [] [] (examples.at_15_00_03 + 700000000)).
Proof.
  destruct (fresh_archive_is_not_overdue
              (examples.world_of [] [] (examples.at_15_00_03 + 700000000))) as (_ & _ & H);
    [reflexivity | reflexivity |].
  apply (H (examples.logger001 "20240101150000")).
  - right. right. right. reflexivity.
  - reflexivity.
  - reflexivity.
  - vm_compute. split; [discriminate | reflexivity].
  - vm_compute. split; discriminate.
Defined.

(** The whole number matters: with buckets of a second and a half and one
    archive kept, the label of 15:00:11.9 is that of 15:00:10, which is 1.9
    seconds back, and the archive counts as overdue the moment it is made. *)
Example fresh_archive_overdue_at_once :
  let cfg := {| LogGo.rcRotate := 1; LogGo.rcDuration := 1500000000;
                LogGo.rcCompress := false |} in
  let now := gotime.Date 2024 1 1 15 0 11 0 + 900000000 in
  gotime.Format 0 (gotime.Truncate now (LogGo.rcDuration cfg)) levels.formatSec
  = "20240101150010"
  /\ LogGo.isOverdue (LogGo.set_suffixFormat levels.formatSec (examples.loggerGo cfg)) now
       "20240101150010" (examples.world_of [] [] now)
     = Some (true, examples.world_of [] [] now).
Proof. split; vm_compute; reflexivity. Qed.
